(** * BTCP: the Browser Tool Calling Protocol relay, in Rocq

    A shallow embedding of the TypeScript sources of btcp-server:
    - [errors.ts]   the error codes and the typed error classes;
    - [protocol.ts] message ids, message creators, [parseMessage];
    - [executor.ts] the tool executor and its result normalizer;
    - [client.ts]   the provider-side client (requests, tool calls,
                    [disconnect]);
    - [server.ts]   the relay: sessions, routing, pending responses,
                    time-outs, disconnects and the SSE writes.

    JavaScript values are a tree type [JsValue]; JS [Map]s that the code
    iterates are insertion-ordered association lists ([JsMap]); maps that
    are only read and written by key are [gmap]s.  Objects that are shared
    and mutated (sessions, HTTP response streams) live in a store and are
    referred to by their allocation index.  The engine's own functions
    ([JSON.parse], [JSON.stringify]) are an interface, [JsEngine].

    What the HTTP layer does before it calls a handler (URL routing, CORS
    headers, the health check), the closing of the HTTP server in
    [BTCPServer.stop], [BTCPClient.connect] and the built-in tool
    handlers are left out: no statement below is about them. *)

From Stdlib Require Import ZArith String Ascii List Bool DecimalString
  DecimalPos DecimalZ Lia.
From stdpp Require Import gmap strings list.

Open Scope string_scope.
Open Scope list_scope.
Set Warnings "-register-all".

(* ================================================================== *)
(** * JavaScript values *)
(* ================================================================== *)

(** Numbers are the integers: ids, error codes, counts and time stamps
    are integers throughout the repository. *)
Inductive JsValue : Type :=
| JUndefined
| JNull
| JBool (b : bool)
| JNum (n : Z)
| JStr (s : string)
| JArr (items : list JsValue)
| JObj (props : list (string * JsValue)).

Definition LF : string := String "010"%char EmptyString.

Definition string_of_Z (z : Z) : string := NilZero.string_of_int (Z.to_int z).

(** Insertion-ordered string-keyed maps: the own properties of an object,
    and the JS [Map]s the relay iterates.  [set] on a key that is present
    keeps its position; [set] on a new key appends. *)
Module JsMap.
Definition t (V : Type) : Type := list (string * V).

Definition empty {V} : t V := [].

Fixpoint get {V} (k : string) (m : t V) : option V :=
  match m with
  | [] => None
  | (k', v) :: m' => if String.eqb k k' then Some v else get k m'
  end.

Definition has {V} (k : string) (m : t V) : bool :=
  match get k m with Some _ => true | None => false end.

Fixpoint set {V} (k : string) (v : V) (m : t V) : t V :=
  match m with
  | [] => [(k, v)]
  | (k', v') :: m' =>
      if String.eqb k k' then (k, v) :: m' else (k', v') :: set k v m'
  end.

Fixpoint delete {V} (k : string) (m : t V) : t V :=
  match m with
  | [] => []
  | (k', v') :: m' =>
      if String.eqb k k' then delete k m' else (k', v') :: delete k m'
  end.

Definition values {V} (m : t V) : list V := map snd m.
Definition keys {V} (m : t V) : list string := map fst m.
Definition entries {V} (m : t V) : list (string * V) := m.
Definition size {V} (m : t V) : nat := length m.
End JsMap.

(** [typeof v] *)
Definition js_typeof (v : JsValue) : string :=
  match v with
  | JUndefined => "undefined"
  | JNull | JArr _ | JObj _ => "object"
  | JBool _ => "boolean"
  | JNum _ => "number"
  | JStr _ => "string"
  end.

Definition is_nullish (v : JsValue) : bool :=
  match v with JUndefined | JNull => true | _ => false end.

(** [v[k]] for a value that is not nullish: an own property of an object,
    [undefined] otherwise. *)
Definition js_prop (v : JsValue) (k : string) : JsValue :=
  match v with
  | JObj ps => default JUndefined (JsMap.get k ps)
  | _ => JUndefined
  end.

(** [k in v] for an object [v] (the names tested, [id] and [method], are
    not on any prototype). *)
Definition js_in (k : string) (v : JsValue) : bool :=
  match v with
  | JObj ps => JsMap.has k ps
  | _ => false
  end.

(** [{...v, k: x}] *)
Definition js_spread_set (v : JsValue) (k : string) (x : JsValue) : JsValue :=
  match v with
  | JObj ps => JObj (JsMap.set k x ps)
  | _ => JObj [(k, x)]
  end.

(** [v === s] for a string literal [s] *)
Definition js_is_string (v : JsValue) (s : string) : bool :=
  match v with
  | JStr s' => String.eqb s' s
  | _ => false
  end.

Definition join_with (sep : string) (l : list string) : string :=
  match l with
  | [] => EmptyString
  | x :: l' => fold_left (fun acc y => acc +:+ sep +:+ y) l' x
  end.

(** [String(v)] *)
Fixpoint js_String (v : JsValue) : string :=
  match v with
  | JUndefined => "undefined"
  | JNull => "null"
  | JBool true => "true"
  | JBool false => "false"
  | JNum n => string_of_Z n
  | JStr s => s
  | JArr items =>
      join_with ","
        (map (fun x => if is_nullish x then EmptyString else js_String x) items)
  | JObj _ => "[object Object]"
  end.

(** [v.length], as the relay reads it off the [tools] value of a
    [tools/register] request: a [TypeError] (here [None]) on [undefined]
    and [null]. *)
Definition js_length (v : JsValue) : option JsValue :=
  match v with
  | JUndefined | JNull => None
  | JArr items => Some (JNum (Z.of_nat (length items)))
  | JStr s => Some (JNum (Z.of_nat (String.length s)))
  | JObj ps => Some (default JUndefined (JsMap.get "length" ps))
  | JBool _ | JNum _ => Some JUndefined
  end.

(** [if (v)]: the truthiness of a value *)
Definition js_truthy (v : JsValue) : bool :=
  match v with
  | JUndefined | JNull => false
  | JBool b => b
  | JNum n => negb (n =? 0)%Z
  | JStr s => negb (String.eqb s EmptyString)
  | JArr _ | JObj _ => true
  end.

(** The functions of the engine that the code calls and does not define.
    [JSON_parse] answers the decoded value, or the message of the
    [SyntaxError] it throws. *)
Class JsEngine : Type := {
  JSON_parse : string -> JsValue + string;
  JSON_stringify : JsValue -> string;
  JSON_stringify_indent : nat -> JsValue -> string;
  Date_toISOString : Z -> string
}.

(* ================================================================== *)
(** * errors.ts *)
(* ================================================================== *)

Module ErrorCodes.
Definition PARSE_ERROR : Z := -32700.
Definition INVALID_REQUEST : Z := -32600.
Definition METHOD_NOT_FOUND : Z := -32601.
Definition INVALID_PARAMS : Z := -32602.
Definition INTERNAL_ERROR : Z := -32603.
Definition CONNECTION_ERROR : Z := -32000.
Definition TIMEOUT_ERROR : Z := -32001.
Definition SESSION_ERROR : Z := -32002.
Definition EXECUTION_ERROR : Z := -32003.
Definition TOOL_NOT_FOUND : Z := -32004.
Definition VALIDATION_ERROR : Z := -32005.
Definition PERMISSION_ERROR : Z := -32006.
End ErrorCodes.

Inductive ErrorClass : Type :=
| Error
| TypeError
| SyntaxError
| BTCPError
| BTCPConnectionError
| BTCPTimeoutError
| BTCPSessionError
| BTCPValidationError
| BTCPExecutionError
| BTCPToolNotFoundError
| BTCPPermissionError
| BTCPParseError
| BTCPInvalidRequestError
| BTCPMethodNotFoundError.

Definition ErrorClass_eqb (a b : ErrorClass) : bool :=
  match a, b with
  | Error, Error | TypeError, TypeError | SyntaxError, SyntaxError
  | BTCPError, BTCPError | BTCPConnectionError, BTCPConnectionError
  | BTCPTimeoutError, BTCPTimeoutError | BTCPSessionError, BTCPSessionError
  | BTCPValidationError, BTCPValidationError
  | BTCPExecutionError, BTCPExecutionError
  | BTCPToolNotFoundError, BTCPToolNotFoundError
  | BTCPPermissionError, BTCPPermissionError
  | BTCPParseError, BTCPParseError
  | BTCPInvalidRequestError, BTCPInvalidRequestError
  | BTCPMethodNotFoundError, BTCPMethodNotFoundError => true
  | _, _ => false
  end.

(** An error object: its class, [message], and for the BTCP classes the
    [code] and [data] that [BTCPError]'s constructor stores. *)
Record JsError : Type := {
  err_class : ErrorClass;
  err_message : string;
  err_code : option Z;
  err_data : JsValue
}.

(** What a [throw] carries: an error object, or any other value. *)
Inductive Thrown : Type :=
| ThrownError (e : JsError)
| ThrownValue (v : JsValue).

Inductive Completion (A : Type) : Type :=
| Normal (a : A)
| Throw (t : Thrown).
Arguments Normal {A} a.
Arguments Throw {A} t.

Definition new_Error (message : string) : JsError :=
  {| err_class := Error; err_message := message;
     err_code := None; err_data := JUndefined |}.

Definition new_TypeError (message : string) : JsError :=
  {| err_class := TypeError; err_message := message;
     err_code := None; err_data := JUndefined |}.

Definition new_SyntaxError (message : string) : JsError :=
  {| err_class := SyntaxError; err_message := message;
     err_code := None; err_data := JUndefined |}.

Definition new_BTCPConnectionError (message : string) : JsError :=
  {| err_class := BTCPConnectionError; err_message := message;
     err_code := Some ErrorCodes.CONNECTION_ERROR; err_data := JUndefined |}.

Definition new_BTCPTimeoutError (message : string) : JsError :=
  {| err_class := BTCPTimeoutError; err_message := message;
     err_code := Some ErrorCodes.TIMEOUT_ERROR; err_data := JUndefined |}.

Definition new_BTCPExecutionError (message : string) (toolName : JsValue)
    (data : JsValue) : JsError :=
  {| err_class := BTCPExecutionError; err_message := message;
     err_code := Some ErrorCodes.EXECUTION_ERROR; err_data := data |}.

Definition new_BTCPToolNotFoundError (toolName : JsValue) : JsError :=
  {| err_class := BTCPToolNotFoundError;
     err_message := "Tool not found: " +:+ js_String toolName;
     err_code := Some ErrorCodes.TOOL_NOT_FOUND;
     err_data := JObj [("toolName", toolName)] |}.

Definition new_BTCPParseError (message : string) (data : JsValue) : JsError :=
  {| err_class := BTCPParseError; err_message := message;
     err_code := Some ErrorCodes.PARSE_ERROR; err_data := data |}.

Definition new_BTCPInvalidRequestError (message : string) (data : JsValue)
    : JsError :=
  {| err_class := BTCPInvalidRequestError; err_message := message;
     err_code := Some ErrorCodes.INVALID_REQUEST; err_data := data |}.

(** [t instanceof C] for a class [C] without subclasses *)
Definition instanceof (t : Thrown) (C : ErrorClass) : bool :=
  match t with
  | ThrownError e => ErrorClass_eqb (err_class e) C
  | ThrownValue _ => false
  end.

(** [error instanceof Error ? error.message : String(error)] *)
Definition error_message_or_String (t : Thrown) : string :=
  match t with
  | ThrownError e => err_message e
  | ThrownValue v => js_String v
  end.

Definition thrown_code (t : Thrown) : option Z :=
  match t with
  | ThrownError e => err_code e
  | ThrownValue _ => None
  end.

(* ================================================================== *)
(** * protocol.ts *)
(* ================================================================== *)

Module Protocol.

(** [generateMessageId]: the module's [messageCounter] is passed in and
    handed back, [now] is the reading of [Date.now()]. *)
Definition generateMessageId (now : Z) (messageCounter : Z) : string * Z :=
  let messageCounter := (messageCounter + 1)%Z in
  ("btcp-" +:+ string_of_Z now +:+ "-" +:+ string_of_Z messageCounter,
   messageCounter).

(** [...(x !== undefined && { k: x })] *)
Definition optional_prop (k : string) (x : JsValue)
    : list (string * JsValue) :=
  match x with
  | JUndefined => []
  | _ => [(k, x)]
  end.

Definition createRequest (method : string) (params : JsValue) (id : JsValue)
    : JsValue :=
  JObj ([("jsonrpc", JStr "2.0"); ("id", id); ("method", JStr method)]
        ++ optional_prop "params" params).

Definition createResponse (id : JsValue) (result : JsValue) : JsValue :=
  JObj [("jsonrpc", JStr "2.0"); ("id", id); ("result", result)].

Definition createErrorResponse (id : JsValue) (code : Z) (message : string)
    (data : JsValue) : JsValue :=
  let error :=
    JObj ([("code", JNum code); ("message", JStr message)]
          ++ optional_prop "data" data) in
  JObj [("jsonrpc", JStr "2.0"); ("id", id); ("error", error)].

Definition createNotification (method : string) (params : JsValue)
    : JsValue :=
  JObj ([("jsonrpc", JStr "2.0"); ("method", JStr method)]
        ++ optional_prop "params" params).

Definition createTextContent (text : string) : JsValue :=
  JObj [("type", JStr "text"); ("text", JStr text)].

Definition createImageContent (data : string) (mimeType : option string)
    : JsValue :=
  let mimeType := default "image/png" mimeType in
  JObj [("type", JStr "image"); ("data", JStr data);
        ("mimeType", JStr mimeType)].

Definition createToolCallResponse (id : JsValue) (content : list JsValue)
    : JsValue :=
  JObj [("jsonrpc", JStr "2.0"); ("id", id);
        ("result", JObj [("content", JArr content);
                         ("isError", JBool false)])].

(** The default of the third parameter, [code: number = -32603]. *)
Definition createToolCallErrorResponse_default_code : Z := -32603.

Definition createToolCallErrorResponse (id : JsValue)
    (errorMessage : string) (code : option Z) : JsValue :=
  let code := default createToolCallErrorResponse_default_code code in
  JObj [("jsonrpc", JStr "2.0"); ("id", id);
        ("result", JObj [("content", JArr [createTextContent errorMessage]);
                         ("isError", JBool true)]);
        ("error", JObj [("code", JNum code);
                        ("message", JStr errorMessage)])].

Definition isValidJsonRpcMessage (obj : JsValue) : bool :=
  if negb (String.eqb (js_typeof obj) "object") || is_nullish obj then false
  else js_is_string (js_prop obj "jsonrpc") "2.0".

Definition parseMessage `{JsEngine} (data : string) : Completion JsValue :=
  let try : Completion JsValue :=
    match JSON_parse data with
    | inr syntax => Throw (ThrownError (new_SyntaxError syntax))
    | inl parsed =>
        if negb (isValidJsonRpcMessage parsed) then
          Throw (ThrownError
                   (new_BTCPParseError "Invalid JSON-RPC message structure"
                                       JUndefined))
        else Normal parsed
    end in
  match try with
  | Normal parsed => Normal parsed
  | Throw error =>
      if instanceof error BTCPParseError then Throw error
      else
        Throw (ThrownError
                 (new_BTCPParseError "Failed to parse JSON-RPC message"
                    (JObj [("originalError",
                            JStr (error_message_or_String error))])))
  end.

Definition serializeMessage `{JsEngine} (message : JsValue) : string :=
  JSON_stringify message.

Definition isRequest (message : JsValue) : bool :=
  js_in "id" message && js_in "method" message.

Definition isResponse (message : JsValue) : bool :=
  js_in "id" message && negb (js_in "method" message).

Definition isNotification (message : JsValue) : bool :=
  negb (js_in "id" message) && js_in "method" message.

(** [createPongResponse]; [now] is the reading of [Date.now()]. *)
Definition createPongResponse (now : Z) (id : JsValue) : JsValue :=
  createResponse id (JObj [("pong", JBool true); ("timestamp", JNum now)]).

(** [isErrorResponse]: ['error' in response && response.error !== undefined] *)
Definition isErrorResponse (response : JsValue) : bool :=
  js_in "error" response
  && match js_prop response "error" with
     | JUndefined => false
     | _ => true
     end.

(** [createRequest] with its default for the id, [id ?? generateMessageId()]:
    the counter is passed in and handed back, and [now] is the reading of
    [Date.now()] that is taken when an id is generated. *)
Definition createRequest_at (now : Z) (messageCounter : Z) (method : string)
    (params : JsValue) (id : JsValue) : JsValue * Z :=
  if is_nullish id then
    let '(id, messageCounter) := generateMessageId now messageCounter in
    (createRequest method params (JStr id), messageCounter)
  else (createRequest method params id, messageCounter).

(** The helpers that make the requests of the protocol; each leaves the
    id to [createRequest]. *)
Definition createToolsListRequest (now : Z) (messageCounter : Z)
    (filter : JsValue) : JsValue * Z :=
  createRequest_at now messageCounter "tools/list"
    (if js_truthy filter then JObj [("filter", filter)] else JUndefined)
    JUndefined.

Definition createToolCallRequest (now : Z) (messageCounter : Z)
    (name : string) (args : JsValue) : JsValue * Z :=
  createRequest_at now messageCounter "tools/call"
    (JObj ([("name", JStr name)] ++ optional_prop "arguments" args))
    JUndefined.

Definition createToolsRegisterRequest (now : Z) (messageCounter : Z)
    (tools : JsValue) : JsValue * Z :=
  createRequest_at now messageCounter "tools/register"
    (JObj [("tools", tools)]) JUndefined.

Definition createSessionJoinRequest (now : Z) (messageCounter : Z)
    (sessionId : string) : JsValue * Z :=
  createRequest_at now messageCounter "session/join"
    (JObj [("sessionId", JStr sessionId)]) JUndefined.

Definition createPingRequest (now : Z) (messageCounter : Z) : JsValue * Z :=
  createRequest_at now messageCounter "ping" JUndefined JUndefined.

End Protocol.

(* ================================================================== *)
(** * executor.ts *)
(* ================================================================== *)

Module ToolExecutor.
Import Protocol.

(** A tool handler: the value its promise resolves to, or what it
    throws (or rejects with). *)
Abbreviation ToolHandler := (JsValue -> Completion JsValue).

Record t : Type := {
  handlers : gmap string ToolHandler;
  toolDefinitions : JsMap.t JsValue
}.

Definition registerHandler (name : string) (handler : ToolHandler)
    (definition : option JsValue) (ex : t) : t :=
  {| handlers := <[name := handler]> (handlers ex);
     toolDefinitions :=
       match definition with
       | Some d => JsMap.set name d (toolDefinitions ex)
       | None => toolDefinitions ex
       end |}.

Definition unregisterHandler (name : string) (ex : t) : bool * t :=
  let deleted := bool_decide (is_Some (handlers ex !! name)) in
  (deleted,
   {| handlers := delete name (handlers ex);
      toolDefinitions := JsMap.delete name (toolDefinitions ex) |}).

Definition hasHandler (name : string) (ex : t) : bool :=
  bool_decide (is_Some (handlers ex !! name)).

Definition getToolDefinitions (ex : t) : list JsValue :=
  JsMap.values (toolDefinitions ex).

Definition getToolDefinition (name : string) (ex : t) : option JsValue :=
  JsMap.get name (toolDefinitions ex).

Definition isBTCPContent (value : JsValue) : bool :=
  if negb (String.eqb (js_typeof value) "object") || is_nullish value
  then false
  else
    let type := js_prop value "type" in
    js_is_string type "text" || js_is_string type "image"
    || js_is_string type "resource".

(** A character of the class [[A-Za-z0-9+/=]]. *)
Definition is_base64_char (c : ascii) : bool :=
  let n := nat_of_ascii c in
  (((65 <=? n) && (n <=? 90)) || ((97 <=? n) && (n <=? 122))
   || ((48 <=? n) && (n <=? 57))
   || (n =? 43) || (n =? 47) || (n =? 61))%nat.

Fixpoint string_forallb (p : ascii -> bool) (s : string) : bool :=
  match s with
  | EmptyString => true
  | String c s' => p c && string_forallb p s'
  end.

(** [/^[A-Za-z0-9+/=]{100,}$/.test(s)] *)
Definition base64_run_100 (s : string) : bool :=
  (100 <=? String.length s)%nat && string_forallb is_base64_char s.

Definition isBase64Image (str : string) : bool :=
  String.prefix "data:image/" str || base64_run_100 (substring 0 200 str).

Definition detectImageMimeType (data : string) : string :=
  if String.prefix "data:image/png" data then "image/png"
  else if String.prefix "data:image/jpeg" data then "image/jpeg"
  else if String.prefix "data:image/gif" data then "image/gif"
  else if String.prefix "data:image/webp" data then "image/webp"
  else if String.prefix "data:image/svg" data then "image/svg+xml"
  else "image/png".

Definition normalizeResult `{JsEngine} (result : JsValue) : list JsValue :=
  match result with
  | JArr items =>
      match items with
      | first :: _ =>
          if isBTCPContent first then items
          else [createTextContent (JSON_stringify_indent 2 result)]
      | [] => [createTextContent (JSON_stringify_indent 2 result)]
      end
  | _ =>
      if isBTCPContent result then [result]
      else
        match result with
        | JStr str =>
            if isBase64Image str
            then [createImageContent str (Some (detectImageMimeType str))]
            else [createTextContent str]
        | _ =>
            if String.eqb (js_typeof result) "object"
               && negb (is_nullish result)
            then [createTextContent (JSON_stringify_indent 2 result)]
            else [createTextContent (js_String result)]
        end
  end.

(** [execute]: what the promise resolves to, or rejects with.  A name
    that is not a string is no key of [handlers].  The error object that
    [BTCPExecutionError] keeps as [originalError] is kept as its message. *)
Definition execute `{JsEngine} (ex : t) (name : JsValue) (args : JsValue)
    : Completion (list JsValue) :=
  let args := match args with JUndefined => JObj [] | _ => args end in
  let handler :=
    match name with
    | JStr n => handlers ex !! n
    | _ => None
    end in
  match handler with
  | None => Throw (ThrownError (new_BTCPToolNotFoundError name))
  | Some handler =>
      match handler args with
      | Normal result => Normal (normalizeResult result)
      | Throw error =>
          if instanceof error BTCPToolNotFoundError then Throw error
          else
            let message := error_message_or_String error in
            Throw (ThrownError
                     (new_BTCPExecutionError message name
                        (JObj [("originalError",
                                match error with
                                | ThrownValue v => v
                                | ThrownError e => JStr (err_message e)
                                end)])))
      end
  end.

End ToolExecutor.

(* ================================================================== *)
(** * client.ts *)
(* ================================================================== *)

Module BTCPClient.
Import Protocol.

Record Config : Type := {
  serverUrl : string;
  debug : bool;
  autoReconnect : bool;
  reconnectDelay : Z;
  maxReconnectAttempts : Z;
  connectionTimeout : Z
}.

(** How the promise returned by [request] ended. *)
Inductive Settlement : Type :=
| Resolved (result : JsValue)
| Rejected (error : Thrown).

(** An argument handed to the event handlers by [emit]. *)
Inductive EventArg : Type :=
| ArgValue (v : JsValue)
| ArgError (e : JsError).

(** The [readyState] of an [EventSource]. *)
Definition CONNECTING : Z := 0.
Definition OPEN : Z := 1.
Definition CLOSED : Z := 2.

(** An entry of [pendingRequests].  Its [resolve] and [reject] are
    closures over the promise that [request] returned; promises are
    named by the id of their request. *)
Record PendingRequest : Type := {
  pending_promise : string
}.

(** The client object, followed by what it has done to the world:
    - [eventSources]: the [readyState] of every [EventSource] created,
      [eventSource] being [null] or the index of one of them;
    - [promises]: the promises of [request] settled so far, by request id;
    - [requestTimers]: the armed [setTimeout]s of [request], by request
      id, each with the [method] its callback captured;
    - [reconnectTimers]: the delays of the reconnections scheduled;
    - [posted]: the bodies handed to [fetch];
    - [emitted]: the events given to [emit], oldest first. *)
Record t : Type := {
  config : Config;
  eventSource : option nat;
  sessionId : string;
  executor : ToolExecutor.t;
  connected : bool;
  reconnectAttempts : Z;
  pendingRequests : gmap string PendingRequest;
  messageCounter : Z;
  eventSources : list Z;
  promises : gmap string Settlement;
  requestTimers : gmap string string;
  reconnectTimers : list Z;
  posted : list string;
  emitted : list (string * list EventArg)
}.

Definition with_eventSource (v : option nat) (c : t) : t :=
  {| config := config c; eventSource := v; sessionId := sessionId c;
     executor := executor c; connected := connected c;
     reconnectAttempts := reconnectAttempts c;
     pendingRequests := pendingRequests c;
     messageCounter := messageCounter c; eventSources := eventSources c;
     promises := promises c; requestTimers := requestTimers c;
     reconnectTimers := reconnectTimers c; posted := posted c;
     emitted := emitted c |}.

Definition with_connected (v : bool) (c : t) : t :=
  {| config := config c; eventSource := eventSource c;
     sessionId := sessionId c;
     executor := executor c; connected := v;
     reconnectAttempts := reconnectAttempts c;
     pendingRequests := pendingRequests c;
     messageCounter := messageCounter c; eventSources := eventSources c;
     promises := promises c; requestTimers := requestTimers c;
     reconnectTimers := reconnectTimers c; posted := posted c;
     emitted := emitted c |}.

Definition with_reconnectAttempts (v : Z) (c : t) : t :=
  {| config := config c; eventSource := eventSource c;
     sessionId := sessionId c;
     executor := executor c; connected := connected c;
     reconnectAttempts := v;
     pendingRequests := pendingRequests c;
     messageCounter := messageCounter c; eventSources := eventSources c;
     promises := promises c; requestTimers := requestTimers c;
     reconnectTimers := reconnectTimers c; posted := posted c;
     emitted := emitted c |}.

Definition with_pendingRequests (v : gmap string PendingRequest) (c : t)
    : t :=
  {| config := config c; eventSource := eventSource c;
     sessionId := sessionId c;
     executor := executor c; connected := connected c;
     reconnectAttempts := reconnectAttempts c;
     pendingRequests := v;
     messageCounter := messageCounter c; eventSources := eventSources c;
     promises := promises c; requestTimers := requestTimers c;
     reconnectTimers := reconnectTimers c; posted := posted c;
     emitted := emitted c |}.

Definition with_messageCounter (v : Z) (c : t) : t :=
  {| config := config c; eventSource := eventSource c;
     sessionId := sessionId c;
     executor := executor c; connected := connected c;
     reconnectAttempts := reconnectAttempts c;
     pendingRequests := pendingRequests c;
     messageCounter := v; eventSources := eventSources c;
     promises := promises c; requestTimers := requestTimers c;
     reconnectTimers := reconnectTimers c; posted := posted c;
     emitted := emitted c |}.

Definition with_eventSources (v : list Z) (c : t) : t :=
  {| config := config c; eventSource := eventSource c;
     sessionId := sessionId c;
     executor := executor c; connected := connected c;
     reconnectAttempts := reconnectAttempts c;
     pendingRequests := pendingRequests c;
     messageCounter := messageCounter c; eventSources := v;
     promises := promises c; requestTimers := requestTimers c;
     reconnectTimers := reconnectTimers c; posted := posted c;
     emitted := emitted c |}.

Definition with_promises (v : gmap string Settlement) (c : t) : t :=
  {| config := config c; eventSource := eventSource c;
     sessionId := sessionId c;
     executor := executor c; connected := connected c;
     reconnectAttempts := reconnectAttempts c;
     pendingRequests := pendingRequests c;
     messageCounter := messageCounter c; eventSources := eventSources c;
     promises := v; requestTimers := requestTimers c;
     reconnectTimers := reconnectTimers c; posted := posted c;
     emitted := emitted c |}.

Definition with_requestTimers (v : gmap string string) (c : t) : t :=
  {| config := config c; eventSource := eventSource c;
     sessionId := sessionId c;
     executor := executor c; connected := connected c;
     reconnectAttempts := reconnectAttempts c;
     pendingRequests := pendingRequests c;
     messageCounter := messageCounter c; eventSources := eventSources c;
     promises := promises c; requestTimers := v;
     reconnectTimers := reconnectTimers c; posted := posted c;
     emitted := emitted c |}.

Definition with_reconnectTimers (v : list Z) (c : t) : t :=
  {| config := config c; eventSource := eventSource c;
     sessionId := sessionId c;
     executor := executor c; connected := connected c;
     reconnectAttempts := reconnectAttempts c;
     pendingRequests := pendingRequests c;
     messageCounter := messageCounter c; eventSources := eventSources c;
     promises := promises c; requestTimers := requestTimers c;
     reconnectTimers := v; posted := posted c;
     emitted := emitted c |}.

Definition with_posted (v : list string) (c : t) : t :=
  {| config := config c; eventSource := eventSource c;
     sessionId := sessionId c;
     executor := executor c; connected := connected c;
     reconnectAttempts := reconnectAttempts c;
     pendingRequests := pendingRequests c;
     messageCounter := messageCounter c; eventSources := eventSources c;
     promises := promises c; requestTimers := requestTimers c;
     reconnectTimers := reconnectTimers c; posted := v;
     emitted := emitted c |}.

Definition with_emitted (v : list (string * list EventArg)) (c : t) : t :=
  {| config := config c; eventSource := eventSource c;
     sessionId := sessionId c;
     executor := executor c; connected := connected c;
     reconnectAttempts := reconnectAttempts c;
     pendingRequests := pendingRequests c;
     messageCounter := messageCounter c; eventSources := eventSources c;
     promises := promises c; requestTimers := requestTimers c;
     reconnectTimers := reconnectTimers c; posted := posted c;
     emitted := v |}.

(** [emit]: the handlers are the embedder's; an exception of a handler
    is caught and logged. *)
Definition emit (event : string) (args : list EventArg) (c : t) : t :=
  with_emitted (emitted c ++ [(event, args)]) c.

(** [eventSource.close()] *)
Definition EventSource_close (es : nat) (c : t) : t :=
  with_eventSources (<[es := CLOSED]> (eventSources c)) c.

(** A promise settles once: a later [resolve] or [reject] is ignored. *)
Definition settle (id : string) (s : Settlement) (c : t) : t :=
  match promises c !! id with
  | Some _ => c
  | None => with_promises (<[id := s]> (promises c)) c
  end.

Definition disconnect (c : t) : t :=
  let c :=
    match eventSource c with
    | Some es => with_eventSource None (EventSource_close es c)
    | None => c
    end in
  let c := with_connected false c in
  let c := with_reconnectAttempts (maxReconnectAttempts (config c)) c in
  emit "disconnect" [ArgValue (JNum 1000);
                      ArgValue (JStr "Client disconnected")] c.

Definition isConnected (c : t) : bool := connected c.

(** What [fetch] did with a POST: answered with [response.ok], answered
    with another status, or threw. *)
Inductive FetchOutcome : Type :=
| FetchOk
| FetchStatus (status : Z)
| FetchThrows (error : Thrown).

(** [sendMessage]: the body is handed to [fetch]; the promise resolves
    or rejects by what [fetch] did. *)
Definition sendMessage `{JsEngine} (net : FetchOutcome) (message : JsValue)
    (c : t) : Completion unit * t :=
  let body := serializeMessage message in
  let c := with_posted (posted c ++ [body]) c in
  match net with
  | FetchOk => (Normal tt, c)
  | FetchStatus status =>
      (Throw (ThrownError
                (new_BTCPConnectionError
                   ("HTTP error: " +:+ string_of_Z status))), c)
  | FetchThrows error =>
      if instanceof error BTCPConnectionError then (Throw error, c)
      else
        (Throw (ThrownError
                  (new_BTCPConnectionError
                     match error with
                     | ThrownError e => err_message e
                     | ThrownValue _ => "Failed to send message"
                     end)), c)
  end.

(** [request], up to the return of the promise: the id is allocated, the
    timer armed, the entry filed and the POST started.  [now] is the
    reading of [Date.now()].  Answers the id of the request. *)
Definition request `{JsEngine} (now : Z) (method : string)
    (params : JsValue) (c : t) : string * t :=
  let '(id, counter) := generateMessageId now (messageCounter c) in
  let c := with_messageCounter counter c in
  let request :=
    JObj ([("jsonrpc", JStr "2.0"); ("id", JStr id);
           ("method", JStr method)]
          ++ (if js_truthy params then [("params", params)] else [])) in
  let c := with_requestTimers (<[id := method]> (requestTimers c)) c in
  let c :=
    with_pendingRequests
      (<[id := {| pending_promise := id |}]> (pendingRequests c)) c in
  let c := with_posted (posted c ++ [serializeMessage request]) c in
  (id, c).

(** The timer of request [id] fires, if it is still armed. *)
Definition request_timeout (id : string) (c : t) : t :=
  match requestTimers c !! id with
  | Some method =>
      let c := with_requestTimers (delete id (requestTimers c)) c in
      let c := with_pendingRequests (delete id (pendingRequests c)) c in
      settle id
        (Rejected (ThrownError
                     (new_BTCPTimeoutError
                        ("Request timeout: " +:+ method)))) c
  | None => c
  end.


(** [handleResponse]; the [resolve] of the entry rejects on a response
    with an [error] and resolves with [result] otherwise.  The keys of
    [pendingRequests] are strings, so only a string id finds an entry. *)
Definition handleResponse (response : JsValue) (c : t) : t :=
  let pending :=
    match js_prop response "id" with
    | JStr id => (fun p => (id, p)) <$> pendingRequests c !! id
    | _ => None
    end in
  match pending with
  | Some (id, pending) =>
      let c := with_requestTimers (delete id (requestTimers c)) c in
      let c := with_pendingRequests (delete id (pendingRequests c)) c in
      let error := js_prop response "error" in
      if js_truthy error then
        settle (pending_promise pending)
          (Rejected (ThrownError
                       (new_Error
                          match js_prop error "message" with
                          | JUndefined => EmptyString
                          | m => js_String m
                          end))) c
      else
        settle (pending_promise pending)
          (Resolved (js_prop response "result")) c
  | None => c
  end.

(** [handleToolCall]: the response the promise resolves to, or what it
    rejects with (the destructuring of absent [params]). *)
Definition handleToolCall `{JsEngine} (request : JsValue) (c : t)
    : Completion JsValue * t :=
  let id := js_prop request "id" in
  let params := js_prop request "params" in
  if is_nullish params then
    (Throw (ThrownError
              (new_TypeError "Cannot destructure property 'name'")), c)
  else
    let name := js_prop params "name" in
    let args :=
      match js_prop params "arguments" with
      | JUndefined => JObj []
      | a => a
      end in
    let c := emit "toolCall" [ArgValue request] c in
    match ToolExecutor.execute (executor c) name args with
    | Normal content => (Normal (createToolCallResponse id content), c)
    | Throw error =>
        let errorMessage := error_message_or_String error in
        (Normal (createToolCallErrorResponse id errorMessage None), c)
    end.

(** [handleRequest]; [now] is the reading of [Date.now()], [net1] what
    [fetch] does with the response and [net2] what it does with the
    error response of the [catch]. *)
Definition handleRequest `{JsEngine} (now : Z) (net1 net2 : FetchOutcome)
    (request : JsValue) (c : t) : Completion unit * t :=
  let id := js_prop request "id" in
  let method := js_prop request "method" in
  let '(try, c) :=
    let '(response, c) :=
      if js_is_string method "tools/list" then
        (Normal (createResponse id
                   (JObj [("tools",
                           JArr (ToolExecutor.getToolDefinitions
                                   (executor c)))])), c)
      else if js_is_string method "tools/call" then
        handleToolCall request c
      else if js_is_string method "ping" then
        (Normal (createPongResponse now id), c)
      else
        (Normal (createErrorResponse id ErrorCodes.METHOD_NOT_FOUND
                   ("Method not found: " +:+ js_String method)
                   JUndefined), c) in
    match response with
    | Normal response => sendMessage net1 response c
    | Throw error => (Throw error, c)
    end in
  match try with
  | Normal _ => (Normal tt, c)
  | Throw error =>
      let errorMessage := error_message_or_String error in
      let response :=
        createErrorResponse id ErrorCodes.INTERNAL_ERROR errorMessage
          JUndefined in
      sendMessage net2 response c
  end.

(** [handleMessage]: a frame of the event stream.  [handleRequest] is
    not awaited: what its promise rejects with (a failing POST of the
    error response) goes nowhere. *)
Definition handleMessage `{JsEngine} (now : Z) (net1 net2 : FetchOutcome)
    (data : string) (c : t) : t :=
  match parseMessage data with
  | Normal message =>
      let c := emit "message" [ArgValue message] c in
      if isRequest message then
        snd (handleRequest now net1 net2 message c)
      else if isResponse message then handleResponse message c
      else c
  | Throw error =>
      emit "error"
        [ArgError match error with
                  | ThrownError e => e
                  | ThrownValue v => new_Error (js_String v)
                  end] c
  end.

Definition handleReconnect (c : t) : t :=
  if negb (autoReconnect (config c)) then c
  else if (maxReconnectAttempts (config c) <=? reconnectAttempts c)%Z then
    emit "error"
      [ArgError (new_BTCPConnectionError
                   "Max reconnection attempts reached")] c
  else
    let c := with_reconnectAttempts (reconnectAttempts c + 1)%Z c in
    let delay :=
      (reconnectDelay (config c) * 2 ^ (reconnectAttempts c - 1))%Z in
    with_reconnectTimers (reconnectTimers c ++ [delay]) c.

(** [registerTools]: [tools] is [undefined] when the argument is left
    out; [now] is the reading of [Date.now()] and [net] what [fetch] does
    with the POST. *)
Definition registerTools `{JsEngine} (now : Z) (net : FetchOutcome)
    (tools : JsValue) (c : t) : Completion unit * t :=
  let toolDefs :=
    if is_nullish tools
    then JArr (ToolExecutor.getToolDefinitions (executor c))
    else tools in
  let '(id, counter) := generateMessageId now (messageCounter c) in
  let c := with_messageCounter counter c in
  let request :=
    JObj [("jsonrpc", JStr "2.0"); ("id", JStr id);
          ("method", JStr "tools/register");
          ("params", JObj [("tools", toolDefs)])] in
  sendMessage net request c.

End BTCPClient.

(* ================================================================== *)
(** * server.ts *)
(* ================================================================== *)

(** [if (s)] for a string that may be absent ([string | null] of
    [URLSearchParams.get], [string | undefined]): the empty string is
    falsy. *)
Definition str_truthy (s : option string) : bool :=
  match s with
  | Some s => negb (String.eqb s EmptyString)
  | None => false
  end.

Module SSEClient.
(** [response] is the index of the client's [ServerResponse]. *)
Record t : Type := {
  id : string;
  type : string;
  response : nat;
  sessionId : string
}.
End SSEClient.

Module PendingResponse.
Record t : Type := {
  agentId : string;
  originalId : JsValue;
  timestamp : Z
}.
End PendingResponse.

Module Session.
Record t : Type := {
  id : string;
  browserClient : option SSEClient.t;
  agentClients : JsMap.t SSEClient.t;
  tools : JsValue;
  pendingResponses : gmap string PendingResponse.t;
  createdAt : Z
}.

Definition with_browserClient (v : option SSEClient.t) (s : t) : t :=
  {| id := id s; browserClient := v; agentClients := agentClients s;
     tools := tools s; pendingResponses := pendingResponses s;
     createdAt := createdAt s |}.

Definition with_agentClients (v : JsMap.t SSEClient.t) (s : t) : t :=
  {| id := id s; browserClient := browserClient s; agentClients := v;
     tools := tools s; pendingResponses := pendingResponses s;
     createdAt := createdAt s |}.

Definition with_tools (v : JsValue) (s : t) : t :=
  {| id := id s; browserClient := browserClient s;
     agentClients := agentClients s;
     tools := v; pendingResponses := pendingResponses s;
     createdAt := createdAt s |}.

Definition with_pendingResponses (v : gmap string PendingResponse.t)
    (s : t) : t :=
  {| id := id s; browserClient := browserClient s;
     agentClients := agentClients s;
     tools := tools s; pendingResponses := v;
     createdAt := createdAt s |}.

(** The value read through a reference that is no object. *)
Definition none : t :=
  {| id := EmptyString; browserClient := None; agentClients := [];
     tools := JUndefined; pendingResponses := ∅; createdAt := 0 |}.
End Session.

(** The [http.ServerResponse] of an SSE request: what has been written to
    it after the head, and whether [end()] was called. *)
Module ServerResponse.
Record t : Type := {
  written : list string;
  writableEnded : bool
}.

Definition write (chunk : string) (r : t) : t :=
  {| written := written r ++ [chunk]; writableEnded := writableEnded r |}.

Definition end_ (r : t) : t :=
  {| written := written r; writableEnded := true |}.

Definition fresh : t := {| written := []; writableEnded := false |}.
End ServerResponse.

(** The answer to a request that is no event stream. *)
Record HttpReply : Type := {
  statusCode : Z;
  body : JsValue
}.

Module BTCPServer.
Import Protocol.

Record Config : Type := {
  port : Z;
  host : string;
  debug : bool;
  keepAliveInterval : Z;
  requestTimeout : Z
}.

(** A callback given to [setTimeout], by [handleToolsList] or by
    [handleToolsCall]: which of the two, and the session object and the
    internal id that its closure captured. *)
Inductive TimeoutKind : Type := ToolsListTimeout | ToolsCallTimeout.

Record Timeout : Type := {
  timeout_kind : TimeoutKind;
  timeout_session : nat;
  timeout_internalId : string
}.

(** The server object and its surroundings:
    - [sessions] maps a session id to the index of a session object in
      [sessionObjects] (a deleted session stays in the store, where the
      closures of its timers still reach it);
    - [responses] are the [ServerResponse] objects of the SSE requests;
    - [keepAliveIntervals] holds, for each interval, the response that
      its callback writes to;
    - [timeouts] the [setTimeout] callbacks scheduled and not yet run;
    - [messageCounter] the counter of [generateMessageId];
    - [clock], [ticks]: the readings [Date.now()] is going to give, and
      how many have been taken. *)
Record t : Type := {
  config : Config;
  sessions : JsMap.t nat;
  clients : JsMap.t SSEClient.t;
  keepAliveIntervals : JsMap.t nat;
  sessionObjects : list Session.t;
  responses : list ServerResponse.t;
  timeouts : list Timeout;
  messageCounter : Z;
  clock : nat -> Z;
  ticks : nat
}.

Definition with_sessions (v : JsMap.t nat) (st : t) : t :=
  {| config := config st; sessions := v; clients := clients st;
     keepAliveIntervals := keepAliveIntervals st;
     sessionObjects := sessionObjects st; responses := responses st;
     timeouts := timeouts st; messageCounter := messageCounter st;
     clock := clock st; ticks := ticks st |}.

Definition with_clients (v : JsMap.t SSEClient.t) (st : t) : t :=
  {| config := config st; sessions := sessions st; clients := v;
     keepAliveIntervals := keepAliveIntervals st;
     sessionObjects := sessionObjects st; responses := responses st;
     timeouts := timeouts st; messageCounter := messageCounter st;
     clock := clock st; ticks := ticks st |}.

Definition with_keepAliveIntervals (v : JsMap.t nat) (st : t) : t :=
  {| config := config st; sessions := sessions st; clients := clients st;
     keepAliveIntervals := v;
     sessionObjects := sessionObjects st; responses := responses st;
     timeouts := timeouts st; messageCounter := messageCounter st;
     clock := clock st; ticks := ticks st |}.

Definition with_sessionObjects (v : list Session.t) (st : t) : t :=
  {| config := config st; sessions := sessions st; clients := clients st;
     keepAliveIntervals := keepAliveIntervals st;
     sessionObjects := v; responses := responses st;
     timeouts := timeouts st; messageCounter := messageCounter st;
     clock := clock st; ticks := ticks st |}.

Definition with_responses (v : list ServerResponse.t) (st : t) : t :=
  {| config := config st; sessions := sessions st; clients := clients st;
     keepAliveIntervals := keepAliveIntervals st;
     sessionObjects := sessionObjects st; responses := v;
     timeouts := timeouts st; messageCounter := messageCounter st;
     clock := clock st; ticks := ticks st |}.

Definition with_timeouts (v : list Timeout) (st : t) : t :=
  {| config := config st; sessions := sessions st; clients := clients st;
     keepAliveIntervals := keepAliveIntervals st;
     sessionObjects := sessionObjects st; responses := responses st;
     timeouts := v; messageCounter := messageCounter st;
     clock := clock st; ticks := ticks st |}.

Definition with_messageCounter (v : Z) (st : t) : t :=
  {| config := config st; sessions := sessions st; clients := clients st;
     keepAliveIntervals := keepAliveIntervals st;
     sessionObjects := sessionObjects st; responses := responses st;
     timeouts := timeouts st; messageCounter := v;
     clock := clock st; ticks := ticks st |}.

Definition with_ticks (v : nat) (st : t) : t :=
  {| config := config st; sessions := sessions st; clients := clients st;
     keepAliveIntervals := keepAliveIntervals st;
     sessionObjects := sessionObjects st; responses := responses st;
     timeouts := timeouts st; messageCounter := messageCounter st;
     clock := clock st; ticks := v |}.

(** ** The monad of the handlers: state, and exceptions that keep the
    state reached when they are thrown. *)
Definition M (A : Type) : Type := t -> Completion A * t.

Definition ret {A} (a : A) : M A := fun st => (Normal a, st).

Definition bind {A B} (m : M A) (k : A -> M B) : M B :=
  fun st =>
    match m st with
    | (Normal a, st') => k a st'
    | (Throw e, st') => (Throw e, st')
    end.

Definition throw {A} (e : JsError) : M A :=
  fun st => (Throw (ThrownError e), st).

Definition gets {A} (f : t -> A) : M A := fun st => (Normal (f st), st).

Definition modify (f : t -> t) : M unit := fun st => (Normal tt, f st).

(** [try { m } catch (error) { handler }] *)
Definition try_catch {A} (m : M A) (handler : Thrown -> M A) : M A :=
  fun st =>
    match m st with
    | (Normal a, st') => (Normal a, st')
    | (Throw e, st') => handler e st'
    end.

#[global] Instance M_ret : MRet M := @ret.
#[global] Instance M_bind : MBind M := fun A B k m => bind m k.

(** [for (const x of l) body] *)
Fixpoint for_of {A} (l : list A) (body : A -> M unit) : M unit :=
  match l with
  | [] => ret tt
  | x :: l' => body x ;; for_of l' body
  end.

(** [l.map(f)] for an [f] that may throw *)
Fixpoint map_M {A B} (f : A -> M B) (l : list A) : M (list B) :=
  match l with
  | [] => ret []
  | x :: l' => y ← f x; ys ← map_M f l'; ret (y :: ys)
  end.

(** [Date.now()] *)
Definition Date_now : M Z :=
  fun st => (Normal (clock st (ticks st)), with_ticks (S (ticks st)) st).

Definition generateMessageId : M string :=
  now ← Date_now;
  counter ← gets messageCounter;
  let '(id, counter) := Protocol.generateMessageId now counter in
  modify (with_messageCounter counter);;
  ret id.

(** Reading and updating the fields of a session object. *)
Definition deref (r : nat) : M Session.t :=
  gets (fun st => default Session.none (sessionObjects st !! r)).

Definition update_session (r : nat) (f : Session.t -> Session.t) : M unit :=
  modify (fun st => with_sessionObjects (alter f r (sessionObjects st)) st).

(** A new session object; answers its index. *)
Definition new_session (s : Session.t) : M nat :=
  r ← gets (fun st => length (sessionObjects st));
  modify (fun st => with_sessionObjects (sessionObjects st ++ [s]) st);;
  ret r.

(** Reading and updating a [ServerResponse]. *)
Definition writableEnded (res : nat) : M bool :=
  gets (fun st =>
          default true (ServerResponse.writableEnded <$> responses st !! res)).

Definition response_write (res : nat) (chunk : string) : M unit :=
  modify (fun st =>
            with_responses
              (alter (ServerResponse.write chunk) res (responses st)) st).

Definition response_end (res : nat) : M unit :=
  modify (fun st =>
            with_responses (alter ServerResponse.end_ res (responses st)) st).

(** The [ServerResponse] that the HTTP server hands to [handleSSE]. *)
Definition new_response : M nat :=
  res ← gets (fun st => length (responses st));
  modify (fun st =>
            with_responses (responses st ++ [ServerResponse.fresh]) st);;
  ret res.

(** The SSE frame of a message. *)
Definition sse_frame `{JsEngine} (message : JsValue) : string :=
  "data: " +:+ serializeMessage message +:+ LF +:+ LF.

Definition sendToClient `{JsEngine} (client : SSEClient.t)
    (message : JsValue) : M unit :=
  ended ← writableEnded (SSEClient.response client);
  if negb ended then
    let data := serializeMessage message in
    response_write (SSEClient.response client)
      ("data: " +:+ data +:+ LF +:+ LF)
  else ret tt.

Definition handleBrowserConnect `{JsEngine} (client : SSEClient.t)
    : M unit :=
  found ← gets (fun st => JsMap.get (SSEClient.sessionId client)
                            (sessions st));
  match found with
  | None =>
      now ← Date_now;
      r ← new_session
             {| Session.id := SSEClient.sessionId client;
                Session.browserClient := Some client;
                Session.agentClients := JsMap.empty;
                Session.tools := JArr [];
                Session.pendingResponses := ∅;
                Session.createdAt := now |};
      modify (fun st =>
                with_sessions
                  (JsMap.set (SSEClient.sessionId client) r (sessions st))
                  st)
  | Some r =>
      s ← deref r;
      match Session.browserClient s with
      | Some old =>
          sendToClient old
            (createErrorResponse (JStr "disconnect")
               ErrorCodes.SESSION_ERROR
               "Another browser client connected to this session"
               JUndefined);;
          response_end (SSEClient.response old)
      | None => ret tt
      end;;
      update_session r (Session.with_browserClient (Some client))
  end.

Definition handleAgentConnect `{JsEngine} (client : SSEClient.t) : M unit :=
  entries ← gets (fun st =>
    List.filter
      (fun '(_, r) =>
         match Session.browserClient
                 (default Session.none (sessionObjects st !! r)) with
         | Some _ => true
         | None => false
         end)
      (JsMap.entries (sessions st)));
  sessions ← map_M
    (fun '(id, r) =>
       s ← deref r;
       match js_length (Session.tools s) with
       | None =>
           throw (new_TypeError "Cannot read properties of undefined")
       | Some toolCount =>
           ret (JObj [("id", JStr id); ("toolCount", toolCount);
                      ("createdAt",
                       JStr (Date_toISOString (Session.createdAt s)))])
       end)
    entries;
  sendToClient client
    (createResponse (JStr "sessions") (JObj [("sessions", JArr sessions)])).

(** What [handleSSE] did with the request. *)
Inductive SSEResult : Type :=
| SSERefused (reply : HttpReply)
| SSEOpened (client : SSEClient.t).

Definition handleSSE `{JsEngine} (sessionId clientType : option string)
    : M SSEResult :=
  clientId ← generateMessageId;
  if negb (str_truthy sessionId) then
    ret (SSERefused
           {| statusCode := 400;
              body := JObj [("error", JStr "sessionId is required")] |})
  else
    let sessionId := default EmptyString sessionId in
    res ← new_response;
    let client :=
      {| SSEClient.id := clientId;
         SSEClient.type := default "agent" clientType;
         SSEClient.response := res;
         SSEClient.sessionId := sessionId |} in
    modify (fun st => with_clients (JsMap.set clientId client (clients st)) st);;
    (if String.eqb (SSEClient.type client) "browser"
     then handleBrowserConnect client
     else handleAgentConnect client);;
    modify (fun st =>
              with_keepAliveIntervals
                (JsMap.set clientId res (keepAliveIntervals st)) st);;
    sendToClient client
      (JObj [("jsonrpc", JStr "2.0"); ("method", JStr "connected");
             ("params",
              JObj [("clientId", JStr clientId);
                    ("sessionId", JStr sessionId);
                    ("clientType", JStr (SSEClient.type client))])]);;
    ret (SSEOpened client).

(** The callback of the keep-alive interval of an SSE request. *)
Definition keepAlive (res : nat) : M unit :=
  ended ← writableEnded res;
  if negb ended then response_write res (": keepalive" +:+ LF +:+ LF)
  else ret tt.

Definition findSenderClient (sessionId : string) (clientId : option string)
    : M (option SSEClient.t) :=
  if str_truthy clientId then
    gets (fun st => JsMap.get (default EmptyString clientId) (clients st))
  else
    found ← gets (fun st => JsMap.get sessionId (sessions st));
    agent ← match found with
            | Some r =>
                s ← deref r;
                ret (head (JsMap.values (Session.agentClients s)))
            | None => ret None
            end;
    match agent with
    | Some agent => ret (Some agent)
    | None =>
        gets (fun st =>
                List.find
                  (fun client =>
                     String.eqb (SSEClient.sessionId client) sessionId)
                  (JsMap.values (clients st)))
    end.

Definition handleToolsRegister `{JsEngine} (session : option nat)
    (request : JsValue) : M unit :=
  match session with
  | None => ret tt
  | Some r =>
      s ← deref r;
      match Session.browserClient s with
      | None => ret tt
      | Some _ =>
          let params := js_prop request "params" in
          if is_nullish params then
            throw (new_TypeError "Cannot destructure property 'tools'")
          else
            let tools := js_prop params "tools" in
            update_session r (Session.with_tools tools);;
            registered ←
              match js_length tools with
              | None =>
                  throw (new_TypeError
                           "Cannot read properties of undefined")
              | Some n => ret n
              end;
            s ← deref r;
            for_of (JsMap.values (Session.agentClients s))
              (fun agent =>
                 sendToClient agent
                   (JObj [("jsonrpc", JStr "2.0");
                          ("method", JStr "tools/updated");
                          ("params", JObj [("tools", tools)])]));;
            s ← deref r;
            match Session.browserClient s with
            | Some browserClient =>
                sendToClient browserClient
                  (createResponse (js_prop request "id")
                     (JObj [("success", JBool true);
                            ("registered", registered)]))
            | None => ret tt
            end
      end
  end.

(** [senderClient?.id ?? ''] *)
Definition sender_id (senderClient : option SSEClient.t) : string :=
  match senderClient with
  | Some c => SSEClient.id c
  | None => EmptyString
  end.

Definition setTimeout (callback : Timeout) : M unit :=
  modify (fun st => with_timeouts (timeouts st ++ [callback]) st).

(** The callback that [handleToolsList] gives to [setTimeout], with the
    session object and the internal id of its closure. *)
Definition handleToolsList_timeout `{JsEngine} (r : nat)
    (internalId : string) : M unit :=
  s ← deref r;
  match Session.pendingResponses s !! internalId with
  | Some pending =>
      update_session r
        (fun s =>
           Session.with_pendingResponses
             (delete internalId (Session.pendingResponses s)) s);;
      s ← deref r;
      match JsMap.get (PendingResponse.agentId pending)
              (Session.agentClients s) with
      | Some agent =>
          sendToClient agent
            (createResponse (PendingResponse.originalId pending)
               (JObj [("tools", Session.tools s)]))
      | None => ret tt
      end
  | None => ret tt
  end.

(** The callback that [handleToolsCall] gives to [setTimeout]. *)
Definition handleToolsCall_timeout `{JsEngine} (r : nat)
    (internalId : string) : M unit :=
  s ← deref r;
  match Session.pendingResponses s !! internalId with
  | Some pending =>
      update_session r
        (fun s =>
           Session.with_pendingResponses
             (delete internalId (Session.pendingResponses s)) s);;
      s ← deref r;
      match JsMap.get (PendingResponse.agentId pending)
              (Session.agentClients s) with
      | Some agent =>
          sendToClient agent
            (createErrorResponse (PendingResponse.originalId pending)
               ErrorCodes.TIMEOUT_ERROR "Tool execution timeout"
               JUndefined)
      | None => ret tt
      end
  | None => ret tt
  end.

Definition handleToolsList `{JsEngine} (session : option nat)
    (request : JsValue) (senderClient : option SSEClient.t) : M unit :=
  match session with
  | None =>
      match senderClient with
      | Some senderClient =>
          sendToClient senderClient
            (createResponse (js_prop request "id")
               (JObj [("tools", JArr [])]))
      | None => ret tt
      end
  | Some r =>
      s ← deref r;
      match Session.browserClient s with
      | Some browserClient =>
          internalId ← generateMessageId;
          let agentId := sender_id senderClient in
          now ← Date_now;
          update_session r
            (fun s =>
               Session.with_pendingResponses
                 (<[internalId :=
                      {| PendingResponse.agentId := agentId;
                         PendingResponse.originalId := js_prop request "id";
                         PendingResponse.timestamp := now |}]>
                    (Session.pendingResponses s)) s);;
          let forwardedRequest :=
            js_spread_set request "id" (JStr internalId) in
          sendToClient browserClient forwardedRequest;;
          setTimeout {| timeout_kind := ToolsListTimeout;
                        timeout_session := r;
                        timeout_internalId := internalId |}
      | None =>
          let response :=
            createResponse (js_prop request "id")
              (JObj [("tools", Session.tools s)]) in
          match senderClient with
          | Some senderClient => sendToClient senderClient response
          | None =>
              match JsMap.values (Session.agentClients s) with
              | agent :: _ => sendToClient agent response
              | [] => ret tt
              end
          end
      end
  end.

Definition handleToolsCall `{JsEngine} (session : option nat)
    (request : JsValue) (senderClient : option SSEClient.t) : M unit :=
  s ← match session with
      | Some r => s ← deref r; ret (Some (r, s))
      | None => ret None
      end;
  match s with
  | Some (r, {| Session.browserClient := Some browserClient |}) =>
      internalId ← generateMessageId;
      let agentId := sender_id senderClient in
      now ← Date_now;
      update_session r
        (fun s =>
           Session.with_pendingResponses
             (<[internalId :=
                  {| PendingResponse.agentId := agentId;
                     PendingResponse.originalId := js_prop request "id";
                     PendingResponse.timestamp := now |}]>
                (Session.pendingResponses s)) s);;
      let forwardedRequest :=
        js_spread_set request "id" (JStr internalId) in
      sendToClient browserClient forwardedRequest;;
      setTimeout {| timeout_kind := ToolsCallTimeout;
                    timeout_session := r;
                    timeout_internalId := internalId |}
  | _ =>
      let errorResponse :=
        createErrorResponse (js_prop request "id") ErrorCodes.SESSION_ERROR
          "No browser client connected to this session" JUndefined in
      match senderClient with
      | Some senderClient => sendToClient senderClient errorResponse
      | None =>
          match s with
          | Some (_, s) =>
              match JsMap.values (Session.agentClients s) with
              | agent :: _ => sendToClient agent errorResponse
              | [] => ret tt
              end
          | None => ret tt
          end
      end
  end.

Definition handleToolResponse `{JsEngine} (session : option nat)
    (response : JsValue) : M unit :=
  match session with
  | None => ret tt
  | Some r =>
      s ← deref r;
      let key := js_String (js_prop response "id") in
      match Session.pendingResponses s !! key with
      | None => ret tt
      | Some pending =>
          update_session r
            (fun s =>
               Session.with_pendingResponses
                 (delete key (Session.pendingResponses s)) s);;
          s ← deref r;
          match JsMap.get (PendingResponse.agentId pending)
                  (Session.agentClients s) with
          | Some agent =>
              let forwardedResponse :=
                js_spread_set response "id"
                  (PendingResponse.originalId pending) in
              sendToClient agent forwardedResponse
          | None => ret tt
          end
      end
  end.

Definition handleSessionJoin `{JsEngine} (currentSessionId : string)
    (request : JsValue) (clientId : option string) : M unit :=
  let params := js_prop request "params" in
  if is_nullish params then
    throw (new_TypeError "Cannot destructure property 'sessionId'")
  else
    let targetSessionId := js_prop params "sessionId" in
    targetSession ← gets (fun st =>
      match targetSessionId with
      | JStr k => JsMap.get k (sessions st)
      | _ => None
      end);
    client ←
      (if str_truthy clientId then
         gets (fun st =>
                 JsMap.get (default EmptyString clientId) (clients st))
       else
         gets (fun st =>
                 List.find
                   (fun c =>
                      String.eqb (SSEClient.sessionId c) currentSessionId
                      && String.eqb (SSEClient.type c) "agent")
                   (JsMap.values (clients st))));
    match client with
    | None => ret tt
    | Some client =>
        match targetSession with
        | None =>
            sendToClient client
              (createErrorResponse (js_prop request "id")
                 ErrorCodes.SESSION_ERROR
                 ("Session not found: " +:+ js_String targetSessionId)
                 JUndefined)
        | Some r =>
            update_session r
              (fun s =>
                 Session.with_agentClients
                   (JsMap.set (SSEClient.id client) client
                      (Session.agentClients s)) s);;
            s ← deref r;
            sendToClient client
              (createResponse (js_prop request "id")
                 (JObj [("success", JBool true);
                        ("sessionId", targetSessionId);
                        ("tools", Session.tools s)]))
        end
    end.

Definition handlePing `{JsEngine} (session : option nat)
    (request : JsValue) (senderClient : option SSEClient.t) : M unit :=
  now ← Date_now;
  let response := createPongResponse now (js_prop request "id") in
  match senderClient with
  | Some senderClient => sendToClient senderClient response
  | None =>
      match session with
      | Some r =>
          s ← deref r;
          match Session.browserClient s with
          | Some browserClient => sendToClient browserClient response
          | None => ret tt
          end
      | None => ret tt
      end
  end.

Definition handleDisconnect `{JsEngine} (clientId : string) : M unit :=
  client ← gets (fun st => JsMap.get clientId (clients st));
  match client with
  | None => ret tt
  | Some client =>
      interval ← gets (fun st => JsMap.get clientId (keepAliveIntervals st));
      match interval with
      | Some _ =>
          modify (fun st =>
                    with_keepAliveIntervals
                      (JsMap.delete clientId (keepAliveIntervals st)) st)
      | None => ret tt
      end;;
      session ← gets (fun st =>
        JsMap.get (SSEClient.sessionId client) (sessions st));
      match session with
      | Some r =>
          s ← deref r;
          (if match Session.browserClient s with
              | Some browserClient =>
                  String.eqb (SSEClient.id browserClient) clientId
              | None => false
              end
           then
             update_session r (Session.with_browserClient None);;
             s ← deref r;
             for_of (JsMap.values (Session.agentClients s))
               (fun agent =>
                  sendToClient agent
                    (JObj [("jsonrpc", JStr "2.0");
                           ("method", JStr "browser/disconnected");
                           ("params",
                            JObj [("sessionId",
                                   JStr (Session.id s))])]))
           else
             update_session r
               (fun s =>
                  Session.with_agentClients
                    (JsMap.delete clientId (Session.agentClients s)) s));;
          s ← deref r;
          if match Session.browserClient s with
             | Some _ => false
             | None => true
             end
             && (JsMap.size (Session.agentClients s) =? 0)%nat
          then
            modify (fun st =>
                      with_sessions
                        (JsMap.delete (SSEClient.sessionId client)
                           (sessions st)) st)
          else ret tt
      | None => ret tt
      end;;
      modify (fun st =>
                with_clients (JsMap.delete clientId (clients st)) st)
  end.

Definition routeMessage `{JsEngine} (sessionId : string)
    (message : JsValue) (clientId : option string) : M unit :=
  session ← gets (fun st => JsMap.get sessionId (sessions st));
  senderClient ← findSenderClient sessionId clientId;
  if isResponse message then handleToolResponse session message
  else if negb (isRequest message) then ret tt
  else
    let method := js_prop message "method" in
    if js_is_string method "tools/register" then
      handleToolsRegister session message
    else if js_is_string method "tools/list" then
      handleToolsList session message senderClient
    else if js_is_string method "tools/call" then
      handleToolsCall session message senderClient
    else if js_is_string method "session/join" then
      handleSessionJoin sessionId message clientId
    else if js_is_string method "ping" then
      handlePing session message senderClient
    else ret tt.

(** [parseMessage], in the monad *)
Definition lift {A} (c : Completion A) : M A := fun st => (c, st).

Definition handleMessage `{JsEngine} (sessionId clientId : option string)
    (body : string) : M HttpReply :=
  if negb (str_truthy sessionId) then
    ret {| statusCode := 400;
           body := JObj [("error", JStr "sessionId is required")] |}
  else
    let sessionId := default EmptyString sessionId in
    try_catch
      (message ← lift (parseMessage body);
       routeMessage sessionId message clientId;;
       ret {| statusCode := 200;
              body := JObj [("success", JBool true)] |})
      (fun error =>
         ret {| statusCode := 400;
                body :=
                  JObj [("error",
                         JStr match error with
                              | ThrownError e => err_message e
                              | ThrownValue _ => "Invalid message"
                              end)] |}).

(** ** The relay as a transition system

    What the outside does to the server: an event-stream request, a
    POST, the close of an event-stream request, and the timers. *)
Inductive Event : Type :=
| SSE (sessionId clientType : option string)
| Message (sessionId clientId : option string) (body : string)
| Close (clientId : string)
| TimeoutFires (n : nat)
| KeepAlive (clientId : string).

(** The timer callback that runs when timer [t] fires. *)
Definition run_timeout `{JsEngine} (t : Timeout) : M unit :=
  match timeout_kind t with
  | ToolsListTimeout =>
      handleToolsList_timeout (timeout_session t) (timeout_internalId t)
  | ToolsCallTimeout =>
      handleToolsCall_timeout (timeout_session t) (timeout_internalId t)
  end.

(** One event; the state afterwards, whether the handler returned or
    threw. *)
Definition step `{JsEngine} (ev : Event) (st : t) : t :=
  match ev with
  | SSE sessionId clientType => snd (handleSSE sessionId clientType st)
  | Message sessionId clientId body =>
      snd (handleMessage sessionId clientId body st)
  | Close clientId => snd (handleDisconnect clientId st)
  | TimeoutFires n =>
      match timeouts st !! n with
      | Some t =>
          snd (run_timeout t
                 (with_timeouts (delete n (timeouts st)) st))
      | None => st
      end
  | KeepAlive clientId =>
      match JsMap.get clientId (keepAliveIntervals st) with
      | Some res => snd (keepAlive res st)
      | None => st
      end
  end.

Definition run `{JsEngine} (evs : list Event) (st : t) : t :=
  fold_left (fun st ev => step ev st) evs st.

(** The server after [new BTCPServer(config)]. *)
Definition init (config : Config) (clock : nat -> Z) : t :=
  {| BTCPServer.config := config; sessions := JsMap.empty;
     clients := JsMap.empty; keepAliveIntervals := JsMap.empty;
     sessionObjects := []; responses := []; timeouts := [];
     messageCounter := 0; clock := clock; ticks := 0 |}.

(** [stop], up to the call of [server.close]: the intervals are cleared,
    the stream of every client is ended, and the maps are emptied.  The
    timers of the forwarded requests are not cleared. *)
Definition stop : M unit :=
  modify (with_keepAliveIntervals JsMap.empty);;
  registered ← gets (fun st => JsMap.values (clients st));
  for_of registered
    (fun client => response_end (SSEClient.response client));;
  modify (with_clients JsMap.empty);;
  modify (with_sessions JsMap.empty).

(** [handleSessionsList]: the answer to [GET /sessions]. *)
Definition handleSessionsList `{JsEngine} : M HttpReply :=
  entries ← gets (fun st => JsMap.entries (sessions st));
  listed ← map_M
    (fun '(id, r) =>
       s ← deref r;
       match js_length (Session.tools s) with
       | None =>
           throw (new_TypeError "Cannot read properties of undefined")
       | Some toolCount =>
           ret (JObj [("id", JStr id);
                      ("hasBrowser",
                       JBool match Session.browserClient s with
                             | Some _ => true
                             | None => false
                             end);
                      ("agentCount",
                       JNum (Z.of_nat
                               (JsMap.size (Session.agentClients s))));
                      ("toolCount", toolCount);
                      ("createdAt",
                       JStr (Date_toISOString (Session.createdAt s)))])
       end)
    entries;
  ret {| statusCode := 200; body := JObj [("sessions", JArr listed)] |}.

End BTCPServer.

(* ================================================================== *)
(** * An engine to run the examples on *)
(* ================================================================== *)

(** A JSON writer (compact and indented) and a JSON reader for objects,
    arrays, strings without escapes other than the quote and the
    backslash, integers and the three literals.  The theorems hold for
    every [JsEngine]; this one evaluates them on concrete messages. *)
Module MiniEngine.

Definition DQ : ascii := "034"%char.
Definition BACKSLASH : ascii := "092"%char.

Fixpoint escape (s : string) : string :=
  match s with
  | EmptyString => EmptyString
  | String c s' =>
      if Ascii.eqb c DQ || Ascii.eqb c BACKSLASH
      then String BACKSLASH (String c (escape s'))
      else String c (escape s')
  end.

Definition quote (s : string) : string :=
  String DQ (escape s) +:+ String DQ EmptyString.

Fixpoint spaces (n : nat) : string :=
  match n with
  | O => EmptyString
  | S n' => String " "%char (spaces n')
  end.

(** [write indent depth v]: [indent = 0] is the compact form. *)
Fixpoint write (indent depth : nat) (v : JsValue) : string :=
  let nl d :=
    if (indent =? 0)%nat then EmptyString
    else LF +:+ spaces (indent * d) in
  let colon := if (indent =? 0)%nat then ":" else ": " in
  match v with
  | JUndefined | JNull => "null"
  | JBool true => "true"
  | JBool false => "false"
  | JNum n => string_of_Z n
  | JStr s => quote s
  | JArr [] => "[]"
  | JArr items =>
      "[" +:+ nl (S depth)
      +:+ join_with ("," +:+ nl (S depth))
            (map (write indent (S depth)) items)
      +:+ nl depth +:+ "]"
  | JObj props =>
      let members :=
        (fix members (ps : list (string * JsValue)) : list string :=
           match ps with
           | [] => []
           | (k, x) :: ps' =>
               match x with
               | JUndefined => members ps'
               | _ =>
                   (quote k +:+ colon +:+ write indent (S depth) x)
                   :: members ps'
               end
           end) props in
      match members with
      | [] => "{}"
      | _ =>
          "{" +:+ nl (S depth)
          +:+ join_with ("," +:+ nl (S depth)) members
          +:+ nl depth +:+ "}"
      end
  end.

Fixpoint skip_ws (s : string) : string :=
  match s with
  | String c s' =>
      if Ascii.eqb c " "%char || Ascii.eqb c "010"%char
         || Ascii.eqb c "009"%char || Ascii.eqb c "013"%char
      then skip_ws s' else s
  | EmptyString => s
  end.

(** The characters of a string literal up to its closing quote. *)
Fixpoint read_string (s : string) : option (string * string) :=
  match s with
  | EmptyString => None
  | String c s' =>
      if Ascii.eqb c DQ then Some (EmptyString, s')
      else if Ascii.eqb c BACKSLASH then
        match s' with
        | String c' s'' =>
            if Ascii.eqb c' DQ || Ascii.eqb c' BACKSLASH then
              match read_string s'' with
              | Some (str, rest) => Some (String c' str, rest)
              | None => None
              end
            else None
        | EmptyString => None
        end
      else
        match read_string s' with
        | Some (str, rest) => Some (String c str, rest)
        | None => None
        end
  end.

Definition is_digit (c : ascii) : bool :=
  let n := nat_of_ascii c in ((48 <=? n) && (n <=? 57))%nat.

Fixpoint read_digits (s : string) (acc : Z) : Z * string :=
  match s with
  | String c s' =>
      if is_digit c
      then read_digits s' (10 * acc + Z.of_nat (nat_of_ascii c - 48))%Z
      else (acc, s)
  | EmptyString => (acc, s)
  end.

Definition starts_digit (s : string) : bool :=
  match s with
  | String c _ => is_digit c
  | EmptyString => false
  end.

Fixpoint read_value (fuel : nat) (s : string) {struct fuel}
    : option (JsValue * string) :=
  match fuel with
  | O => None
  | S fuel =>
      match skip_ws s with
      | EmptyString => None
      | String c rest =>
          if Ascii.eqb c "{"%char then
            match skip_ws rest with
            | String c' rest' =>
                if Ascii.eqb c' "}"%char then Some (JObj [], rest')
                else read_members fuel rest []
            | EmptyString => None
            end
          else if Ascii.eqb c "["%char then
            match skip_ws rest with
            | String c' rest' =>
                if Ascii.eqb c' "]"%char then Some (JArr [], rest')
                else read_elements fuel rest []
            | EmptyString => None
            end
          else if Ascii.eqb c DQ then
            match read_string rest with
            | Some (str, rest') => Some (JStr str, rest')
            | None => None
            end
          else if Ascii.eqb c "-"%char then
            if starts_digit rest then
              let '(n, rest') := read_digits rest 0 in
              Some (JNum (- n), rest')
            else None
          else if is_digit c then
            let '(n, rest') := read_digits (String c rest) 0 in
            Some (JNum n, rest')
          else if String.prefix "true" (String c rest) then
            Some (JBool true, substring 4 (String.length rest) (String c rest))
          else if String.prefix "false" (String c rest) then
            Some (JBool false,
                  substring 5 (String.length rest) (String c rest))
          else if String.prefix "null" (String c rest) then
            Some (JNull, substring 4 (String.length rest) (String c rest))
          else None
      end
  end
with read_elements (fuel : nat) (s : string) (acc : list JsValue)
    {struct fuel} : option (JsValue * string) :=
  match fuel with
  | O => None
  | S fuel =>
      match read_value fuel s with
      | Some (v, rest) =>
          match skip_ws rest with
          | String c rest' =>
              if Ascii.eqb c ","%char
              then read_elements fuel rest' (acc ++ [v])
              else if Ascii.eqb c "]"%char
              then Some (JArr (acc ++ [v]), rest')
              else None
          | EmptyString => None
          end
      | None => None
      end
  end
with read_members (fuel : nat) (s : string)
    (acc : list (string * JsValue)) {struct fuel}
    : option (JsValue * string) :=
  match fuel with
  | O => None
  | S fuel =>
      match skip_ws s with
      | String q rest =>
          if Ascii.eqb q DQ then
            match read_string rest with
            | Some (k, rest) =>
                match skip_ws rest with
                | String c rest =>
                    if Ascii.eqb c ":"%char then
                      match read_value fuel rest with
                      | Some (v, rest) =>
                          match skip_ws rest with
                          | String c rest' =>
                              if Ascii.eqb c ","%char
                              then read_members fuel rest'
                                     (JsMap.set k v acc)
                              else if Ascii.eqb c "}"%char
                              then Some (JObj (JsMap.set k v acc), rest')
                              else None
                          | EmptyString => None
                          end
                      | None => None
                      end
                    else None
                | EmptyString => None
                end
            | None => None
            end
          else None
      | EmptyString => None
      end
  end.

Definition read (s : string) : JsValue + string :=
  match read_value (S (String.length s)) s with
  | Some (v, rest) =>
      match skip_ws rest with
      | EmptyString => inl v
      | _ => inr "Unexpected non-whitespace character after JSON"
      end
  | None => inr "Unexpected token"
  end.

#[export] Instance engine : JsEngine := {|
  JSON_parse := read;
  JSON_stringify := write 0 0;
  JSON_stringify_indent := fun indent => write indent 0;
  Date_toISOString := string_of_Z
|}.

(** [s] between double quotes *)
Definition q (s : string) : string :=
  String DQ s +:+ String DQ EmptyString.

End MiniEngine.

(* ================================================================== *)
(** * The vocabulary of the specification *)
(* ================================================================== *)

(** The code that an exception carries, if it is a BTCP error. *)
Definition completion_code {A} (c : Completion A) : option Z :=
  match c with
  | Normal _ => None
  | Throw t => thrown_code t
  end.

(** The input of [parseMessage] is refused by the specification: it is
    not JSON, or the decoded value has no [jsonrpc] equal to ["2.0"]. *)
Definition not_a_message `{JsEngine} (data : string) : Prop :=
  match JSON_parse data with
  | inr _ => True
  | inl parsed => js_prop parsed "jsonrpc" <> JStr "2.0"
  end.

Fixpoint string_repeat (c : ascii) (n : nat) : string :=
  match n with
  | O => EmptyString
  | S n' => String c (string_repeat c n')
  end.

(** The longest prefix of [s] made of base64 characters. *)
Fixpoint base64_run (s : string) : string :=
  match s with
  | String c s' =>
      if ToolExecutor.is_base64_char c then String c (base64_run s')
      else EmptyString
  | EmptyString => EmptyString
  end.

(** "begins with a base64-shaped run of at least 100 characters" *)
Definition begins_with_base64_run (s : string) : bool :=
  (100 <=? String.length (base64_run s))%nat.

(** The image heuristic of the code, in words: the string starts with
    [data:image/], or its first 200 characters (all of it when it is
    shorter) are at least 100 and are all base64 characters. *)
Definition image_heuristic (s : string) : Prop :=
  String.prefix "data:image/" s = true
  \/ (100 <= String.length (substring 0 200 s)
      /\ base64_run (substring 0 200 s) = substring 0 200 s).

(** A [tools/call] request *)
Definition tools_call_request (id : JsValue) (name : JsValue)
    (args : JsValue) : JsValue :=
  JObj [("jsonrpc", JStr "2.0"); ("id", id); ("method", JStr "tools/call");
        ("params", JObj [("name", name); ("arguments", args)])].

(** The [error.code] of a response *)
Definition response_error_code (response : JsValue) : JsValue :=
  js_prop (js_prop response "error") "code".

(** A client that has no tool, no connection and nothing in flight. *)
Definition idle_client : BTCPClient.t :=
  {| BTCPClient.config :=
       {| BTCPClient.serverUrl := "http://localhost:8765";
          BTCPClient.debug := false;
          BTCPClient.autoReconnect := true;
          BTCPClient.reconnectDelay := 1000;
          BTCPClient.maxReconnectAttempts := 5;
          BTCPClient.connectionTimeout := 30000 |};
     BTCPClient.eventSource := None;
     BTCPClient.sessionId := "S";
     BTCPClient.executor :=
       {| ToolExecutor.handlers := ∅; ToolExecutor.toolDefinitions := [] |};
     BTCPClient.connected := false;
     BTCPClient.reconnectAttempts := 0;
     BTCPClient.pendingRequests := ∅;
     BTCPClient.messageCounter := 0;
     BTCPClient.eventSources := [];
     BTCPClient.promises := ∅;
     BTCPClient.requestTimers := ∅;
     BTCPClient.reconnectTimers := [];
     BTCPClient.posted := [];
     BTCPClient.emitted := [] |}.

(** The same client after [connect()] has opened its event source. *)
Definition connected_client : BTCPClient.t :=
  BTCPClient.with_connected true
    (BTCPClient.with_eventSource (Some 0%nat)
       (BTCPClient.with_eventSources [BTCPClient.OPEN] idle_client)).


(** A decoded value without [jsonrpc], as the text of the repository's
    test "should throw BTCPParseError for invalid JSON-RPC" has it. *)
Definition foo_bar : string :=
  "{" +:+ MiniEngine.q "foo" +:+ ":" +:+ MiniEngine.q "bar" +:+ "}".

(** A hundred base64 characters, then one that is none. *)
Definition long_run_then_bang : string :=
  string_repeat "A"%char 100 +:+ "!".


(** What [sendToClient] does to the state: the frame of the message is
    appended to the response, unless the response has ended. *)
Definition push `{JsEngine} (res : nat) (message : JsValue)
    (st : BTCPServer.t) : BTCPServer.t :=
  match BTCPServer.responses st !! res with
  | Some r =>
      if ServerResponse.writableEnded r then st
      else
        BTCPServer.with_responses
          (alter (ServerResponse.write (BTCPServer.sse_frame message)) res
             (BTCPServer.responses st)) st
  | None => st
  end.

(** What has been written to the response of a client. *)
Definition written_to (client : SSEClient.t) (st : BTCPServer.t)
    : list string :=
  match BTCPServer.responses st !! SSEClient.response client with
  | Some r => ServerResponse.written r
  | None => []
  end.

(** The response of a client is open: the head is out and [end()] has
    not been called. *)
Definition is_open (client : SSEClient.t) (st : BTCPServer.t) : Prop :=
  exists r, BTCPServer.responses st !! SSEClient.response client = Some r
            /\ ServerResponse.writableEnded r = false.

(** ** A relay to run the scenarios on *)

Definition demo_config : BTCPServer.Config :=
  {| BTCPServer.port := 8765; BTCPServer.host := "0.0.0.0";
     BTCPServer.debug := false; BTCPServer.keepAliveInterval := 30000;
     BTCPServer.requestTimeout := 30000 |}.

(** [Date.now()] advances by a millisecond at each reading. *)
Definition demo_clock (n : nat) : Z := (Z.of_nat n + 1700000000000)%Z.

Definition server0 : BTCPServer.t := BTCPServer.init demo_config demo_clock.

Definition run_demo (evs : list BTCPServer.Event) : BTCPServer.t :=
  BTCPServer.run (H := MiniEngine.engine) evs server0.

(** The provider attaches to session [S]; a caller attaches under its own
    session id [A]. *)
Definition attach_provider : BTCPServer.Event :=
  BTCPServer.SSE (Some "S") (Some "browser").

Definition attach_caller : BTCPServer.Event :=
  BTCPServer.SSE (Some "A") (Some "agent").

(** The client ids that the relay gives them. *)
Definition provider_id : string := "btcp-1700000000000-1".
Definition caller_id : string := "btcp-1700000000002-2".

Definition provider : SSEClient.t :=
  {| SSEClient.id := provider_id; SSEClient.type := "browser";
     SSEClient.response := 0; SSEClient.sessionId := "S" |}.

Definition caller : SSEClient.t :=
  {| SSEClient.id := caller_id; SSEClient.type := "agent";
     SSEClient.response := 1; SSEClient.sessionId := "A" |}.

(** The messages of the scenarios, and their text on the wire. *)
Definition join_S : JsValue :=
  Protocol.createRequest "session/join" (JObj [("sessionId", JStr "S")])
    (JStr "join-1").

Definition call_echo : JsValue :=
  Protocol.createRequest "tools/call"
    (JObj [("name", JStr "echo");
           ("arguments", JObj [("message", JStr "hi")])])
    (JStr "call-1").


Definition wire (message : JsValue) : string :=
  JSON_stringify (JsEngine := MiniEngine.engine) message.

(** The caller joins [S] (posting to its own session id, as the callers
    of the repository's tests do). *)
Definition caller_joins : BTCPServer.Event :=
  BTCPServer.Message (Some "A") None (wire join_S).

(** The caller posts a message to [S], naming itself. *)
Definition caller_posts (message : JsValue) : BTCPServer.Event :=
  BTCPServer.Message (Some "S") (Some caller_id) (wire message).

(** The relay with the provider of [S] and a caller that has joined. *)
Definition relay_joined : BTCPServer.t :=
  run_demo [attach_provider; attach_caller; caller_joins].


(** The session object behind reference [r]. *)
Definition session_at (r : nat) (st : BTCPServer.t) : Session.t :=
  default Session.none (BTCPServer.sessionObjects st !! r).

(** The internal id under which the relay forwards the first request. *)
Definition internal_id : string := "btcp-1700000000003-3".

(** The caller has posted a [tools/call] to [S]: after joining, and
    without having joined. *)
Definition relay_call_pending : BTCPServer.t :=
  run_demo [attach_provider; attach_caller; caller_joins;
            caller_posts call_echo].

Definition relay_call_pending_not_joined : BTCPServer.t :=
  run_demo [attach_provider; attach_caller; caller_posts call_echo].

(** A second provider that attaches to [S]. *)
Definition second_provider : SSEClient.t :=
  {| SSEClient.id := "btcp-1700000000009-9"; SSEClient.type := "browser";
     SSEClient.response := 2; SSEClient.sessionId := "S" |}.

(** What a loop of [sendToClient] over [l] does to the state. *)
Definition push_all `{JsEngine} (l : list SSEClient.t) (message : JsValue)
    (st : BTCPServer.t) : BTCPServer.t :=
  fold_left (fun st agent => push (SSEClient.response agent) message st) l st.


(** The push channel of the caller closes; then that of the provider. *)
Definition relay_caller_gone : BTCPServer.t :=
  BTCPServer.step (H := MiniEngine.engine) (BTCPServer.Close caller_id)
    relay_joined.

Definition relay_all_gone : BTCPServer.t :=
  BTCPServer.step (H := MiniEngine.engine) (BTCPServer.Close provider_id)
    relay_caller_gone.

(** The two handlers that forward a caller request to the provider under
    an internal id, named by the timer that each arms. *)
Definition forwarder `{JsEngine} (kind : BTCPServer.TimeoutKind)
    : option nat -> JsValue -> option SSEClient.t -> BTCPServer.M unit :=
  match kind with
  | BTCPServer.ToolsListTimeout => BTCPServer.handleToolsList
  | BTCPServer.ToolsCallTimeout => BTCPServer.handleToolsCall
  end.

(** ** The shape of the relay

    What the invariants of the sessions look at: the sessions map, the
    provider and the callers of every session object, and which responses
    have ended. *)
Definition shape (st : BTCPServer.t)
    : JsMap.t nat * list (option SSEClient.t * JsMap.t SSEClient.t)
      * list bool :=
  (BTCPServer.sessions st,
   (fun s => (Session.browserClient s, Session.agentClients s))
     <$> BTCPServer.sessionObjects st,
   ServerResponse.writableEnded <$> BTCPServer.responses st).

(** A computation that leaves the shape as it is, whether it returns or
    throws. *)
Definition keeps_shape {A} (m : BTCPServer.M A) : Prop :=
  forall st, shape (snd (m st)) = shape st.

(** The states that the relay reaches from its initial state. *)
Inductive reachable `{JsEngine} (config : BTCPServer.Config)
    (clock : nat -> Z) : BTCPServer.t -> Prop :=
| reachable_init : reachable config clock (BTCPServer.init config clock)
| reachable_step st ev :
    reachable config clock st ->
    reachable config clock (BTCPServer.step ev st).

(** Every provider has an open stream, and no two session objects have
    providers that write to the same response. *)
Definition providers_open (st : BTCPServer.t) : Prop :=
  forall r s b,
    BTCPServer.sessionObjects st !! r = Some s ->
    Session.browserClient s = Some b ->
    is_open b st.

Definition providers_apart (st : BTCPServer.t) : Prop :=
  forall r1 r2 s1 s2 b1 b2,
    BTCPServer.sessionObjects st !! r1 = Some s1 ->
    BTCPServer.sessionObjects st !! r2 = Some s2 ->
    Session.browserClient s1 = Some b1 ->
    Session.browserClient s2 = Some b2 ->
    SSEClient.response b1 = SSEClient.response b2 ->
    r1 = r2.

(** A session object is idle: no provider and no caller. *)
Definition idle (s : Session.t) : Prop :=
  Session.browserClient s = None /\ Session.agentClients s = [].

(** The sessions map names session objects, no object twice, and none
    that is idle. *)
Definition sessions_live (st : BTCPServer.t) : Prop :=
  (forall sid r,
      JsMap.get sid (BTCPServer.sessions st) = Some r ->
      exists s, BTCPServer.sessionObjects st !! r = Some s /\ ~ idle s)
  /\ (forall sid1 sid2 r,
         JsMap.get sid1 (BTCPServer.sessions st) = Some r ->
         JsMap.get sid2 (BTCPServer.sessions st) = Some r ->
         sid1 = sid2).

(** The provider of the session object [r], and whether response [res]
    has ended; both are read off the shape. *)
Definition provider_of (st : BTCPServer.t) (r : nat) : option SSEClient.t :=
  BTCPServer.sessionObjects st !! r ≫= Session.browserClient.

Definition ended (st : BTCPServer.t) (res : nat) : option bool :=
  ServerResponse.writableEnded <$> BTCPServer.responses st !! res.

(** From [st] to [st'] no session object gets a provider that it did not
    have, and no response is ended or added. *)
Definition providers_shrink (st st' : BTCPServer.t) : Prop :=
  (forall r b, provider_of st' r = Some b -> provider_of st r = Some b)
  /\ (forall res, ended st' res = ended st res).

Definition shrinks {A} (m : BTCPServer.M A) : Prop :=
  forall st, providers_shrink st (snd (m st)).

(** The error that the incumbent provider is sent at a take-over. *)
Definition takeover_error : JsValue :=
  Protocol.createErrorResponse (JStr "disconnect") ErrorCodes.SESSION_ERROR
    "Another browser client connected to this session" JUndefined.

(** The entry that [handleToolsList] and [handleToolsCall] file. *)
Definition filed (request : JsValue) (senderClient : option SSEClient.t)
    (now : Z) : PendingResponse.t :=
  {| PendingResponse.agentId := BTCPServer.sender_id senderClient;
     PendingResponse.originalId := js_prop request "id";
     PendingResponse.timestamp := now |}.

(** A client may become a provider: its stream is open, and no provider
    writes to its response. *)
Definition may_provide (client : SSEClient.t) (st : BTCPServer.t) : Prop :=
  ended st (SSEClient.response client) = Some false
  /\ forall r b, provider_of st r = Some b ->
                 SSEClient.response b <> SSEClient.response client.

(** The session object [r] exists and is not idle. *)
Definition live_at (st : BTCPServer.t) (r : nat) : Prop :=
  exists s, BTCPServer.sessionObjects st !! r = Some s /\ ~ idle s.

(** A computation that keeps [sessions_live], whether it returns or
    throws. *)
Definition keeps_live {A} (m : BTCPServer.M A) : Prop :=
  forall st, sessions_live st -> sessions_live (snd (m st)).

(** The test of [handleDisconnect] for an empty session. *)
Definition is_idle (s : Session.t) : bool :=
  match Session.browserClient s with
  | Some _ => false
  | None => true
  end
  && (JsMap.size (Session.agentClients s) =? 0)%nat.

(** ** The pending entries and the ids they are filed under *)

(** Whether a string has a hyphen in it. *)
Fixpoint has_dash (s : string) : bool :=
  match s with
  | EmptyString => false
  | String c s' => Ascii.eqb c "-" || has_dash s'
  end.

(** The entry filed under [key] in the session object [r]. *)
Definition pending_at (st : BTCPServer.t) (r : nat) (key : string)
    : option PendingResponse.t :=
  BTCPServer.sessionObjects st !! r
    ≫= fun s => Session.pendingResponses s !! key.

(** [key] is an id that [generateMessageId] made at a reading of the
    counter from [lo] up to, and not including, [hi]. *)
Definition issued (key : string) (lo hi : Z) : Prop :=
  exists now counter,
    key = fst (Protocol.generateMessageId now counter)
    /\ (lo <= counter < hi)%Z.

(** Every entry is filed under an id that has been issued. *)
Definition ids_issued (st : BTCPServer.t) : Prop :=
  (0 <= BTCPServer.messageCounter st)%Z
  /\ forall r key entry,
       pending_at st r key = Some entry ->
       issued key 0 (BTCPServer.messageCounter st).

(** From [st] to [st'] entries are only removed. *)
Definition drops (st st' : BTCPServer.t) : Prop :=
  BTCPServer.messageCounter st' = BTCPServer.messageCounter st
  /\ forall r key entry,
       pending_at st' r key = Some entry ->
       pending_at st r key = Some entry.

(** From [st] to [st'] entries are removed, or filed under [id]. *)
Definition files_under (id : string) (st st' : BTCPServer.t) : Prop :=
  BTCPServer.messageCounter st' = BTCPServer.messageCounter st
  /\ forall r key entry,
       pending_at st' r key = Some entry ->
       pending_at st r key = Some entry \/ key = id.

(** From [st] to [st'] entries are removed, or filed under ids issued
    on the way. *)
Definition files_fresh (st st' : BTCPServer.t) : Prop :=
  (BTCPServer.messageCounter st <= BTCPServer.messageCounter st')%Z
  /\ forall r key entry,
       pending_at st' r key = Some entry ->
       pending_at st r key = Some entry
       \/ issued key (BTCPServer.messageCounter st)
            (BTCPServer.messageCounter st').

(** A computation whose final state is related to its initial state by
    [R], whether it returns or throws. *)
Definition relates (R : relation BTCPServer.t) {A} (m : BTCPServer.M A)
    : Prop :=
  forall st, R st (snd (m st)).

(** The relations that hold when entries are only removed. *)
Class Drops (R : relation BTCPServer.t) : Prop := {
  Drops_preorder :: PreOrder R;
  Drops_sub : forall st st', drops st st' -> R st st'
}.
(* ================================================================== *)
(** * More vocabulary: events, frames and listings *)
(* ================================================================== *)

(** ** What ends a request of the client *)





(** ** The response streams *)

(** From [st] to [st'] every response stream keeps what was written to
    it, in order, and a stream that has ended is as it was. *)
Definition appends (st st' : BTCPServer.t) : Prop :=
  forall res r,
    BTCPServer.responses st !! res = Some r ->
    exists r',
      BTCPServer.responses st' !! res = Some r'
      /\ ServerResponse.written r `prefix_of` ServerResponse.written r'
      /\ (ServerResponse.writableEnded r = true -> r' = r).

(** ** Messages that the relay does not route *)



(** Whom a request is answered when the session has no provider: the
    sender if there is one, else the first caller of the session. *)
Definition answered_client (st : BTCPServer.t) (session : option nat)
    (senderClient : option SSEClient.t) : option SSEClient.t :=
  match senderClient with
  | Some senderClient => Some senderClient
  | None =>
      match session with
      | Some r =>
          head (JsMap.values (Session.agentClients (session_at r st)))
      | None => None
      end
  end.

(** [push] to a client that may be absent. *)
Definition push_to `{JsEngine} (client : option SSEClient.t)
    (message : JsValue) (st : BTCPServer.t) : BTCPServer.t :=
  match client with
  | Some client => push (SSEClient.response client) message st
  | None => st
  end.

(** The relay after the provider of [S] has gone and the caller that
    joined is still there. *)
Definition relay_provider_gone : BTCPServer.t :=
  BTCPServer.step (H := MiniEngine.engine) (BTCPServer.Close provider_id)
    relay_joined.

(** A caller that attaches under the session id [S] itself. *)
Definition caller_in_S : SSEClient.t :=
  {| SSEClient.id := caller_id; SSEClient.type := "agent";
     SSEClient.response := 1; SSEClient.sessionId := "S" |}.

(** The relay with the provider of [S] and that caller, which has joined
    [S]. *)
Definition relay_own_session : BTCPServer.t :=
  run_demo [attach_provider; BTCPServer.SSE (Some "S") (Some "agent");
            BTCPServer.Message (Some "S") (Some caller_id) (wire join_S)].

(** ** Handlers that return *)

(** A computation that returns from every state: it does not throw. *)
Definition returns {A} (m : BTCPServer.M A) : Prop :=
  forall st, exists a, fst (m st) = Normal a.

(** A computation that ends in a state where [P] holds. *)
Definition ensures (P : BTCPServer.t -> Prop) {A} (m : BTCPServer.M A)
    : Prop :=
  forall st, P (snd (m st)).

(** [end()] on the streams of the clients [l], in turn. *)
Definition end_all (l : list SSEClient.t) (st : BTCPServer.t)
    : BTCPServer.t :=
  fold_left
    (fun st client =>
       BTCPServer.with_responses
         (alter ServerResponse.end_ (SSEClient.response client)
            (BTCPServer.responses st)) st)
    l st.

(** ** What settles a forwarded request *)

(** A request that the relay forwarded is settled by the response of the
    provider or by its timer. *)
Inductive Settles : Type :=
| ByResponse (response : JsValue)
| ByTimer (kind : BTCPServer.TimeoutKind).

(** The handler that each of them runs, for the entry [key] of the
    session object [r]. *)
Definition settle_forwarded `{JsEngine} (r : nat) (key : string)
    (by_ : Settles) : BTCPServer.M unit :=
  match by_ with
  | ByResponse response => BTCPServer.handleToolResponse (Some r) response
  | ByTimer kind =>
      BTCPServer.run_timeout
        {| BTCPServer.timeout_kind := kind;
           BTCPServer.timeout_session := r;
           BTCPServer.timeout_internalId := key |}
  end.

(** It is about the entry [key]: a response is, when [String(response.id)]
    is the key. *)
Definition settles_key (key : string) (by_ : Settles) : bool :=
  match by_ with
  | ByResponse response => String.eqb (js_String (js_prop response "id")) key
  | ByTimer _ => true
  end.


(** ** The listing that a connecting agent is sent *)

(** The session behind an entry of the sessions map has a provider. *)
Definition has_provider (st : BTCPServer.t) (entry : string * nat) : bool :=
  match Session.browserClient (session_at (snd entry) st) with
  | Some _ => true
  | None => false
  end.

(** The item of the listing for an entry of the sessions map; there is
    none when reading [tools.length] throws. *)
Definition agent_listing `{JsEngine} (st : BTCPServer.t)
    (entry : string * nat) : option JsValue :=
  let s := session_at (snd entry) st in
  match js_length (Session.tools s) with
  | Some toolCount =>
      Some (JObj [("id", JStr (fst entry)); ("toolCount", toolCount);
                  ("createdAt",
                   JStr (Date_toISOString (Session.createdAt s)))])
  | None => None
  end.

(** The notification that confirms a connection. *)
Definition connected_notice (client : SSEClient.t) : JsValue :=
  JObj [("jsonrpc", JStr "2.0"); ("method", JStr "connected");
        ("params",
         JObj [("clientId", JStr (SSEClient.id client));
               ("sessionId", JStr (SSEClient.sessionId client));
               ("clientType", JStr (SSEClient.type client))])].

(** The item of [GET /sessions] for an entry of the sessions map; there
    is none when reading [tools.length] throws. *)
Definition session_item `{JsEngine} (st : BTCPServer.t)
    (entry : string * nat) : option JsValue :=
  let s := session_at (snd entry) st in
  match js_length (Session.tools s) with
  | Some toolCount =>
      Some (JObj [("id", JStr (fst entry));
                  ("hasBrowser",
                   JBool match Session.browserClient s with
                         | Some _ => true
                         | None => false
                         end);
                  ("agentCount",
                   JNum (Z.of_nat (JsMap.size (Session.agentClients s))));
                  ("toolCount", toolCount);
                  ("createdAt",
                   JStr (Date_toISOString (Session.createdAt s)))])
  | None => None
  end.

(** ** The ids of the clients *)

(** The client map has a client under [id]. *)
Definition recorded (st : BTCPServer.t) (id : string) : Prop :=
  is_Some (JsMap.get id (BTCPServer.clients st)).

(** From [st] to [st'] clients are only removed from the client map. *)
Definition forgets (st st' : BTCPServer.t) : Prop :=
  BTCPServer.messageCounter st' = BTCPServer.messageCounter st
  /\ forall id, recorded st' id -> recorded st id.

(** From [st] to [st'] clients are removed, or recorded under [id0]. *)
Definition records_under (id0 : string) (st st' : BTCPServer.t) : Prop :=
  BTCPServer.messageCounter st' = BTCPServer.messageCounter st
  /\ forall id, recorded st' id -> recorded st id \/ id = id0.

(** From [st] to [st'] clients are removed, or recorded under ids issued
    on the way. *)
Definition records_fresh (st st' : BTCPServer.t) : Prop :=
  (BTCPServer.messageCounter st <= BTCPServer.messageCounter st')%Z
  /\ forall id,
       recorded st' id ->
       recorded st id
       \/ issued id (BTCPServer.messageCounter st)
            (BTCPServer.messageCounter st').

(** Every client is recorded under an id that has been issued. *)
Definition clients_issued (st : BTCPServer.t) : Prop :=
  (0 <= BTCPServer.messageCounter st)%Z
  /\ forall id,
       recorded st id -> issued id 0 (BTCPServer.messageCounter st).

(** From [st] to [st'] the client map stays as it is. *)
Definition keeps_clients (st st' : BTCPServer.t) : Prop :=
  BTCPServer.clients st' = BTCPServer.clients st.

(** The relations that hold when clients are only removed. *)
Class Forgets (R : relation BTCPServer.t) : Prop := {
  Forgets_preorder :: PreOrder R;
  Forgets_sub : forall st st', forgets st st' -> R st st'
}.

(** What a computation returns, when it returns, satisfies [P]. *)
Definition yields {A} (P : A -> Prop) (m : BTCPServer.M A) : Prop :=
  forall st a st', m st = (Normal a, st') -> P a.

(* ================================================================== *)
(** * protocol.ts: parsing *)
(* ================================================================== *)

Section Parsing.
Context `{JsEngine}.
Import Protocol.

Lemma isValidJsonRpcMessage_true (obj : JsValue) :
  isValidJsonRpcMessage obj = true <-> js_prop obj "jsonrpc" = JStr "2.0".
Proof.
  unfold isValidJsonRpcMessage.
  destruct obj as [ | | b | n | s | items | props ]; simpl;
    try (split; [intros; discriminate | intros; discriminate]).
  unfold js_is_string.
  destruct (default JUndefined (JsMap.get "jsonrpc" props));
    try (split; intros; discriminate).
  split.
  - intros E. apply String.eqb_eq in E. now subst.
  - intros E. injection E as ->. reflexivity.
Qed.

Lemma parseMessage_accepts (data : string) (parsed : JsValue) :
  JSON_parse data = inl parsed ->
  js_prop parsed "jsonrpc" = JStr "2.0" ->
  parseMessage data = Normal parsed.
Proof.
  intros E V. apply isValidJsonRpcMessage_true in V.
  unfold parseMessage. now rewrite E, V.
Qed.

(** C8, as the code has it: [parseMessage] fails with the parse-error
    kind (class [BTCPParseError], code -32700) for every input that is
    not JSON, and with the same kind and code for every decoded value
    that has no [jsonrpc] equal to ["2.0"]. *)
Theorem parseMessage_fails_with_parse_error (data : string)
    (Hbad : not_a_message data) :
  exists e : JsError,
    parseMessage data = Throw (ThrownError e)
    /\ err_class e = BTCPParseError
    /\ err_code e = Some ErrorCodes.PARSE_ERROR
    /\ err_code e = Some (-32700)%Z.
Proof.
  unfold not_a_message in Hbad. unfold parseMessage.
  destruct (JSON_parse data) as [parsed | syntax].
  - destruct (isValidJsonRpcMessage parsed) eqn:V.
    + apply isValidJsonRpcMessage_true in V. contradiction.
    + simpl. eexists. repeat split.
  - simpl. eexists. repeat split.
Qed.

End Parsing.

Lemma parseMessage_fails_with_parse_error_witness :
  not_a_message (H := MiniEngine.engine) foo_bar
  /\ exists e : JsError,
      Protocol.parseMessage (H := MiniEngine.engine) foo_bar
      = Throw (ThrownError e)
      /\ err_class e = BTCPParseError
      /\ err_code e = Some ErrorCodes.PARSE_ERROR
      /\ err_code e = Some (-32700)%Z.
Proof.
  assert (Hbad : not_a_message (H := MiniEngine.engine) foo_bar)
    by (vm_compute; discriminate).
  split; [exact Hbad | ].
  exact (parseMessage_fails_with_parse_error (H := MiniEngine.engine)
           foo_bar Hbad).
Defined.

(** C8 as the specification words it fails: a decoded value without
    [jsonrpc] is refused with code -32700, not with the invalid-request
    code -32600. *)
Lemma parseMessage_invalid_request_counterexample :
  JSON_parse (JsEngine := MiniEngine.engine) foo_bar
  = inl (JObj [("foo", JStr "bar")])
  /\ js_prop (JObj [("foo", JStr "bar")]) "jsonrpc" <> JStr "2.0"
  /\ completion_code (Protocol.parseMessage (H := MiniEngine.engine) foo_bar)
     = Some (-32700)%Z
  /\ completion_code (Protocol.parseMessage (H := MiniEngine.engine) foo_bar)
     <> Some ErrorCodes.INVALID_REQUEST.
Proof.
  repeat split; try (vm_compute; reflexivity); vm_compute; discriminate.
Qed.

(* ================================================================== *)
(** * executor.ts: the result normalizer *)
(* ================================================================== *)

Section Normalizer.
Context `{JsEngine}.
Import Protocol ToolExecutor.

Lemma string_forallb_base64_run (s : string) :
  string_forallb is_base64_char s = true <-> base64_run s = s.
Proof.
  induction s as [ | c s IH ]; simpl.
  - split; reflexivity.
  - destruct (is_base64_char c); simpl.
    + rewrite IH. split; [intros -> | intros E]; congruence.
    + split; intros; discriminate.
Qed.

Lemma isBase64Image_heuristic (str : string) :
  isBase64Image str = true <-> image_heuristic str.
Proof.
  unfold isBase64Image, image_heuristic, base64_run_100.
  rewrite orb_true_iff, andb_true_iff, Nat.leb_le,
    string_forallb_base64_run.
  reflexivity.
Qed.

Lemma isBTCPContent_object (value : JsValue) :
  isBTCPContent value = true -> exists props, value = JObj props.
Proof.
  destruct value; simpl; try discriminate. eauto.
Qed.

(** C7, as the code has it.  [normalizeResult] answers a list of content
    items for every value:
    - an array whose first element is a content item is answered as it
      is;
    - a single content item is wrapped in a one-element list;
    - a string becomes an image item iff it meets [image_heuristic], with
      the MIME type of [detectImageMimeType], and a text item otherwise;
    - an array that does not start with a content item (the empty array
      too) and any other object are JSON-serialized into a text item, the
      remaining values are rendered by [String] into a text item. *)
Theorem normalizeResult_cases (result : JsValue) :
  (forall first rest,
      result = JArr (first :: rest) -> isBTCPContent first = true ->
      normalizeResult result = first :: rest)
  /\ (isBTCPContent result = true -> normalizeResult result = [result])
  /\ (forall str,
         result = JStr str ->
         (image_heuristic str ->
          normalizeResult result
          = [createImageContent str (Some (detectImageMimeType str))])
         /\ (~ image_heuristic str ->
             normalizeResult result = [createTextContent str])
         /\ ((exists mime,
                 normalizeResult result = [createImageContent str mime])
             <-> image_heuristic str))
  /\ (forall items,
         result = JArr items ->
         match items with
         | first :: _ => isBTCPContent first = false
         | [] => True
         end ->
         normalizeResult result
         = [createTextContent (JSON_stringify_indent 2 result)])
  /\ (forall props,
         result = JObj props -> isBTCPContent result = false ->
         normalizeResult result
         = [createTextContent (JSON_stringify_indent 2 result)])
  /\ (match result with
      | JUndefined | JNull | JBool _ | JNum _ => True
      | _ => False
      end ->
      normalizeResult result = [createTextContent (js_String result)]).
Proof.
  repeat split.
  - intros first rest -> Hc. simpl. now rewrite Hc.
  - intros Hc. destruct (isBTCPContent_object _ Hc) as [props ->].
    unfold normalizeResult. now rewrite Hc.
  - intros Hi. subst result. apply isBase64Image_heuristic in Hi.
    simpl. now rewrite Hi.
  - intros Hi. subst result. simpl.
    destruct (isBase64Image str) eqn:E; [ | reflexivity ].
    apply isBase64Image_heuristic in E. contradiction.
  - intros [mime Hm]. subst result. simpl in Hm.
    destruct (isBase64Image str) eqn:E.
    + now apply isBase64Image_heuristic.
    + discriminate.
  - intros Hi. subst result. apply isBase64Image_heuristic in Hi.
    simpl. rewrite Hi. eauto.
  - intros items -> Hf. destruct items as [ | first rest ]; simpl.
    + reflexivity.
    + now rewrite Hf.
  - intros props -> Hc. unfold normalizeResult. now rewrite Hc.
  - destruct result; try contradiction; reflexivity.
Qed.

End Normalizer.

Lemma normalizeResult_cases_witness :
  image_heuristic "data:image/gif;base64,R0lGODlhAQABAAAAACw="
  /\ ToolExecutor.normalizeResult (H := MiniEngine.engine)
       (JStr "data:image/gif;base64,R0lGODlhAQABAAAAACw=")
     = [Protocol.createImageContent
          "data:image/gif;base64,R0lGODlhAQABAAAAACw=" (Some "image/gif")].
Proof.
  assert (Hi : image_heuristic "data:image/gif;base64,R0lGODlhAQABAAAAACw=")
    by (left; reflexivity).
  split; [exact Hi | ].
  exact (proj1 (proj1 (proj2 (proj2
           (normalizeResult_cases (H := MiniEngine.engine)
              (JStr "data:image/gif;base64,R0lGODlhAQABAAAAACw="))))
           _ eq_refl) Hi).
Defined.

(** C7 as the specification words it fails: a string that begins with a
    run of a hundred base64 characters and goes on with another character
    becomes a text item; and the empty list is not passed through. *)
Lemma normalizeResult_base64_run_counterexample :
  begins_with_base64_run long_run_then_bang = true
  /\ ToolExecutor.normalizeResult (H := MiniEngine.engine)
       (JStr long_run_then_bang)
     = [Protocol.createTextContent long_run_then_bang]
  /\ ToolExecutor.normalizeResult (H := MiniEngine.engine) (JArr [])
     = [Protocol.createTextContent "[]"].
Proof.
  repeat split; vm_compute; reflexivity.
Qed.

(* ================================================================== *)
(** * client.ts: tool calls *)
(* ================================================================== *)

Section ToolCalls.
Context `{JsEngine}.
Import Protocol BTCPClient.

(** Whatever makes [execute] fail, [handleToolCall] answers with the
    response of [createToolCallErrorResponse] at its default code: the
    code of the error that was thrown is not passed on. *)
Lemma handleToolCall_failure (c : BTCPClient.t) (id name args : JsValue)
    (error : Thrown) :
  args <> JUndefined ->
  ToolExecutor.execute (executor c) name args = Throw error ->
  fst (handleToolCall (tools_call_request id name args) c)
  = Normal
      (JObj [("jsonrpc", JStr "2.0"); ("id", id);
             ("result",
              JObj [("content",
                     JArr [createTextContent
                             (error_message_or_String error)]);
                    ("isError", JBool true)]);
             ("error",
              JObj [("code", JNum (-32603));
                    ("message",
                     JStr (error_message_or_String error))])]).
Proof.
  intros Ha He. unfold handleToolCall, tools_call_request. simpl.
  destruct args; try congruence; simpl in *; now rewrite He.
Qed.

Lemma execute_unregistered (ex : ToolExecutor.t) (name : string)
    (args : JsValue) :
  ToolExecutor.handlers ex !! name = None ->
  ToolExecutor.execute ex (JStr name) args
  = Throw (ThrownError (new_BTCPToolNotFoundError (JStr name))).
Proof.
  intros Hn. unfold ToolExecutor.execute. cbn. now rewrite Hn.
Qed.

Lemma execute_handler_throws (ex : ToolExecutor.t) (name : string)
    (handler : ToolExecutor.ToolHandler) (args : JsValue)
    (message : string) :
  args <> JUndefined ->
  ToolExecutor.handlers ex !! name = Some handler ->
  handler args = Throw (ThrownError (new_Error message)) ->
  exists e,
    ToolExecutor.execute ex (JStr name) args = Throw (ThrownError e)
    /\ err_class e = BTCPExecutionError
    /\ err_code e = Some ErrorCodes.EXECUTION_ERROR
    /\ err_message e = message.
Proof.
  intros Ha Hn Hh. unfold ToolExecutor.execute. cbn. rewrite Hn.
  destruct args; try congruence; rewrite Hh; simpl; eexists; repeat split.
Qed.

(** C4 on the code: a [tools/call] of a tool that no handler is
    registered for.  [execute] throws [BTCPToolNotFoundError], whose code
    is -32004; the response of [handleToolCall] has the [result] that the
    claim describes, and an [error] whose code is -32603, not -32004. *)
Theorem handleToolCall_unregistered_tool (c : BTCPClient.t) (id : JsValue)
    (name : string) (args : JsValue)
    (Hargs : args <> JUndefined)
    (Hnone : ToolExecutor.handlers (executor c) !! name = None) :
  completion_code (ToolExecutor.execute (executor c) (JStr name) args)
  = Some ErrorCodes.TOOL_NOT_FOUND
  /\ exists response : JsValue,
      fst (handleToolCall (tools_call_request id (JStr name) args) c)
      = Normal response
      /\ js_prop response "id" = id
      /\ js_prop response "result"
         = JObj [("content",
                  JArr [createTextContent ("Tool not found: " +:+ name)]);
                 ("isError", JBool true)]
      /\ js_prop response "error"
         = JObj [("code", JNum (-32603));
                 ("message", JStr ("Tool not found: " +:+ name))]
      /\ response_error_code response = JNum ErrorCodes.INTERNAL_ERROR
      /\ response_error_code response <> JNum ErrorCodes.TOOL_NOT_FOUND.
Proof.
  pose proof (execute_unregistered (executor c) name args Hnone) as Hex.
  split; [ now rewrite Hex | ].
  eexists. split.
  - apply handleToolCall_failure; [ assumption | exact Hex ].
  - repeat split. discriminate.
Qed.

End ToolCalls.

Lemma handleToolCall_unregistered_tool_witness :
  JObj [] <> JUndefined
  /\ ToolExecutor.handlers (BTCPClient.executor idle_client) !! "x" = None
  /\ exists response : JsValue,
      fst (BTCPClient.handleToolCall (H := MiniEngine.engine)
             (tools_call_request (JStr "call-1") (JStr "x") (JObj []))
             idle_client)
      = Normal response
      /\ response_error_code response = JNum (-32603).
Proof.
  assert (Ha : JObj [] <> JUndefined) by discriminate.
  assert (Hn : ToolExecutor.handlers (BTCPClient.executor idle_client) !! "x"
               = None) by reflexivity.
  split; [ exact Ha | ]. split; [ exact Hn | ].
  destruct (handleToolCall_unregistered_tool (H := MiniEngine.engine)
              idle_client (JStr "call-1") "x" (JObj []) Ha Hn)
    as (_ & response & Hrun & _ & _ & _ & Hcode & _).
  exists response. split; [ exact Hrun | exact Hcode ].
Defined.

(* ================================================================== *)
(** * client.ts: disconnect *)
(* ================================================================== *)

Section Disconnect.
Import BTCPClient.



Lemma settle_fresh (id : string) (s : Settlement) (c : BTCPClient.t) :
  promises c !! id = None -> promises (settle id s c) !! id = Some s.
Proof.
  intros Hp. unfold settle. rewrite Hp. apply lookup_insert_eq.
Qed.

(** After [disconnect()], a request that was in flight is settled by
    its own timer, with the time-out kind. *)
Lemma request_timeout_after_disconnect (c : BTCPClient.t) (id method : string) :
  requestTimers c !! id = Some method ->
  promises c !! id = None ->
  promises (request_timeout id (disconnect c)) !! id
  = Some (Rejected
            (ThrownError
               (new_BTCPTimeoutError ("Request timeout: " +:+ method)))).
Proof.
  intros Ht Hp.
  assert (Ht' : requestTimers (disconnect c) = requestTimers c)
    by (unfold disconnect; now destruct (eventSource c)).
  assert (Hp' : promises (disconnect c) = promises c)
    by (unfold disconnect; now destruct (eventSource c)).
  unfold request_timeout. rewrite Ht', Ht.
  apply settle_fresh.
  change (promises (disconnect c) !! id = None).
  now rewrite Hp'.
Qed.

End Disconnect.


(* ================================================================== *)
(** * Maps in insertion order *)
(* ================================================================== *)

Section JsMapFacts.
Context {V : Type}.
Implicit Types (m : JsMap.t V) (k : string) (v : V).

Lemma JsMap_get_set_eq m k v : JsMap.get k (JsMap.set k v m) = Some v.
Proof.
  induction m as [ | [k' v'] m IH ]; simpl.
  - now rewrite String.eqb_refl.
  - destruct (String.eqb k k') eqn:E; simpl.
    + now rewrite String.eqb_refl.
    + now rewrite E.
Qed.

Lemma JsMap_get_set_ne m k k' v :
  k <> k' -> JsMap.get k' (JsMap.set k v m) = JsMap.get k' m.
Proof.
  intros Hne. induction m as [ | [k0 v0] m IH ]; simpl.
  - apply String.eqb_neq in Hne. rewrite String.eqb_sym. now rewrite Hne.
  - destruct (String.eqb k k0) eqn:E; simpl.
    + apply String.eqb_eq in E. subst k0.
      apply String.eqb_neq in Hne. rewrite String.eqb_sym. now rewrite Hne.
    + now rewrite IH.
Qed.

Lemma JsMap_get_delete_eq m k : JsMap.get k (JsMap.delete k m) = None.
Proof.
  induction m as [ | [k' v'] m IH ]; simpl; [ reflexivity | ].
  destruct (String.eqb k k') eqn:E; simpl; [ assumption | ].
  now rewrite E.
Qed.

Lemma JsMap_get_delete_ne m k k' :
  k <> k' -> JsMap.get k' (JsMap.delete k m) = JsMap.get k' m.
Proof.
  intros Hne. induction m as [ | [k0 v0] m IH ]; simpl; [ reflexivity | ].
  destruct (String.eqb k k0) eqn:E; simpl.
  - apply String.eqb_eq in E. subst k0.
    apply String.eqb_neq in Hne. rewrite String.eqb_sym in Hne.
    now rewrite Hne.
  - now rewrite IH.
Qed.

Lemma JsMap_delete_absent m k :
  JsMap.get k m = None -> JsMap.delete k m = m.
Proof.
  induction m as [ | [k' v'] m IH ]; simpl; [ reflexivity | ].
  destruct (String.eqb k k') eqn:E; [ discriminate | ].
  intros Hn. now rewrite IH.
Qed.

Lemma JsMap_set_nonempty m k v : JsMap.size (JsMap.set k v m) <> 0.
Proof.
  destruct m as [ | [k' v'] m ]; simpl; [ discriminate | ].
  destruct (String.eqb k k'); discriminate.
Qed.

Lemma JsMap_get_Some_size m k v : JsMap.get k m = Some v -> JsMap.size m <> 0.
Proof. destruct m; simpl; [ discriminate | intros _; discriminate ]. Qed.

End JsMapFacts.


Lemma js_prop_spread_set_ne (props : list (string * JsValue)) (k k' : string)
    (x : JsValue) :
  k <> k' ->
  js_prop (js_spread_set (JObj props) k x) k' = js_prop (JObj props) k'.
Proof. intros Hne. simpl. now rewrite JsMap_get_set_ne. Qed.

(* ================================================================== *)
(** * server.ts: pushing a message to a client *)
(* ================================================================== *)

(** Unfolds the operations of the monad [BTCPServer.M]. *)
Ltac unfold_M :=
  unfold mbind, BTCPServer.M_bind, BTCPServer.bind, BTCPServer.ret,
    BTCPServer.gets, BTCPServer.modify, BTCPServer.throw, BTCPServer.lift,
    BTCPServer.try_catch in *.

Section Sending.
Context `{JsEngine}.
Import Protocol BTCPServer.

Lemma sendToClient_run (client : SSEClient.t) (message : JsValue)
    (st : BTCPServer.t) :
  sendToClient client message st
  = (Normal tt, push (SSEClient.response client) message st).
Proof.
  unfold sendToClient, push, writableEnded, response_write, sse_frame.
  unfold_M.
  destruct (responses st !! SSEClient.response client) as [r | ];
    cbn; [ | reflexivity ].
  destruct (ServerResponse.writableEnded r); reflexivity.
Qed.

(** C10.  [sendToClient] returns, and throws nothing, for every client,
    message and state.  On a response that has ended it changes nothing;
    on an open response it writes exactly one chunk, the SSE data frame
    of the serialized message, and changes nothing else. *)
Theorem sendToClient_never_fails (client : SSEClient.t) (message : JsValue)
    (st : BTCPServer.t) :
  exists st' : BTCPServer.t,
    sendToClient client message st = (Normal tt, st')
    /\ st' = with_responses (responses st') st
    /\ (forall res, res <> SSEClient.response client ->
                    responses st' !! res = responses st !! res)
    /\ match responses st !! SSEClient.response client with
       | Some r =>
           if ServerResponse.writableEnded r then st' = st
           else
             responses st' !! SSEClient.response client
             = Some {| ServerResponse.written :=
                         ServerResponse.written r
                         ++ ["data: " +:+ JSON_stringify message
                             +:+ LF +:+ LF];
                       ServerResponse.writableEnded := false |}
       | None => st' = st
       end.
Proof.
  exists (push (SSEClient.response client) message st).
  split; [ apply sendToClient_run | ].
  unfold push.
  destruct (responses st !! SSEClient.response client) as [r | ] eqn:Er.
  - destruct (ServerResponse.writableEnded r) eqn:Ew.
    + split; [ destruct st; reflexivity | ].
      split; [ intros; reflexivity | reflexivity ].
    + split; [ reflexivity | ]. split.
      * intros res Hne. cbn. now apply list_lookup_alter_ne.
      * cbn. rewrite list_lookup_alter_eq, Er. cbn.
        unfold ServerResponse.write. rewrite Ew. reflexivity.
  - split; [ destruct st; reflexivity | ].
    split; [ intros; reflexivity | reflexivity ].
Qed.

End Sending.

(* ================================================================== *)
(** * server.ts: id rewriting, responses and time-outs *)
(* ================================================================== *)

Section Routing.
Context `{JsEngine}.
Import Protocol BTCPServer.

Lemma alter_lookup_insert {A} (f : A -> A) (l : list A) (i : nat) (x : A) :
  l !! i = Some x -> alter f i l = <[i := f x]> l.
Proof.
  revert i. induction l as [ | y l IH ]; intros [ | i ] Hl;
    try discriminate; cbn in *.
  - now injection Hl as ->.
  - f_equal. now apply IH.
Qed.

(** [push] touches the responses only. *)
Lemma push_frame (res : nat) (message : JsValue) (st : BTCPServer.t) :
  sessions (push res message st) = sessions st
  /\ clients (push res message st) = clients st
  /\ sessionObjects (push res message st) = sessionObjects st
  /\ timeouts (push res message st) = timeouts st
  /\ keepAliveIntervals (push res message st) = keepAliveIntervals st
  /\ messageCounter (push res message st) = messageCounter st
  /\ ticks (push res message st) = ticks st
  /\ clock (push res message st) = clock st.
Proof.
  unfold push. destruct (responses st !! res) as [r | ];
    [ destruct (ServerResponse.writableEnded r) | ]; now repeat split.
Qed.

Lemma push_sessionObjects (res : nat) (message : JsValue)
    (st : BTCPServer.t) :
  sessionObjects (push res message st) = sessionObjects st.
Proof. apply push_frame. Qed.

Lemma push_with_sessionObjects (res : nat) (message : JsValue)
    (objs : list Session.t) (st : BTCPServer.t) :
  push res message (with_sessionObjects objs st)
  = with_sessionObjects objs (push res message st).
Proof.
  unfold push. cbn.
  destruct (responses st !! res) as [r | ];
    [ destruct (ServerResponse.writableEnded r) | ]; reflexivity.
Qed.

Lemma push_written_open (client : SSEClient.t) (message : JsValue)
    (st : BTCPServer.t) :
  is_open client st ->
  written_to client (push (SSEClient.response client) message st)
  = written_to client st ++ [sse_frame message].
Proof.
  intros (r & Hr & Hw). unfold written_to, push. rewrite Hr, Hw. cbn.
  now rewrite list_lookup_alter_eq, Hr.
Qed.

Lemma push_written_ended (client : SSEClient.t) (message : JsValue)
    (st : BTCPServer.t) :
  ~ is_open client st ->
  push (SSEClient.response client) message st = st.
Proof.
  intros Hn. unfold push.
  destruct (responses st !! SSEClient.response client) as [r | ] eqn:Hr;
    [ | reflexivity ].
  destruct (ServerResponse.writableEnded r) eqn:Hw; [ reflexivity | ].
  exfalso. apply Hn. now exists r.
Qed.

Lemma push_written_other (client : SSEClient.t) (res : nat)
    (message : JsValue) (st : BTCPServer.t) :
  res <> SSEClient.response client ->
  written_to client (push res message st) = written_to client st.
Proof.
  intros Hne. unfold written_to, push.
  destruct (responses st !! res) as [r | ] eqn:Hr; [ | reflexivity ].
  destruct (ServerResponse.writableEnded r); [ reflexivity | ].
  cbn. now rewrite list_lookup_alter_ne.
Qed.

(** [handleToolsCall] and [handleToolsList] in a session with a
    provider. *)
Lemma forwarder_run (kind : TimeoutKind) (st : BTCPServer.t) (r : nat)
    (s : Session.t) (b : SSEClient.t) (request : JsValue)
    (senderClient : option SSEClient.t) :
  sessionObjects st !! r = Some s ->
  Session.browserClient s = Some b ->
  let internalId :=
    fst (Protocol.generateMessageId (clock st (ticks st))
           (messageCounter st)) in
  let entry := filed request senderClient (clock st (S (ticks st))) in
  let s' :=
    Session.with_pendingResponses
      (<[internalId := entry]> (Session.pendingResponses s)) s in
  forwarder kind (Some r) request senderClient st
  = (Normal tt,
     with_timeouts
       (timeouts st
        ++ [{| timeout_kind := kind; timeout_session := r;
               timeout_internalId := internalId |}])
       (push (SSEClient.response b)
          (js_spread_set request "id" (JStr internalId))
          (with_sessionObjects (<[r := s']> (sessionObjects st))
             (with_ticks (S (S (ticks st)))
                (with_messageCounter (messageCounter st + 1) st))))).
Proof.
  intros Hs Hb. cbv zeta.
  destruct kind; unfold forwarder, handleToolsList, handleToolsCall,
    generateMessageId, Date_now, update_session, setTimeout, deref;
    unfold_M; cbn; rewrite Hs; cbn.
  - rewrite Hb. cbn. rewrite sendToClient_run. cbn.
    rewrite (proj1 (proj2 (proj2 (proj2 (push_frame _ _ _))))). cbn.
    rewrite (alter_lookup_insert _ _ _ _ Hs).
    destruct st; reflexivity.
  - destruct s as [sid bc agents tools pend created]. cbn in Hb. subst bc.
    cbn. rewrite sendToClient_run. cbn.
    rewrite (proj1 (proj2 (proj2 (proj2 (push_frame _ _ _))))). cbn.
    rewrite (alter_lookup_insert _ _ _ _ Hs).
    destruct st; reflexivity.
Qed.

(** [handleToolResponse] on a response whose id is filed. *)
Lemma handleToolResponse_run (st : BTCPServer.t) (r : nat) (s : Session.t)
    (response : JsValue) (pending : PendingResponse.t) :
  sessionObjects st !! r = Some s ->
  Session.pendingResponses s !! js_String (js_prop response "id")
  = Some pending ->
  let key := js_String (js_prop response "id") in
  let s' :=
    Session.with_pendingResponses (delete key (Session.pendingResponses s))
      s in
  let st' := with_sessionObjects (<[r := s']> (sessionObjects st)) st in
  handleToolResponse (Some r) response st
  = (Normal tt,
     match JsMap.get (PendingResponse.agentId pending)
             (Session.agentClients s) with
     | Some agent =>
         push (SSEClient.response agent)
           (js_spread_set response "id" (PendingResponse.originalId pending))
           st'
     | None => st'
     end).
Proof.
  intros Hs Hp. cbv zeta.
  unfold handleToolResponse, update_session, deref.
  unfold_M. cbn. rewrite Hs. cbn. rewrite Hp. cbn.
  rewrite list_lookup_alter_eq, Hs. cbn.
  rewrite (alter_lookup_insert _ _ _ _ Hs).
  destruct (JsMap.get (PendingResponse.agentId pending)
              (Session.agentClients s)) as [agent | ];
    [ now rewrite sendToClient_run | reflexivity ].
Qed.

(** A response whose id is not filed is dropped. *)
Lemma handleToolResponse_unknown (st : BTCPServer.t) (r : nat)
    (s : Session.t) (response : JsValue) :
  sessionObjects st !! r = Some s ->
  Session.pendingResponses s !! js_String (js_prop response "id") = None ->
  handleToolResponse (Some r) response st = (Normal tt, st).
Proof.
  intros Hs Hp. unfold handleToolResponse, deref. unfold_M. cbn.
  rewrite Hs. cbn. now rewrite Hp.
Qed.

(** The timer of [handleToolsCall], the entry being still filed. *)
Lemma handleToolsCall_timeout_run (st : BTCPServer.t) (r : nat)
    (s : Session.t) (internalId : string) (pending : PendingResponse.t) :
  sessionObjects st !! r = Some s ->
  Session.pendingResponses s !! internalId = Some pending ->
  let s' :=
    Session.with_pendingResponses
      (delete internalId (Session.pendingResponses s)) s in
  let st' := with_sessionObjects (<[r := s']> (sessionObjects st)) st in
  handleToolsCall_timeout r internalId st
  = (Normal tt,
     match JsMap.get (PendingResponse.agentId pending)
             (Session.agentClients s) with
     | Some agent =>
         push (SSEClient.response agent)
           (createErrorResponse (PendingResponse.originalId pending)
              ErrorCodes.TIMEOUT_ERROR "Tool execution timeout" JUndefined)
           st'
     | None => st'
     end).
Proof.
  intros Hs Hp. cbv zeta.
  unfold handleToolsCall_timeout, update_session, deref.
  unfold_M. cbn. rewrite Hs. cbn. rewrite Hp. cbn.
  rewrite list_lookup_alter_eq, Hs. cbn.
  rewrite (alter_lookup_insert _ _ _ _ Hs).
  destruct (JsMap.get (PendingResponse.agentId pending)
              (Session.agentClients s)) as [agent | ];
    [ now rewrite sendToClient_run | reflexivity ].
Qed.

(** The timer of [handleToolsList], the entry being still filed. *)
Lemma handleToolsList_timeout_run (st : BTCPServer.t) (r : nat)
    (s : Session.t) (internalId : string) (pending : PendingResponse.t) :
  sessionObjects st !! r = Some s ->
  Session.pendingResponses s !! internalId = Some pending ->
  let s' :=
    Session.with_pendingResponses
      (delete internalId (Session.pendingResponses s)) s in
  let st' := with_sessionObjects (<[r := s']> (sessionObjects st)) st in
  handleToolsList_timeout r internalId st
  = (Normal tt,
     match JsMap.get (PendingResponse.agentId pending)
             (Session.agentClients s) with
     | Some agent =>
         push (SSEClient.response agent)
           (createResponse (PendingResponse.originalId pending)
              (JObj [("tools", Session.tools s)]))
           st'
     | None => st'
     end).
Proof.
  intros Hs Hp. cbv zeta.
  unfold handleToolsList_timeout, update_session, deref.
  unfold_M. cbn. rewrite Hs. cbn. rewrite Hp. cbn.
  rewrite list_lookup_alter_eq, Hs. cbn.
  rewrite (alter_lookup_insert _ _ _ _ Hs).
  destruct (JsMap.get (PendingResponse.agentId pending)
              (Session.agentClients s)) as [agent | ];
    [ now rewrite sendToClient_run | reflexivity ].
Qed.

(** A timer whose entry is gone does nothing. *)
Lemma timeout_after_response (st : BTCPServer.t) (t : Timeout)
    (s : Session.t) :
  sessionObjects st !! timeout_session t = Some s ->
  Session.pendingResponses s !! timeout_internalId t = None ->
  run_timeout t st = (Normal tt, st).
Proof.
  intros Hs Hp.
  unfold run_timeout, handleToolsList_timeout, handleToolsCall_timeout,
    deref.
  unfold_M. destruct (timeout_kind t); cbn; rewrite Hs; cbn; now rewrite Hp.
Qed.


(** C3, as the code has it.  When a timer fires while its entry is still
    filed, the entry is removed; if the sender recorded in the entry is in
    the caller map of the session, the timer of [tools/call] pushes it an
    error response with the time-out code -32001 and the original id, and
    the timer of [tools/list] a success response with the original id and
    the cached tool list; if the sender is not in the caller map, nothing
    is pushed. *)
Theorem timeout_answers_attached_caller (st : BTCPServer.t) (r : nat)
    (s : Session.t) (internalId : string) (pending : PendingResponse.t)
    (Hs : sessionObjects st !! r = Some s)
    (Hp : Session.pendingResponses s !! internalId = Some pending) :
  let s' :=
    Session.with_pendingResponses
      (delete internalId (Session.pendingResponses s)) s in
  let caller :=
    JsMap.get (PendingResponse.agentId pending) (Session.agentClients s) in
  let originalId := PendingResponse.originalId pending in
  (exists st' : BTCPServer.t,
      handleToolsCall_timeout r internalId st = (Normal tt, st')
      /\ sessionObjects st' !! r = Some s'
      /\ match caller with
         | Some agent =>
             responses st'
             = responses
                 (push (SSEClient.response agent)
                    (createErrorResponse originalId (-32001)
                       "Tool execution timeout" JUndefined) st)
         | None => responses st' = responses st
         end)
  /\ (exists st' : BTCPServer.t,
         handleToolsList_timeout r internalId st = (Normal tt, st')
         /\ sessionObjects st' !! r = Some s'
         /\ match caller with
            | Some agent =>
                responses st'
                = responses
                    (push (SSEClient.response agent)
                       (createResponse originalId
                          (JObj [("tools", Session.tools s)])) st)
            | None => responses st' = responses st
            end).
Proof.
  cbv zeta.
  assert (Hlt : r < length (sessionObjects st))
    by now apply lookup_lt_Some in Hs.
  split.
  - pose proof (handleToolsCall_timeout_run st r s internalId pending Hs Hp)
      as Hrun. cbv zeta in Hrun.
    eexists. split; [ exact Hrun | ].
    destruct (JsMap.get (PendingResponse.agentId pending)
                (Session.agentClients s)) as [agent | ].
    + rewrite push_sessionObjects, push_with_sessionObjects. cbn.
      split; [ now apply list_lookup_insert_eq | reflexivity ].
    + cbn. split; [ now apply list_lookup_insert_eq | reflexivity ].
  - pose proof (handleToolsList_timeout_run st r s internalId pending Hs Hp)
      as Hrun. cbv zeta in Hrun.
    eexists. split; [ exact Hrun | ].
    destruct (JsMap.get (PendingResponse.agentId pending)
                (Session.agentClients s)) as [agent | ].
    + rewrite push_sessionObjects, push_with_sessionObjects. cbn.
      split; [ now apply list_lookup_insert_eq | reflexivity ].
    + cbn. split; [ now apply list_lookup_insert_eq | reflexivity ].
Qed.

End Routing.

Lemma timeout_answers_attached_caller_witness :
  BTCPServer.sessionObjects relay_call_pending !! 0
  = Some (session_at 0 relay_call_pending)
  /\ Session.pendingResponses (session_at 0 relay_call_pending) !! internal_id
     = Some {| PendingResponse.agentId := caller_id;
               PendingResponse.originalId := JStr "call-1";
               PendingResponse.timestamp := 1700000000004 |}
  /\ exists st' : BTCPServer.t,
      BTCPServer.handleToolsCall_timeout (H := MiniEngine.engine) 0
        internal_id relay_call_pending
      = (Normal tt, st')
      /\ BTCPServer.responses st'
         = BTCPServer.responses
             (push (H := MiniEngine.engine) 1
                (Protocol.createErrorResponse (JStr "call-1") (-32001)
                   "Tool execution timeout" JUndefined)
                relay_call_pending).
Proof.
  assert (Hs : BTCPServer.sessionObjects relay_call_pending !! 0
               = Some (session_at 0 relay_call_pending))
    by (vm_compute; reflexivity).
  assert (Hp : Session.pendingResponses (session_at 0 relay_call_pending)
               !! internal_id
               = Some {| PendingResponse.agentId := caller_id;
                         PendingResponse.originalId := JStr "call-1";
                         PendingResponse.timestamp := 1700000000004 |})
    by (vm_compute; reflexivity).
  split; [ exact Hs | ]. split; [ exact Hp | ].
  destruct (timeout_answers_attached_caller (H := MiniEngine.engine)
              relay_call_pending 0 _ internal_id _ Hs Hp)
    as [(st' & Hrun & _ & Hpush) _].
  exists st'. split; [ exact Hrun | ]. exact Hpush.
Defined.

(** C3 as the specification words it fails: a caller that is attached
    and has posted a [tools/call] to [S] without joining it.  The request
    is forwarded and its entry is filed; when the timer fires the entry
    is removed and nothing is pushed, to the caller or to anyone. *)
Lemma timeout_pushes_nothing_counterexample :
  let st := relay_call_pending_not_joined in
  let st' :=
    BTCPServer.step (H := MiniEngine.engine) (BTCPServer.TimeoutFires 0) st in
  JsMap.get caller_id (BTCPServer.clients st) = Some caller
  /\ is_open caller st
  /\ BTCPServer.timeouts st
     = [{| BTCPServer.timeout_kind := BTCPServer.ToolsCallTimeout;
           BTCPServer.timeout_session := 0;
           BTCPServer.timeout_internalId := internal_id |}]
  /\ Session.pendingResponses (session_at 0 st) !! internal_id
     = Some {| PendingResponse.agentId := caller_id;
               PendingResponse.originalId := JStr "call-1";
               PendingResponse.timestamp := 1700000000004 |}
  /\ Session.pendingResponses (session_at 0 st') !! internal_id = None
  /\ BTCPServer.responses st' = BTCPServer.responses st
  /\ written_to caller st' = written_to caller st.
Proof.
  cbv zeta. split; [ vm_compute; reflexivity | ]. split.
  { eexists. split; vm_compute; reflexivity. }
  split; [ vm_compute; reflexivity | ].
  split; [ vm_compute; reflexivity | ].
  split; [ vm_compute; reflexivity | ].
  split; vm_compute; reflexivity.
Qed.

(* ================================================================== *)
(** * server.ts: provider take-over *)
(* ================================================================== *)

Section Takeover.
Context `{JsEngine}.
Import Protocol BTCPServer.

(** The take-over, for an incumbent whose stream is open. *)
Lemma handleBrowserConnect_takeover (st : BTCPServer.t)
    (client old : SSEClient.t) (r : nat) (s : Session.t)
    (Hr : JsMap.get (SSEClient.sessionId client) (sessions st) = Some r)
    (Hs : sessionObjects st !! r = Some s)
    (Hold : Session.browserClient s = Some old)
    (Hopen : is_open old st) :
  exists st' : BTCPServer.t,
    handleBrowserConnect client st = (Normal tt, st')
    /\ response_error_code takeover_error = JNum (-32002)
    /\ responses st' !! SSEClient.response old
       = Some {| ServerResponse.written :=
                   written_to old st ++ [sse_frame takeover_error];
                 ServerResponse.writableEnded := true |}
    /\ (forall res, res <> SSEClient.response old ->
                    responses st' !! res = responses st !! res)
    /\ sessionObjects st'
       = <[r := Session.with_browserClient (Some client) s]>
           (sessionObjects st)
    /\ Session.browserClient (session_at r st') = Some client
    /\ sessions st' = sessions st.
Proof.
  destruct Hopen as (ro & Hro & Hw).
  unfold handleBrowserConnect, update_session, deref, response_end.
  unfold_M. cbn. rewrite Hr. cbn. rewrite Hs. cbn. rewrite Hold.
  rewrite sendToClient_run. cbn.
  eexists. split; [ reflexivity | ].
  split; [ reflexivity | ].
  cbn. rewrite push_sessionObjects.
  rewrite (alter_lookup_insert _ _ _ _ Hs).
  unfold push, written_to. rewrite Hro, Hw. cbn.
  split; [ | split; [ | split; [ | split ] ] ].
  - rewrite !list_lookup_alter_eq, Hro. reflexivity.
  - intros res Hne. now rewrite !list_lookup_alter_ne.
  - reflexivity.
  - unfold session_at. cbn. rewrite list_lookup_insert_eq; [ reflexivity | ].
    now apply lookup_lt_Some in Hs.
  - reflexivity.
Qed.

End Takeover.


(* ================================================================== *)
(** * server.ts: tool registration *)
(* ================================================================== *)

Section Registration.
Context `{JsEngine}.
Import Protocol BTCPServer.

Lemma push_all_sessionObjects (l : list SSEClient.t) (message : JsValue)
    (st : BTCPServer.t) :
  sessionObjects (push_all l message st) = sessionObjects st.
Proof.
  revert st. induction l as [ | agent l IH ]; intros st; cbn;
    [ reflexivity | ].
  unfold push_all in IH. now rewrite IH, push_sessionObjects.
Qed.

Lemma for_of_sendToClient_run (l : list SSEClient.t) (message : JsValue)
    (st : BTCPServer.t) :
  for_of l (fun agent => sendToClient agent message) st
  = (Normal tt, push_all l message st).
Proof.
  revert st. induction l as [ | agent l IH ]; intros st; cbn;
    [ reflexivity | ].
  unfold_M. rewrite sendToClient_run. apply IH.
Qed.

(** [findSenderClient] reads the state and leaves it as it is. *)
Lemma findSenderClient_run (sessionId : string) (clientId : option string)
    (st : BTCPServer.t) :
  exists senderClient,
    findSenderClient sessionId clientId st = (Normal senderClient, st).
Proof.
  unfold findSenderClient, deref. unfold_M.
  destruct (str_truthy clientId); [ eauto | ].
  destruct (JsMap.get sessionId (sessions st)) as [r | ]; cbn.
  - destruct (head (JsMap.values
                      (Session.agentClients
                         (default Session.none (sessionObjects st !! r)))));
      eauto.
  - eauto.
Qed.




End Registration.



(* ================================================================== *)
(** * server.ts: disconnects *)
(* ================================================================== *)

Section OwnSession.
Context `{JsEngine}.
Import Protocol BTCPServer.

(** X28.  The other path of [handleDisconnect]: a caller whose own
    [sessionId] names the session it is a caller of is taken out of the
    caller map when its channel closes, and the session is deleted if
    that leaves it idle. *)
Lemma handleDisconnect_caller_of_own_session (st : BTCPServer.t)
    (clientId : string) (client : SSEClient.t) (r : nat) (s : Session.t) :
  JsMap.get clientId (clients st) = Some client ->
  JsMap.get (SSEClient.sessionId client) (sessions st) = Some r ->
  sessionObjects st !! r = Some s ->
  match Session.browserClient s with
  | Some browserClient => String.eqb (SSEClient.id browserClient) clientId
  | None => false
  end = false ->
  let s' :=
    Session.with_agentClients
      (JsMap.delete clientId (Session.agentClients s)) s in
  exists st' : BTCPServer.t,
    handleDisconnect clientId st = (Normal tt, st')
    /\ sessionObjects st' = <[r := s']> (sessionObjects st)
    /\ JsMap.get clientId (Session.agentClients s') = None
    /\ sessions st'
       = (if is_idle s'
          then JsMap.delete (SSEClient.sessionId client) (sessions st)
          else sessions st)
    /\ clients st' = JsMap.delete clientId (clients st).
Proof.
  intros Hc Hr Hs Hp s'.
  assert (Hlt : r < length (sessionObjects st))
    by now apply lookup_lt_Some in Hs.
  unfold handleDisconnect, update_session, deref. unfold_M. cbn.
  rewrite Hc. cbn.
  destruct (JsMap.get clientId (keepAliveIntervals st)); cbn;
    rewrite Hr; cbn; rewrite Hs; cbn; rewrite Hp; cbn;
    rewrite (alter_lookup_insert _ _ _ _ Hs);
    rewrite (list_lookup_insert_eq _ _ _ Hlt); cbn;
    change (_ && _) with (is_idle s');
    destruct (is_idle s'); cbn;
    (eexists; split; [ reflexivity | ]; cbn;
     split; [ reflexivity | ];
     split; [ apply JsMap_get_delete_eq | split; reflexivity ]).
Qed.

End OwnSession.

Lemma handleDisconnect_caller_of_own_session_witness :
  JsMap.get caller_id (Session.agentClients (session_at 0 relay_own_session))
  = Some caller_in_S
  /\ exists st' : BTCPServer.t,
       BTCPServer.handleDisconnect (H := MiniEngine.engine) caller_id
         relay_own_session
       = (Normal tt, st')
       /\ JsMap.get caller_id (Session.agentClients (session_at 0 st'))
          = None
       /\ BTCPServer.sessions st' = BTCPServer.sessions relay_own_session.
Proof.
  assert (Ha : JsMap.get caller_id
                 (Session.agentClients (session_at 0 relay_own_session))
               = Some caller_in_S)
    by (vm_compute; reflexivity).
  assert (Hc : JsMap.get caller_id (BTCPServer.clients relay_own_session)
               = Some caller_in_S)
    by (vm_compute; reflexivity).
  assert (Hr : JsMap.get (SSEClient.sessionId caller_in_S)
                 (BTCPServer.sessions relay_own_session) = Some 0)
    by (vm_compute; reflexivity).
  assert (Hs : BTCPServer.sessionObjects relay_own_session !! 0
               = Some (session_at 0 relay_own_session))
    by (vm_compute; reflexivity).
  assert (Hp : match Session.browserClient (session_at 0 relay_own_session)
               with
               | Some browserClient =>
                   String.eqb (SSEClient.id browserClient) caller_id
               | None => false
               end = false)
    by (vm_compute; reflexivity).
  split; [ exact Ha | ].
  destruct (handleDisconnect_caller_of_own_session (H := MiniEngine.engine)
              relay_own_session caller_id _ 0 _ Hc Hr Hs Hp)
    as (st' & Hrun & Hobj & Hgone & Hsessions & _).
  exists st'. split; [ exact Hrun | ]. split.
  - unfold session_at at 1. rewrite Hobj.
    rewrite list_lookup_insert_eq
      by (apply lookup_lt_Some in Hs; exact Hs).
    exact Hgone.
  - rewrite Hsessions. vm_compute. reflexivity.
Defined.

(** C5 on the code.  A caller attaches under its own session id [A] and
    joins [S] ([handleSessionJoin] leaves its [sessionId] as it is).  When
    its push channel closes, [handleDisconnect] looks for the session [A],
    finds none, and leaves the caller in the caller map of [S], the
    session it joined.  When the provider's channel closes as well, no
    client is left, and [S] is still in the sessions map: it has no
    provider, and its caller map still holds the caller that is gone. *)
Theorem caller_stays_in_joined_session :
  JsMap.get caller_id (Session.agentClients (session_at 0 relay_joined))
  = Some caller
  /\ SSEClient.sessionId caller = "A"
  /\ JsMap.get "A" (BTCPServer.sessions relay_joined) = None
  /\ JsMap.get caller_id (BTCPServer.clients relay_caller_gone) = None
  /\ JsMap.get caller_id
       (Session.agentClients (session_at 0 relay_caller_gone))
     = Some caller
  /\ BTCPServer.clients relay_all_gone = []
  /\ JsMap.get "S" (BTCPServer.sessions relay_all_gone) = Some 0
  /\ Session.browserClient (session_at 0 relay_all_gone) = None
  /\ JsMap.keys (Session.agentClients (session_at 0 relay_all_gone))
     = [caller_id].
Proof.
  split; [ vm_compute; reflexivity | ].
  split; [ vm_compute; reflexivity | ].
  split; [ vm_compute; reflexivity | ].
  split; [ vm_compute; reflexivity | ].
  split; [ vm_compute; reflexivity | ].
  split; [ vm_compute; reflexivity | ].
  split; [ vm_compute; reflexivity | ].
  split; vm_compute; reflexivity.
Qed.

(* ================================================================== *)
(** * Invariants of the relay *)
(* ================================================================== *)

Section Shape.
Context `{JsEngine}.
Import Protocol BTCPServer.

Lemma keeps_shape_ret {A} (a : A) : keeps_shape (ret a).
Proof. intros st. reflexivity. Qed.

Lemma keeps_shape_gets {A} (f : BTCPServer.t -> A) : keeps_shape (gets f).
Proof. intros st. reflexivity. Qed.

Lemma keeps_shape_throw {A} (e : JsError) : keeps_shape (@throw A e).
Proof. intros st. reflexivity. Qed.

Lemma keeps_shape_lift {A} (c : Completion A) : keeps_shape (lift c).
Proof. intros st. reflexivity. Qed.

Lemma keeps_shape_modify (f : BTCPServer.t -> BTCPServer.t) :
  (forall st, shape (f st) = shape st) -> keeps_shape (modify f).
Proof. intros Hf st. apply Hf. Qed.

Lemma keeps_shape_bind {A B} (m : M A) (k : A -> M B) :
  keeps_shape m -> (forall a, keeps_shape (k a)) -> keeps_shape (m ≫= k).
Proof.
  intros Hm Hk st. unfold_M. specialize (Hm st).
  destruct (m st) as [[a | e] st1]; cbn in *.
  - now rewrite Hk.
  - exact Hm.
Qed.

Lemma keeps_shape_try_catch {A} (m : M A) (handler : Thrown -> M A) :
  keeps_shape m -> (forall e, keeps_shape (handler e)) ->
  keeps_shape (try_catch m handler).
Proof.
  intros Hm Hh st. unfold try_catch. specialize (Hm st).
  destruct (m st) as [[a | e] st1]; cbn in *.
  - exact Hm.
  - now rewrite Hh.
Qed.

Lemma keeps_shape_for_of {A} (l : list A) (body : A -> M unit) :
  (forall a, keeps_shape (body a)) -> keeps_shape (for_of l body).
Proof.
  intros Hb. induction l as [ | a l IH ]; cbn.
  - apply keeps_shape_ret.
  - apply keeps_shape_bind; [ apply Hb | intros _; exact IH ].
Qed.

Lemma keeps_shape_map_M {A B} (f : A -> M B) (l : list A) :
  (forall a, keeps_shape (f a)) -> keeps_shape (map_M f l).
Proof.
  intros Hf. induction l as [ | a l IH ]; cbn.
  - apply keeps_shape_ret.
  - apply keeps_shape_bind; [ apply Hf | intros b ].
    apply keeps_shape_bind; [ exact IH | intros bs ].
    apply keeps_shape_ret.
Qed.

Lemma shape_push (res : nat) (message : JsValue) (st : BTCPServer.t) :
  shape (push res message st) = shape st.
Proof.
  unfold push.
  destruct (responses st !! res) as [r | ] eqn:Hr; [ | reflexivity ].
  destruct (ServerResponse.writableEnded r) eqn:Hw; [ reflexivity | ].
  unfold shape. cbn. f_equal.
  apply list_eq. intros i. rewrite !list_lookup_fmap.
  destruct (decide (i = res)) as [-> | Hne].
  - rewrite list_lookup_alter_eq, Hr. cbn. now rewrite Hw.
  - now rewrite list_lookup_alter_ne.
Qed.

Lemma shape_push_all (l : list SSEClient.t) (message : JsValue)
    (st : BTCPServer.t) :
  shape (push_all l message st) = shape st.
Proof.
  revert st. induction l as [ | agent l IH ]; intros st; cbn;
    [ reflexivity | ].
  unfold push_all in IH. rewrite IH. apply shape_push.
Qed.

Lemma keeps_shape_sendToClient (client : SSEClient.t) (message : JsValue) :
  keeps_shape (sendToClient client message).
Proof. intros st. rewrite sendToClient_run. apply shape_push. Qed.

Lemma keeps_shape_update_session (r : nat) (f : Session.t -> Session.t) :
  (forall s, Session.browserClient (f s) = Session.browserClient s
             /\ Session.agentClients (f s) = Session.agentClients s) ->
  keeps_shape (update_session r f).
Proof.
  intros Hf st. unfold update_session, modify, shape. cbn. f_equal. f_equal.
  apply list_eq. intros i. rewrite !list_lookup_fmap.
  destruct (decide (i = r)) as [-> | Hne].
  - rewrite list_lookup_alter_eq.
    destruct (sessionObjects st !! r) as [s | ]; cbn; [ | reflexivity ].
    destruct (Hf s) as [-> ->]. reflexivity.
  - now rewrite list_lookup_alter_ne.
Qed.

Lemma keeps_shape_Date_now : keeps_shape Date_now.
Proof. intros st. reflexivity. Qed.

Lemma keeps_shape_generateMessageId : keeps_shape generateMessageId.
Proof.
  unfold generateMessageId.
  apply keeps_shape_bind; [ apply keeps_shape_Date_now | intros now ].
  apply keeps_shape_bind; [ apply keeps_shape_gets | intros counter ].
  cbn. apply keeps_shape_bind; [ | intros _; apply keeps_shape_ret ].
  apply keeps_shape_modify. reflexivity.
Qed.

Lemma keeps_shape_deref (r : nat) : keeps_shape (deref r).
Proof. apply keeps_shape_gets. Qed.

Lemma keeps_shape_setTimeout (t : Timeout) : keeps_shape (setTimeout t).
Proof. apply keeps_shape_modify. reflexivity. Qed.

End Shape.

(** Takes a handler apart into the steps that keep the shape. *)
Ltac keeps_shape_step :=
  lazymatch goal with
  | |- keeps_shape (BTCPServer.ret _) => apply keeps_shape_ret
  | |- keeps_shape (BTCPServer.gets _) => apply keeps_shape_gets
  | |- keeps_shape (BTCPServer.throw _) => apply keeps_shape_throw
  | |- keeps_shape (BTCPServer.lift _) => apply keeps_shape_lift
  | |- keeps_shape (BTCPServer.sendToClient _ _) =>
      apply keeps_shape_sendToClient
  | |- keeps_shape BTCPServer.Date_now => apply keeps_shape_Date_now
  | |- keeps_shape BTCPServer.generateMessageId =>
      apply keeps_shape_generateMessageId
  | |- keeps_shape (BTCPServer.deref _) => apply keeps_shape_deref
  | |- keeps_shape (BTCPServer.setTimeout _) => apply keeps_shape_setTimeout
  | |- keeps_shape (BTCPServer.for_of _ _) =>
      apply keeps_shape_for_of; intros ?
  | |- keeps_shape (BTCPServer.map_M _ _) =>
      apply keeps_shape_map_M; intros ?
  | |- keeps_shape (BTCPServer.try_catch _ _) =>
      apply keeps_shape_try_catch; [ | intros ? ]
  | |- keeps_shape (mbind _ _) => apply keeps_shape_bind; [ | intros ? ]
  | |- keeps_shape (BTCPServer.update_session _ _) =>
      apply keeps_shape_update_session; intros ?; split; reflexivity
  | |- keeps_shape (BTCPServer.modify _) =>
      apply keeps_shape_modify; intros ?; reflexivity
  | |- keeps_shape (match ?x with _ => _ end) => destruct x
  end.

Ltac keeps_shape_tac := repeat keeps_shape_step.

Section ShapeOfHandlers.
Context `{JsEngine}.
Import Protocol BTCPServer.

Lemma keeps_shape_handleAgentConnect (client : SSEClient.t) :
  keeps_shape (handleAgentConnect client).
Proof. unfold handleAgentConnect. keeps_shape_tac. Qed.

Lemma keeps_shape_keepAlive (res : nat) : keeps_shape (keepAlive res).
Proof.
  unfold keepAlive, writableEnded, response_write. keeps_shape_tac.
  intros st. unfold modify, shape. cbn. f_equal.
  apply list_eq. intros i. rewrite !list_lookup_fmap.
  destruct (decide (i = res)) as [-> | Hne].
  - rewrite list_lookup_alter_eq.
    now destruct (responses st !! res).
  - now rewrite list_lookup_alter_ne.
Qed.

Lemma keeps_shape_findSenderClient (sessionId : string)
    (clientId : option string) :
  keeps_shape (findSenderClient sessionId clientId).
Proof. unfold findSenderClient. keeps_shape_tac. Qed.

Lemma keeps_shape_handleToolsRegister (session : option nat)
    (request : JsValue) :
  keeps_shape (handleToolsRegister session request).
Proof. unfold handleToolsRegister. keeps_shape_tac. Qed.

Lemma keeps_shape_handleToolsList (session : option nat) (request : JsValue)
    (senderClient : option SSEClient.t) :
  keeps_shape (handleToolsList session request senderClient).
Proof. unfold handleToolsList. keeps_shape_tac. Qed.

Lemma keeps_shape_handleToolsCall (session : option nat) (request : JsValue)
    (senderClient : option SSEClient.t) :
  keeps_shape (handleToolsCall session request senderClient).
Proof. unfold handleToolsCall. keeps_shape_tac. Qed.

Lemma keeps_shape_handleToolResponse (session : option nat)
    (response : JsValue) :
  keeps_shape (handleToolResponse session response).
Proof. unfold handleToolResponse. keeps_shape_tac. Qed.

Lemma keeps_shape_handlePing (session : option nat) (request : JsValue)
    (senderClient : option SSEClient.t) :
  keeps_shape (handlePing session request senderClient).
Proof. unfold handlePing. keeps_shape_tac. Qed.

Lemma keeps_shape_run_timeout (t : Timeout) : keeps_shape (run_timeout t).
Proof.
  unfold run_timeout, handleToolsList_timeout, handleToolsCall_timeout.
  keeps_shape_tac.
Qed.

End ShapeOfHandlers.

Section Providers.
Context `{JsEngine}.
Import Protocol BTCPServer.

Lemma shape_provider_of (st st' : BTCPServer.t) (r : nat) :
  shape st' = shape st -> provider_of st' r = provider_of st r.
Proof.
  intros Hsh. unfold shape in Hsh. injection Hsh as _ Hobjs _.
  apply (f_equal (fun l => l !! r)) in Hobjs.
  rewrite !list_lookup_fmap in Hobjs. unfold provider_of.
  destruct (sessionObjects st' !! r), (sessionObjects st !! r);
    cbn in *; congruence.
Qed.

Lemma shape_ended (st st' : BTCPServer.t) (res : nat) :
  shape st' = shape st -> ended st' res = ended st res.
Proof.
  intros Hsh. unfold shape in Hsh. injection Hsh as _ _ Hres.
  apply (f_equal (fun l => l !! res)) in Hres.
  now rewrite !list_lookup_fmap in Hres.
Qed.

Lemma is_open_ended (b : SSEClient.t) (st : BTCPServer.t) :
  is_open b st <-> ended st (SSEClient.response b) = Some false.
Proof.
  unfold is_open, ended. split.
  - intros (r & -> & Hw). cbn. now rewrite Hw.
  - destruct (responses st !! SSEClient.response b) as [r | ];
      cbn; [ | discriminate ].
    intros [= Hw]. now exists r.
Qed.

Lemma providers_open_alt (st : BTCPServer.t) :
  providers_open st
  <-> forall r b, provider_of st r = Some b ->
                  ended st (SSEClient.response b) = Some false.
Proof.
  unfold providers_open, provider_of. split.
  - intros Hp r b Hb.
    destruct (sessionObjects st !! r) as [s | ] eqn:Hs; [ | discriminate ].
    apply is_open_ended. now apply (Hp r s).
  - intros Hp r s b Hs Hb. apply is_open_ended, (Hp r).
    now rewrite Hs.
Qed.

Lemma providers_apart_alt (st : BTCPServer.t) :
  providers_apart st
  <-> forall r1 r2 b1 b2,
      provider_of st r1 = Some b1 -> provider_of st r2 = Some b2 ->
      SSEClient.response b1 = SSEClient.response b2 -> r1 = r2.
Proof.
  unfold providers_apart, provider_of. split.
  - intros Hp r1 r2 b1 b2 H1 H2.
    destruct (sessionObjects st !! r1) as [s1 | ] eqn:Hs1; [ | discriminate ].
    destruct (sessionObjects st !! r2) as [s2 | ] eqn:Hs2; [ | discriminate ].
    now apply (Hp r1 r2 s1 s2).
  - intros Hp r1 r2 s1 s2 b1 b2 Hs1 Hs2 H1 H2. apply Hp.
    + now rewrite Hs1.
    + now rewrite Hs2.
Qed.

(** The two invariants of the providers depend on the shape only. *)
Lemma providers_shape (st st' : BTCPServer.t) :
  shape st' = shape st ->
  providers_open st /\ providers_apart st ->
  providers_open st' /\ providers_apart st'.
Proof.
  intros Hsh [Ho Ha].
  rewrite providers_open_alt in *. rewrite providers_apart_alt in *.
  split.
  - intros r b Hb. rewrite (shape_provider_of _ _ _ Hsh) in Hb.
    rewrite (shape_ended _ _ _ Hsh). now apply (Ho r).
  - intros r1 r2 b1 b2 H1 H2.
    rewrite (shape_provider_of _ _ r1 Hsh) in H1.
    rewrite (shape_provider_of _ _ r2 Hsh) in H2. now apply Ha.
Qed.

Lemma provider_of_update (st : BTCPServer.t) (r r' : nat)
    (v : option SSEClient.t) :
  provider_of
    (with_sessionObjects
       (alter (Session.with_browserClient v) r (sessionObjects st)) st) r'
  = if decide (r' = r)
    then sessionObjects st !! r ≫= fun _ => v
    else provider_of st r'.
Proof.
  unfold provider_of. cbn. destruct (decide (r' = r)) as [-> | Hne].
  - rewrite list_lookup_alter_eq.
    now destruct (sessionObjects st !! r).
  - now rewrite list_lookup_alter_ne.
Qed.

(** [handleBrowserConnect] keeps the invariants of the providers, for a
    client that may provide. *)
Lemma handleBrowserConnect_providers (client : SSEClient.t)
    (st : BTCPServer.t) :
  may_provide client st ->
  providers_open st /\ providers_apart st ->
  let st' := snd (handleBrowserConnect client st) in
  providers_open st' /\ providers_apart st'.
Proof.
  intros [Hopen Hfresh] [Ho Ha]. cbv zeta.
  rewrite providers_open_alt in *. rewrite providers_apart_alt in *.
  unfold handleBrowserConnect, Date_now, new_session, update_session,
    deref, response_end.
  unfold_M. cbn.
  destruct (JsMap.get (SSEClient.sessionId client) (sessions st))
    as [r | ] eqn:Hr; cbn.
  - (* the session exists *)
    set (s := default Session.none (sessionObjects st !! r)).
    destruct (Session.browserClient s) as [old | ] eqn:Hold; cbn.
    + (* it has a provider: the take-over *)
      rewrite sendToClient_run. cbn.
      assert (Hprov : provider_of st r = Some old).
      { unfold provider_of. subst s.
        destruct (sessionObjects st !! r) as [s0 | ]; cbn in *;
          [ assumption | discriminate ]. }
      set (st1 := push (SSEClient.response old) _ st).
      assert (Hsh : shape st1 = shape st) by apply shape_push.
      assert (Hp1 : forall r', provider_of
                       (with_sessionObjects
                          (alter (Session.with_browserClient (Some client)) r
                             (sessionObjects
                                (with_responses
                                   (alter ServerResponse.end_
                                      (SSEClient.response old)
                                      (responses st1)) st1)))
                          (with_responses
                             (alter ServerResponse.end_
                                (SSEClient.response old) (responses st1))
                             st1)) r'
                     = if decide (r' = r) then Some client
                       else provider_of st r').
      { intros r'. rewrite provider_of_update. cbn.
        destruct (decide (r' = r)) as [-> | Hne].
        - pose proof (shape_provider_of st st1 r Hsh) as E.
          unfold provider_of in E, Hprov. rewrite Hprov in E.
          destruct (sessionObjects st1 !! r); [ reflexivity | discriminate ].
        - unfold provider_of. cbn.
          apply (shape_provider_of st st1 r' Hsh). }
      assert (He1 : forall res, ended
                       (with_sessionObjects
                          (alter (Session.with_browserClient (Some client)) r
                             (sessionObjects
                                (with_responses
                                   (alter ServerResponse.end_
                                      (SSEClient.response old)
                                      (responses st1)) st1)))
                          (with_responses
                             (alter ServerResponse.end_
                                (SSEClient.response old) (responses st1))
                             st1)) res
                     = if decide (res = SSEClient.response old)
                       then (fun _ => true) <$> ended st res
                       else ended st res).
      { intros res. unfold ended. cbn.
        pose proof (shape_ended st st1 res Hsh) as E. unfold ended in E.
        destruct (decide (res = SSEClient.response old)) as [-> | Hne].
        - rewrite list_lookup_alter_eq, <- E.
          now destruct (responses st1 !! SSEClient.response old).
        - now rewrite list_lookup_alter_ne. }
      split.
      * intros r' b Hb. rewrite Hp1 in Hb. rewrite He1.
        destruct (decide (r' = r)) as [-> | Hne].
        -- injection Hb as <-.
           destruct (decide (SSEClient.response client
                             = SSEClient.response old)) as [E | _];
             [ | exact Hopen ].
           exfalso. now apply (Hfresh r old).
        -- destruct (decide (SSEClient.response b = SSEClient.response old))
             as [E | _]; [ | now apply (Ho r') ].
           exfalso. apply Hne. now apply (Ha r' r b old).
      * intros r1 r2 b1 b2 H1 H2 E. rewrite Hp1 in H1, H2.
        destruct (decide (r1 = r)) as [-> | Hne1],
                 (decide (r2 = r)) as [-> | Hne2]; try reflexivity.
        -- injection H1 as <-. exfalso. now apply (Hfresh r2 b2).
        -- injection H2 as <-. exfalso. now apply (Hfresh r1 b1).
        -- now apply (Ha r1 r2 b1 b2).
    + (* it has no provider *)
      assert (Hp1 : forall r', provider_of
                       (with_sessionObjects
                          (alter (Session.with_browserClient (Some client)) r
                             (sessionObjects st)) st) r'
                     = if decide (r' = r)
                       then sessionObjects st !! r ≫= fun _ => Some client
                       else provider_of st r')
        by (intros r'; apply provider_of_update).
      split.
      * intros r' b Hb. rewrite Hp1 in Hb.
        change (ended st (SSEClient.response b) = Some false).
        destruct (decide (r' = r)) as [-> | Hne]; [ | now apply (Ho r') ].
        destruct (sessionObjects st !! r); [ | discriminate ].
        now injection Hb as <-.
      * intros r1 r2 b1 b2 H1 H2 E. rewrite Hp1 in H1, H2.
        destruct (decide (r1 = r)) as [-> | Hne1],
                 (decide (r2 = r)) as [-> | Hne2]; try reflexivity.
        -- destruct (sessionObjects st !! r); [ | discriminate ].
           injection H1 as <-. exfalso. now apply (Hfresh r2 b2).
        -- destruct (sessionObjects st !! r); [ | discriminate ].
           injection H2 as <-. exfalso. now apply (Hfresh r1 b1).
        -- now apply (Ha r1 r2 b1 b2).
  - (* a new session *)
    set (s0 := {| Session.id := SSEClient.sessionId client;
                  Session.browserClient := Some client;
                  Session.agentClients := JsMap.empty;
                  Session.tools := JArr [];
                  Session.pendingResponses := ∅;
                  Session.createdAt := clock st (ticks st) |}).
    assert (Hp1 : forall st0 r',
               sessionObjects st0 = sessionObjects st ++ [s0] ->
               provider_of st0 r'
               = if decide (r' = length (sessionObjects st))
                 then Some client else provider_of st r').
    { intros st0 r' E. unfold provider_of. rewrite E.
      destruct (decide (r' = length (sessionObjects st))) as [-> | Hne].
      - rewrite lookup_app_r by lia. now rewrite Nat.sub_diag.
      - destruct (decide (r' < length (sessionObjects st))) as [Hlt | Hge].
        + now rewrite lookup_app_l.
        + rewrite !lookup_ge_None_2; [ reflexivity | lia | ].
          rewrite length_app. cbn. lia. }
    split.
    + intros r' b Hb. rewrite Hp1 in Hb by reflexivity.
      change (ended st (SSEClient.response b) = Some false).
      destruct (decide (r' = length (sessionObjects st)));
        [ now injection Hb as <- | now apply (Ho r') ].
    + intros r1 r2 b1 b2 H1 H2 E.
      rewrite Hp1 in H1 by reflexivity. rewrite Hp1 in H2 by reflexivity.
      destruct (decide (r1 = length (sessionObjects st))) as [-> | Hne1],
               (decide (r2 = length (sessionObjects st))) as [-> | Hne2];
        try reflexivity.
      * injection H1 as <-. exfalso. now apply (Hfresh r2 b2).
      * injection H2 as <-. exfalso. now apply (Hfresh r1 b1).
      * now apply (Ha r1 r2 b1 b2).
Qed.

End Providers.

Section Shrinking.
Context `{JsEngine}.
Import Protocol BTCPServer.

Lemma providers_shrink_refl (st : BTCPServer.t) : providers_shrink st st.
Proof. split; auto. Qed.

Lemma providers_shrink_trans (st1 st2 st3 : BTCPServer.t) :
  providers_shrink st1 st2 -> providers_shrink st2 st3 ->
  providers_shrink st1 st3.
Proof.
  intros [Hp12 He12] [Hp23 He23]. split.
  - intros r b Hb. now apply Hp12, Hp23.
  - intros res. now rewrite He23.
Qed.

Lemma providers_shrink_shape (st st' : BTCPServer.t) :
  shape st' = shape st -> providers_shrink st st'.
Proof.
  intros Hsh. split.
  - intros r b. now rewrite (shape_provider_of _ _ _ Hsh).
  - intros res. apply (shape_ended _ _ _ Hsh).
Qed.

(** The invariants of the providers survive the loss of providers. *)
Lemma providers_shrink_inv (st st' : BTCPServer.t) :
  providers_shrink st st' ->
  providers_open st /\ providers_apart st ->
  providers_open st' /\ providers_apart st'.
Proof.
  intros [Hp He] [Ho Ha].
  rewrite providers_open_alt in *. rewrite providers_apart_alt in *.
  split.
  - intros r b Hb. rewrite He. apply (Ho r). now apply Hp.
  - intros r1 r2 b1 b2 H1 H2. apply Ha; now apply Hp.
Qed.

Lemma shrinks_keeps_shape {A} (m : M A) : keeps_shape m -> shrinks m.
Proof. intros Hm st. apply providers_shrink_shape, Hm. Qed.

Lemma shrinks_bind {A B} (m : M A) (k : A -> M B) :
  shrinks m -> (forall a, shrinks (k a)) -> shrinks (m ≫= k).
Proof.
  intros Hm Hk st. unfold_M. specialize (Hm st).
  destruct (m st) as [[a | e] st1]; cbn in *.
  - eapply providers_shrink_trans; [ exact Hm | apply Hk ].
  - exact Hm.
Qed.

Lemma shrinks_try_catch {A} (m : M A) (handler : Thrown -> M A) :
  shrinks m -> (forall e, shrinks (handler e)) ->
  shrinks (try_catch m handler).
Proof.
  intros Hm Hh st. unfold try_catch. specialize (Hm st).
  destruct (m st) as [[a | e] st1]; cbn in *.
  - exact Hm.
  - eapply providers_shrink_trans; [ exact Hm | apply Hh ].
Qed.

Lemma shrinks_drop_provider (r : nat) :
  shrinks (update_session r (Session.with_browserClient None)).
Proof.
  intros st. unfold update_session, modify. cbn. split.
  - intros r' b. rewrite provider_of_update.
    destruct (decide (r' = r)); [ | auto ].
    now destruct (sessionObjects st !! r).
  - intros res. reflexivity.
Qed.

Lemma shrinks_handleSessionJoin (currentSessionId : string)
    (request : JsValue) (clientId : option string) :
  shrinks (handleSessionJoin currentSessionId request clientId).
Proof.
  unfold handleSessionJoin.
  destruct (is_nullish (js_prop request "params"));
    [ apply shrinks_keeps_shape, keeps_shape_throw | ].
  apply shrinks_bind; [ apply shrinks_keeps_shape, keeps_shape_gets | ].
  intros targetSession.
  apply shrinks_bind.
  { apply shrinks_keeps_shape.
    destruct (str_truthy clientId); apply keeps_shape_gets. }
  intros [client | ]; [ | apply shrinks_keeps_shape, keeps_shape_ret ].
  destruct targetSession as [r | ];
    [ | apply shrinks_keeps_shape, keeps_shape_sendToClient ].
  apply shrinks_bind.
  - intros st. unfold update_session, modify. cbn. split.
    + intros r' b. unfold provider_of. cbn.
      destruct (decide (r' = r)) as [-> | Hne].
      * rewrite list_lookup_alter_eq.
        now destruct (sessionObjects st !! r).
      * now rewrite list_lookup_alter_ne.
    + intros res. reflexivity.
  - intros _. apply shrinks_keeps_shape. keeps_shape_tac.
Qed.

Lemma shrinks_handleDisconnect (clientId : string) :
  shrinks (handleDisconnect clientId).
Proof.
  unfold handleDisconnect.
  apply shrinks_bind; [ apply shrinks_keeps_shape, keeps_shape_gets | ].
  intros [client | ]; [ | apply shrinks_keeps_shape, keeps_shape_ret ].
  apply shrinks_bind; [ apply shrinks_keeps_shape, keeps_shape_gets | ].
  intros interval.
  apply shrinks_bind.
  { apply shrinks_keeps_shape. keeps_shape_tac. }
  intros _.
  apply shrinks_bind; [ apply shrinks_keeps_shape, keeps_shape_gets | ].
  intros session.
  apply shrinks_bind.
  2: { intros _. apply shrinks_keeps_shape. keeps_shape_tac. }
  destruct session as [r | ];
    [ | apply shrinks_keeps_shape, keeps_shape_ret ].
  apply shrinks_bind; [ apply shrinks_keeps_shape, keeps_shape_deref | ].
  intros s.
  apply shrinks_bind.
  - destruct (match Session.browserClient s with
              | Some browserClient =>
                  String.eqb (SSEClient.id browserClient) clientId
              | None => false
              end).
    + apply shrinks_bind; [ apply shrinks_drop_provider | intros _ ].
      apply shrinks_keeps_shape. keeps_shape_tac.
    + intros st. unfold update_session, modify. cbn. split.
      * intros r' b. unfold provider_of. cbn.
        destruct (decide (r' = r)) as [-> | Hne].
        -- rewrite list_lookup_alter_eq.
           now destruct (sessionObjects st !! r).
        -- now rewrite list_lookup_alter_ne.
      * intros res. reflexivity.
  - intros _.
    apply shrinks_bind; [ apply shrinks_keeps_shape, keeps_shape_deref | ].
    intros s'.
    destruct (_ && _); [ | apply shrinks_keeps_shape, keeps_shape_ret ].
    intros st. unfold modify. cbn. split; auto.
Qed.

Lemma shrinks_routeMessage (sessionId : string) (message : JsValue)
    (clientId : option string) :
  shrinks (routeMessage sessionId message clientId).
Proof.
  unfold routeMessage.
  apply shrinks_bind; [ apply shrinks_keeps_shape, keeps_shape_gets | ].
  intros session.
  apply shrinks_bind;
    [ apply shrinks_keeps_shape, keeps_shape_findSenderClient | ].
  intros senderClient.
  destruct (isResponse message);
    [ apply shrinks_keeps_shape, keeps_shape_handleToolResponse | ].
  destruct (negb (isRequest message));
    [ apply shrinks_keeps_shape, keeps_shape_ret | ].
  destruct (js_is_string _ "tools/register");
    [ apply shrinks_keeps_shape, keeps_shape_handleToolsRegister | ].
  destruct (js_is_string _ "tools/list");
    [ apply shrinks_keeps_shape, keeps_shape_handleToolsList | ].
  destruct (js_is_string _ "tools/call");
    [ apply shrinks_keeps_shape, keeps_shape_handleToolsCall | ].
  destruct (js_is_string _ "session/join");
    [ apply shrinks_handleSessionJoin | ].
  destruct (js_is_string _ "ping");
    [ apply shrinks_keeps_shape, keeps_shape_handlePing | ].
  apply shrinks_keeps_shape, keeps_shape_ret.
Qed.

Lemma shrinks_handleMessage (sessionId clientId : option string)
    (body : string) :
  shrinks (handleMessage sessionId clientId body).
Proof.
  unfold handleMessage.
  destruct (negb (str_truthy sessionId));
    [ apply shrinks_keeps_shape, keeps_shape_ret | ].
  apply shrinks_try_catch.
  - apply shrinks_bind; [ apply shrinks_keeps_shape, keeps_shape_lift | ].
    intros message.
    apply shrinks_bind; [ apply shrinks_routeMessage | intros _ ].
    apply shrinks_keeps_shape, keeps_shape_ret.
  - intros e. apply shrinks_keeps_shape, keeps_shape_ret.
Qed.

End Shrinking.

Section ProvidersReachable.
Context `{JsEngine}.
Import Protocol BTCPServer.

Lemma shape_bind_tail {A B} (m : M A) (k : A -> M B) (st : BTCPServer.t) :
  (forall a, keeps_shape (k a)) ->
  shape (snd ((m ≫= k) st)) = shape (snd (m st)).
Proof.
  intros Hk. unfold_M. destruct (m st) as [[a | e] st1]; cbn.
  - apply Hk.
  - reflexivity.
Qed.

(** A response that the HTTP server hands over is open, and nobody
    writes to it yet. *)
Lemma new_response_may_provide (st : BTCPServer.t) (client : SSEClient.t)
    (clients' : JsMap.t SSEClient.t) :
  SSEClient.response client = length (responses st) ->
  providers_open st /\ providers_apart st ->
  let st' :=
    with_clients clients'
      (with_responses (responses st ++ [ServerResponse.fresh]) st) in
  may_provide client st' /\ providers_open st' /\ providers_apart st'.
Proof.
  intros Hres [Ho Ha]. cbv zeta.
  rewrite providers_open_alt in *. rewrite providers_apart_alt in *.
  assert (Hlt : forall r b, provider_of st r = Some b ->
                            SSEClient.response b < length (responses st)).
  { intros r b Hb. specialize (Ho r b Hb). unfold ended in Ho.
    destruct (responses st !! SSEClient.response b) eqn:E;
      [ | discriminate ].
    now apply lookup_lt_Some in E. }
  split; [ split | split ].
  - unfold ended. cbn. rewrite Hres.
    rewrite lookup_app_r by lia. now rewrite Nat.sub_diag.
  - intros r b Hb. change (provider_of st r = Some b) in Hb.
    specialize (Hlt r b Hb). lia.
  - intros r b Hb. change (provider_of st r = Some b) in Hb.
    unfold ended. cbn. rewrite lookup_app_l by now apply (Hlt r).
    now apply (Ho r).
  - intros r1 r2 b1 b2 H1 H2. now apply Ha.
Qed.

Lemma handleSSE_providers (sessionId clientType : option string)
    (st : BTCPServer.t) :
  providers_open st /\ providers_apart st ->
  let st' := snd (handleSSE sessionId clientType st) in
  providers_open st' /\ providers_apart st'.
Proof.
  intros Hinv. cbv zeta.
  remember (handleSSE sessionId clientType st) as res eqn:Hres.
  unfold handleSSE, generateMessageId, Date_now, new_response in Hres.
  unfold_M. cbn in Hres.
  destruct (str_truthy sessionId); cbn in Hres.
  2: { subst res. cbn. eapply providers_shape; [ | exact Hinv ].
       reflexivity. }
  set (st0 := with_messageCounter _ (with_ticks _ st)) in Hres.
  set (client := {| SSEClient.id := _; SSEClient.type := _;
                    SSEClient.response := length (responses st);
                    SSEClient.sessionId := _ |}) in Hres.
  assert (Hinv0 : providers_open st0 /\ providers_apart st0)
    by (eapply providers_shape; [ | exact Hinv ]; reflexivity).
  destruct (new_response_may_provide st0 client
              (JsMap.set (SSEClient.id client) client (clients st0))
              eq_refl Hinv0) as [Hmay Hinv1].
  cbv zeta in Hmay, Hinv1.
  set (st1 := with_clients _ (with_responses _ st0)) in *.
  destruct (String.eqb (default "agent" clientType) "browser").
  - pose proof (handleBrowserConnect_providers client st1 Hmay Hinv1)
      as Hinv2. cbv zeta in Hinv2.
    destruct (handleBrowserConnect client st1) as [[[] | e] st2];
      cbn in *; [ | subst res; exact Hinv2 ].
    rewrite sendToClient_run in Hres. subst res. cbn.
    eapply providers_shape; [ | exact Hinv2 ].
    rewrite shape_push. reflexivity.
  - pose proof (keeps_shape_handleAgentConnect client st1) as Hsh.
    destruct (handleAgentConnect client st1) as [[[] | e] st2];
      cbn in *.
    + rewrite sendToClient_run in Hres. subst res. cbn.
      eapply providers_shape; [ | exact Hinv1 ].
      rewrite shape_push. exact Hsh.
    + subst res. eapply providers_shape; [ exact Hsh | exact Hinv1 ].
Qed.

Lemma step_providers (ev : Event) (st : BTCPServer.t) :
  providers_open st /\ providers_apart st ->
  providers_open (step ev st) /\ providers_apart (step ev st).
Proof.
  intros Hinv. destruct ev as [sid ty | sid cid body | cid | n | cid]; cbn.
  - now apply handleSSE_providers.
  - eapply providers_shrink_inv; [ apply shrinks_handleMessage | exact Hinv ].
  - eapply providers_shrink_inv;
      [ apply shrinks_handleDisconnect | exact Hinv ].
  - destruct (timeouts st !! n) as [t | ]; [ | exact Hinv ].
    eapply providers_shape; [ apply keeps_shape_run_timeout | ].
    eapply providers_shape; [ | exact Hinv ]. reflexivity.
  - destruct (JsMap.get cid (keepAliveIntervals st)) as [res | ];
      [ | exact Hinv ].
    eapply providers_shape; [ apply keeps_shape_keepAlive | exact Hinv ].
Qed.

(** In every state that the relay reaches, the provider of every
    session object has an open stream, and no two session objects have
    providers that write to the same response. *)
Lemma reachable_providers (config : Config) (clock : nat -> Z)
    (st : BTCPServer.t) :
  reachable config clock st -> providers_open st /\ providers_apart st.
Proof.
  induction 1 as [ | st ev _ IH ].
  - split.
    + intros r s b Hs. discriminate.
    + intros r1 r2 s1 s2 b1 b2 Hs1. discriminate.
  - now apply step_providers.
Qed.

End ProvidersReachable.

(* ================================================================== *)
(** * server.ts: provider take-over, in the states the relay reaches *)
(* ================================================================== *)

Section TakeoverReachable.
Context `{JsEngine}.
Import Protocol BTCPServer.

Lemma reachable_run (config : Config) (clock : nat -> Z)
    (evs : list Event) (st : BTCPServer.t) :
  reachable config clock st -> reachable config clock (run evs st).
Proof.
  revert st. induction evs as [ | ev evs IH ]; intros st Hst; cbn.
  - exact Hst.
  - apply IH. now constructor.
Qed.

(** C2.  A session object has one slot for its provider
    ([browserClient]), so a session has at most one provider at any
    instant.  In every state that the relay reaches, when a browser client
    attaches to a session that exists and has a provider, the incumbent is
    sent one frame, an error response with the session code -32002, its
    stream is ended, and the new client takes the slot; no other stream
    and no other session changes. *)
Theorem provider_takeover (config : Config) (clock : nat -> Z)
    (st : BTCPServer.t) (client old : SSEClient.t) (r : nat) (s : Session.t)
    (Hreach : reachable config clock st)
    (Hr : JsMap.get (SSEClient.sessionId client) (sessions st) = Some r)
    (Hs : sessionObjects st !! r = Some s)
    (Hold : Session.browserClient s = Some old) :
  exists st' : BTCPServer.t,
    handleBrowserConnect client st = (Normal tt, st')
    /\ response_error_code takeover_error = JNum (-32002)
    /\ responses st' !! SSEClient.response old
       = Some {| ServerResponse.written :=
                   written_to old st ++ [sse_frame takeover_error];
                 ServerResponse.writableEnded := true |}
    /\ (forall res, res <> SSEClient.response old ->
                    responses st' !! res = responses st !! res)
    /\ sessionObjects st'
       = <[r := Session.with_browserClient (Some client) s]>
           (sessionObjects st)
    /\ Session.browserClient (session_at r st') = Some client
    /\ sessions st' = sessions st.
Proof.
  apply handleBrowserConnect_takeover; try assumption.
  destruct (reachable_providers config clock st Hreach) as [Hopen _].
  now apply (Hopen r s).
Qed.

End TakeoverReachable.

Lemma provider_takeover_witness :
  reachable (H := MiniEngine.engine) demo_config demo_clock relay_joined
  /\ JsMap.get (SSEClient.sessionId second_provider)
    (BTCPServer.sessions relay_joined) = Some 0
  /\ BTCPServer.sessionObjects relay_joined !! 0
     = Some (session_at 0 relay_joined)
  /\ Session.browserClient (session_at 0 relay_joined) = Some provider
  /\ exists st' : BTCPServer.t,
      BTCPServer.handleBrowserConnect (H := MiniEngine.engine)
        second_provider relay_joined
      = (Normal tt, st')
      /\ Session.browserClient (session_at 0 st') = Some second_provider.
Proof.
  assert (Hreach : reachable (H := MiniEngine.engine) demo_config demo_clock
                     relay_joined)
    by (apply reachable_run; constructor).
  assert (Hr : JsMap.get (SSEClient.sessionId second_provider)
                 (BTCPServer.sessions relay_joined) = Some 0)
    by (vm_compute; reflexivity).
  assert (Hs : BTCPServer.sessionObjects relay_joined !! 0
               = Some (session_at 0 relay_joined))
    by (vm_compute; reflexivity).
  assert (Hb : Session.browserClient (session_at 0 relay_joined)
               = Some provider)
    by (vm_compute; reflexivity).
  split; [ exact Hreach | ].
  split; [ exact Hr | ]. split; [ exact Hs | ]. split; [ exact Hb | ].
  destruct (provider_takeover (H := MiniEngine.engine) demo_config
              demo_clock relay_joined second_provider provider 0 _
              Hreach Hr Hs Hb)
    as (st' & Hrun & _ & _ & _ & _ & Hnew & _).
  exists st'. split; [ exact Hrun | exact Hnew ].
Defined.

(* ================================================================== *)
(** * The sessions map holds no idle session *)
(* ================================================================== *)

Section SessionsLive.
Context `{JsEngine}.
Import Protocol BTCPServer.

Lemma sessions_live_alt (st : BTCPServer.t) :
  sessions_live st
  <-> (forall sid r, JsMap.get sid (sessions st) = Some r -> live_at st r)
      /\ (forall sid1 sid2 r,
             JsMap.get sid1 (sessions st) = Some r ->
             JsMap.get sid2 (sessions st) = Some r -> sid1 = sid2).
Proof. reflexivity. Qed.

Lemma shape_live_at (st st' : BTCPServer.t) (r : nat) :
  shape st' = shape st -> live_at st r -> live_at st' r.
Proof.
  intros Hsh (s & Hs & Hlive). unfold shape in Hsh.
  injection Hsh as _ Hobjs _.
  apply (f_equal (fun l => l !! r)) in Hobjs.
  rewrite !list_lookup_fmap, Hs in Hobjs. cbn in Hobjs.
  destruct (sessionObjects st' !! r) as [s' | ] eqn:Hs';
    [ | discriminate ].
  injection Hobjs as Hb Ha. exists s'. split; [ exact Hs' | ].
  intros [Hb' Ha']. apply Hlive. split; congruence.
Qed.

Lemma shape_sessions (st st' : BTCPServer.t) :
  shape st' = shape st -> sessions st' = sessions st.
Proof. unfold shape. now intros [= -> _ _]. Qed.

Lemma sessions_live_shape (st st' : BTCPServer.t) :
  shape st' = shape st -> sessions_live st -> sessions_live st'.
Proof.
  intros Hsh [Hlive Hinj]. split.
  - intros sid r. rewrite (shape_sessions _ _ Hsh). intros Hr.
    apply (shape_live_at st); [ assumption | now apply (Hlive sid) ].
  - intros sid1 sid2 r. rewrite (shape_sessions _ _ Hsh). apply Hinj.
Qed.

Lemma keeps_live_keeps_shape {A} (m : M A) : keeps_shape m -> keeps_live m.
Proof. intros Hm st. apply sessions_live_shape, Hm. Qed.

Lemma keeps_live_bind {A B} (m : M A) (k : A -> M B) :
  keeps_live m -> (forall a, keeps_live (k a)) -> keeps_live (m ≫= k).
Proof.
  intros Hm Hk st Hst. unfold_M. specialize (Hm st Hst).
  destruct (m st) as [[a | e] st1]; cbn in *.
  - now apply Hk.
  - exact Hm.
Qed.

Lemma keeps_live_try_catch {A} (m : M A) (handler : Thrown -> M A) :
  keeps_live m -> (forall e, keeps_live (handler e)) ->
  keeps_live (try_catch m handler).
Proof.
  intros Hm Hh st Hst. unfold try_catch. specialize (Hm st Hst).
  destruct (m st) as [[a | e] st1]; cbn in *.
  - exact Hm.
  - now apply Hh.
Qed.

(** An update that makes no session object idle. *)
Lemma keeps_live_update_session (r : nat) (f : Session.t -> Session.t) :
  (forall s, ~ idle s -> ~ idle (f s)) ->
  keeps_live (update_session r f).
Proof.
  intros Hf st [Hlive Hinj]. unfold update_session, modify. cbn. split.
  - intros sid r' Hr'. destruct (Hlive sid r' Hr') as (s & Hs & Hn).
    unfold live_at. cbn. destruct (decide (r' = r)) as [-> | Hne].
    + rewrite list_lookup_alter_eq, Hs. cbn. eauto.
    + rewrite list_lookup_alter_ne by congruence. eauto.
  - exact Hinj.
Qed.

Lemma keeps_live_response_end (res : nat) : keeps_live (response_end res).
Proof. intros st Hst. exact Hst. Qed.

(** The new session of [handleBrowserConnect]. *)
Lemma keeps_live_new_session (sid : string) (s0 : Session.t) :
  ~ idle s0 ->
  keeps_live
    (r ← new_session s0;
     modify (fun st => with_sessions (JsMap.set sid r (sessions st)) st)).
Proof.
  intros Hs0 st [Hlive Hinj]. unfold new_session. unfold_M. cbn.
  assert (Hlt : forall sid' r', JsMap.get sid' (sessions st) = Some r' ->
                                r' < length (sessionObjects st)).
  { intros sid' r' Hr'. destruct (Hlive sid' r' Hr') as (s & Hs & _).
    now apply lookup_lt_Some in Hs. }
  split.
  - intros sid' r'. cbn.
    destruct (decide (sid = sid')) as [<- | Hne].
    + rewrite JsMap_get_set_eq. intros [= <-].
      exists s0. split; [ | assumption ]. cbn.
      rewrite lookup_app_r by lia. now rewrite Nat.sub_diag.
    + rewrite JsMap_get_set_ne by assumption. intros Hr'.
      destruct (Hlive sid' r' Hr') as (s & Hs & Hn).
      exists s. split; [ | assumption ]. cbn.
      now apply lookup_app_l_Some.
  - intros sid1 sid2 r'. cbn.
    destruct (decide (sid = sid1)) as [<- | Hne1],
             (decide (sid = sid2)) as [<- | Hne2]; try reflexivity.
    + rewrite JsMap_get_set_eq, JsMap_get_set_ne by assumption.
      intros [= <-] H2. apply Hlt in H2. lia.
    + rewrite JsMap_get_set_eq, JsMap_get_set_ne by assumption.
      intros H1 [= <-]. apply Hlt in H1. lia.
    + rewrite !JsMap_get_set_ne by assumption. apply Hinj.
Qed.

Lemma keeps_live_handleBrowserConnect (client : SSEClient.t) :
  keeps_live (handleBrowserConnect client).
Proof.
  unfold handleBrowserConnect.
  apply keeps_live_bind;
    [ apply keeps_live_keeps_shape, keeps_shape_gets | intros [r | ] ].
  - apply keeps_live_bind;
      [ apply keeps_live_keeps_shape, keeps_shape_deref | intros s ].
    apply keeps_live_bind.
    + destruct (Session.browserClient s) as [old | ];
        [ | apply keeps_live_keeps_shape, keeps_shape_ret ].
      apply keeps_live_bind;
        [ apply keeps_live_keeps_shape, keeps_shape_sendToClient | ].
      intros _. apply keeps_live_response_end.
    + intros _. apply keeps_live_update_session.
      intros s' _ [Hb _]. discriminate.
  - apply keeps_live_bind;
      [ apply keeps_live_keeps_shape, keeps_shape_Date_now | intros now ].
    apply keeps_live_new_session. intros [Hb _]. discriminate.
Qed.

Lemma keeps_live_handleSessionJoin (currentSessionId : string)
    (request : JsValue) (clientId : option string) :
  keeps_live (handleSessionJoin currentSessionId request clientId).
Proof.
  unfold handleSessionJoin.
  destruct (is_nullish (js_prop request "params"));
    [ apply keeps_live_keeps_shape, keeps_shape_throw | ].
  apply keeps_live_bind;
    [ apply keeps_live_keeps_shape, keeps_shape_gets | ].
  intros targetSession.
  apply keeps_live_bind.
  { apply keeps_live_keeps_shape.
    destruct (str_truthy clientId); apply keeps_shape_gets. }
  intros [client | ]; [ | apply keeps_live_keeps_shape, keeps_shape_ret ].
  destruct targetSession as [r | ];
    [ | apply keeps_live_keeps_shape, keeps_shape_sendToClient ].
  apply keeps_live_bind.
  - apply keeps_live_update_session. intros s _ [_ Ha]. cbn in Ha.
    now apply (JsMap_set_nonempty (Session.agentClients s)
                 (SSEClient.id client) client); rewrite Ha.
  - intros _. apply keeps_live_keeps_shape. keeps_shape_tac.
Qed.

Lemma is_idle_spec (s : Session.t) : is_idle s = true <-> idle s.
Proof.
  unfold is_idle, idle, JsMap.size.
  destruct (Session.browserClient s), (Session.agentClients s); cbn;
    split; try tauto; try discriminate; intros [? ?]; discriminate.
Qed.

(** What is left of a session when a client has gone: the session object
    [r] of the session [sid] has been updated, and the session is deleted
    from the map if the object is idle now. *)
Lemma sessions_live_after_leave (st st2 : BTCPServer.t) (sid : string)
    (r : nat) (s : Session.t) (f : Session.t -> Session.t) :
  sessions_live st ->
  JsMap.get sid (sessions st) = Some r ->
  sessionObjects st !! r = Some s ->
  shape st2
  = shape (with_sessionObjects (alter f r (sessionObjects st)) st) ->
  sessions_live
    (if is_idle (f s)
     then with_sessions (JsMap.delete sid (sessions st2)) st2
     else st2).
Proof.
  intros [Hlive Hinj] Hr Hs Hsh.
  assert (Hsess : sessions st2 = sessions st)
    by (now rewrite (shape_sessions _ _ Hsh)).
  assert (Hother : forall r', r' <> r -> live_at st r' -> live_at st2 r').
  { intros r' Hne (s' & Hs' & Hn).
    apply (shape_live_at _ _ _ Hsh). exists s'. split; [ | assumption ].
    cbn. now rewrite list_lookup_alter_ne by congruence. }
  assert (Hself : is_idle (f s) = false -> live_at st2 r).
  { intros Hi. apply (shape_live_at _ _ _ Hsh). exists (f s). split.
    - cbn. now rewrite list_lookup_alter_eq, Hs.
    - intros Hidle. apply is_idle_spec in Hidle. congruence. }
  destruct (is_idle (f s)) eqn:Hi.
  - split.
    + intros sid' r' Hr'. cbn in Hr'. rewrite Hsess in Hr'.
      change (live_at st2 r').
      destruct (decide (sid = sid')) as [<- | Hne].
      * now rewrite JsMap_get_delete_eq in Hr'.
      * rewrite JsMap_get_delete_ne in Hr' by assumption.
        apply Hother; [ | now apply (Hlive sid') ].
        intros ->. apply Hne. now apply (Hinj sid sid' r).
    + intros sid1 sid2 r' H1 H2. cbn in H1, H2. rewrite Hsess in H1, H2.
      destruct (decide (sid = sid1)) as [<- | Hne1];
        [ now rewrite JsMap_get_delete_eq in H1 | ].
      destruct (decide (sid = sid2)) as [<- | Hne2];
        [ now rewrite JsMap_get_delete_eq in H2 | ].
      rewrite JsMap_get_delete_ne in H1, H2 by assumption.
      now apply (Hinj sid1 sid2 r').
  - split; rewrite Hsess.
    + intros sid' r' Hr'.
      destruct (decide (r' = r)) as [-> | Hne]; [ now apply Hself | ].
      apply Hother; [ assumption | now apply (Hlive sid') ].
    + exact Hinj.
Qed.

(** A value read from the state may be used by the step that follows
    the reading and forgotten by the rest. *)
Lemma keeps_live_gets_then {A B C} (g : BTCPServer.t -> A) (k1 : A -> M B)
    (k2 : B -> M C) :
  keeps_live (gets g ≫= k1) -> (forall b, keeps_live (k2 b)) ->
  keeps_live (gets g ≫= fun a => k1 a ≫= k2).
Proof.
  intros H1 H2 st Hst. specialize (H1 st Hst). unfold_M. cbn in *.
  destruct (k1 (g st) st) as [[b | e] st1]; cbn in *.
  - now apply H2.
  - exact H1.
Qed.

Lemma keeps_live_handleDisconnect (clientId : string) :
  keeps_live (handleDisconnect clientId).
Proof.
  unfold handleDisconnect.
  apply keeps_live_bind;
    [ apply keeps_live_keeps_shape, keeps_shape_gets | ].
  intros [client | ]; [ | apply keeps_live_keeps_shape, keeps_shape_ret ].
  apply keeps_live_bind;
    [ apply keeps_live_keeps_shape, keeps_shape_gets | intros interval ].
  apply keeps_live_bind.
  { apply keeps_live_keeps_shape. keeps_shape_tac. }
  intros _.
  apply keeps_live_gets_then.
  2: { intros _. apply keeps_live_keeps_shape. keeps_shape_tac. }
  intros st Hst. unfold update_session, deref. unfold_M. cbn.
  destruct (JsMap.get (SSEClient.sessionId client) (sessions st))
    as [r | ] eqn:Hr; [ | exact Hst ].
  destruct (proj1 Hst _ _ Hr) as (s & Hs & _).
  cbn. rewrite Hs. cbn.
  destruct (match Session.browserClient s with
            | Some browserClient =>
                String.eqb (SSEClient.id browserClient) clientId
            | None => false
            end); cbn.
  - rewrite list_lookup_alter_eq, Hs. cbn.
    rewrite for_of_sendToClient_run. cbn.
    rewrite push_all_sessionObjects. cbn.
    rewrite list_lookup_alter_eq, Hs. cbn.
    pose proof (sessions_live_after_leave st
                  (push_all (JsMap.values (Session.agentClients s))
                     (JObj [("jsonrpc", JStr "2.0");
                            ("method", JStr "browser/disconnected");
                            ("params",
                             JObj [("sessionId", JStr (Session.id s))])])
                     (with_sessionObjects
                        (alter (Session.with_browserClient None) r
                           (sessionObjects st)) st))
                  (SSEClient.sessionId client) r s
                  (Session.with_browserClient None) Hst Hr Hs) as Hlive.
    specialize (Hlive (shape_push_all _ _ _)).
    unfold is_idle in Hlive. cbn in Hlive. unfold JsMap.size in *.
    destruct (length (Session.agentClients s) =? 0)%nat; cbn; exact Hlive.
  - pose proof (sessions_live_after_leave st
                  (with_sessionObjects
                     (alter
                        (fun s0 =>
                           Session.with_agentClients
                             (JsMap.delete clientId (Session.agentClients s0))
                             s0) r (sessionObjects st)) st)
                  (SSEClient.sessionId client) r s
                  (fun s0 =>
                     Session.with_agentClients
                       (JsMap.delete clientId (Session.agentClients s0)) s0)
                  Hst Hr Hs eq_refl) as Hlive.
    unfold is_idle in Hlive. cbn in Hlive.
    rewrite list_lookup_alter_eq, Hs. cbn. unfold JsMap.size in *.
    destruct (match Session.browserClient s with
              | Some _ => false
              | None => true
              end
              && (length (JsMap.delete clientId (Session.agentClients s))
                  =? 0)%nat); cbn; exact Hlive.
Qed.

Lemma keeps_live_routeMessage (sessionId : string) (message : JsValue)
    (clientId : option string) :
  keeps_live (routeMessage sessionId message clientId).
Proof.
  unfold routeMessage.
  apply keeps_live_bind;
    [ apply keeps_live_keeps_shape, keeps_shape_gets | ].
  intros session.
  apply keeps_live_bind;
    [ apply keeps_live_keeps_shape, keeps_shape_findSenderClient | ].
  intros senderClient.
  destruct (isResponse message);
    [ apply keeps_live_keeps_shape, keeps_shape_handleToolResponse | ].
  destruct (negb (isRequest message));
    [ apply keeps_live_keeps_shape, keeps_shape_ret | ].
  destruct (js_is_string _ "tools/register");
    [ apply keeps_live_keeps_shape, keeps_shape_handleToolsRegister | ].
  destruct (js_is_string _ "tools/list");
    [ apply keeps_live_keeps_shape, keeps_shape_handleToolsList | ].
  destruct (js_is_string _ "tools/call");
    [ apply keeps_live_keeps_shape, keeps_shape_handleToolsCall | ].
  destruct (js_is_string _ "session/join");
    [ apply keeps_live_handleSessionJoin | ].
  destruct (js_is_string _ "ping");
    [ apply keeps_live_keeps_shape, keeps_shape_handlePing | ].
  apply keeps_live_keeps_shape, keeps_shape_ret.
Qed.

Lemma keeps_live_handleMessage (sessionId clientId : option string)
    (body : string) :
  keeps_live (handleMessage sessionId clientId body).
Proof.
  unfold handleMessage.
  destruct (negb (str_truthy sessionId));
    [ apply keeps_live_keeps_shape, keeps_shape_ret | ].
  apply keeps_live_try_catch.
  - apply keeps_live_bind;
      [ apply keeps_live_keeps_shape, keeps_shape_lift | ].
    intros message.
    apply keeps_live_bind; [ apply keeps_live_routeMessage | intros _ ].
    apply keeps_live_keeps_shape, keeps_shape_ret.
  - intros e. apply keeps_live_keeps_shape, keeps_shape_ret.
Qed.

Lemma keeps_live_handleSSE (sessionId clientType : option string) :
  keeps_live (handleSSE sessionId clientType).
Proof.
  unfold handleSSE.
  apply keeps_live_bind;
    [ apply keeps_live_keeps_shape, keeps_shape_generateMessageId | ].
  intros clientId.
  destruct (negb (str_truthy sessionId));
    [ apply keeps_live_keeps_shape, keeps_shape_ret | ].
  apply keeps_live_bind; [ intros st Hst; exact Hst | intros res ].
  apply keeps_live_bind.
  { apply keeps_live_keeps_shape. keeps_shape_tac. }
  intros _.
  apply keeps_live_bind.
  { destruct (String.eqb _ "browser");
      [ apply keeps_live_handleBrowserConnect
      | apply keeps_live_keeps_shape, keeps_shape_handleAgentConnect ]. }
  intros _. apply keeps_live_keeps_shape. keeps_shape_tac.
Qed.

Lemma step_sessions_live (ev : Event) (st : BTCPServer.t) :
  sessions_live st -> sessions_live (step ev st).
Proof.
  intros Hst. destruct ev as [sid ty | sid cid body | cid | n | cid]; cbn.
  - now apply keeps_live_handleSSE.
  - now apply keeps_live_handleMessage.
  - now apply keeps_live_handleDisconnect.
  - destruct (timeouts st !! n) as [t | ]; [ | exact Hst ].
    eapply sessions_live_shape; [ apply keeps_shape_run_timeout | ].
    exact Hst.
  - destruct (JsMap.get cid (keepAliveIntervals st)) as [res | ];
      [ | exact Hst ].
    eapply sessions_live_shape; [ apply keeps_shape_keepAlive | exact Hst ].
Qed.

(** In every state that the relay reaches, every session of the sessions
    map has a provider or a caller in its caller map, and no two session
    ids name the same session object. *)
Lemma reachable_sessions_live (config : Config) (clock : nat -> Z)
    (st : BTCPServer.t) :
  reachable config clock st -> sessions_live st.
Proof.
  induction 1 as [ | st ev _ IH ].
  - split; intros; discriminate.
  - now apply step_sessions_live.
Qed.

End SessionsLive.

(* ================================================================== *)
(** * server.ts: the ids of the pending entries *)
(* ================================================================== *)

Section Ids.

Lemma string_of_Z_inj (a b : Z) : string_of_Z a = string_of_Z b -> a = b.
Proof.
  intros Hab.
  assert (Hn : forall z, Z.to_int z <> Decimal.Pos Decimal.Nil
                         /\ Z.to_int z <> Decimal.Neg Decimal.Nil).
  { intros [ | p | p ]; cbn; split; try discriminate;
      intros E; injection E as E; now apply Unsigned.to_uint_nonnil in E. }
  assert (Hi : Some (Z.to_int a) = Some (Z.to_int b)).
  { rewrite <- (NilZero.isi (Z.to_int a)), <- (NilZero.isi (Z.to_int b));
      try apply Hn.
    unfold string_of_Z in Hab. now rewrite Hab. }
  injection Hi as Hi.
  rewrite <- (DecimalZ.of_to a), <- (DecimalZ.of_to b). now rewrite Hi.
Qed.

Lemma has_dash_uint (d : Decimal.uint) :
  has_dash (NilEmpty.string_of_uint d) = false.
Proof. induction d; cbn; auto. Qed.

Lemma has_dash_string_of_Z (z : Z) :
  (0 <= z)%Z -> has_dash (string_of_Z z) = false.
Proof.
  intros Hz. unfold string_of_Z.
  destruct z as [ | p | p ]; [ reflexivity | | lia ].
  cbn. unfold NilZero.string_of_uint.
  destruct (Pos.to_uint p) eqn:E; try apply has_dash_uint.
  reflexivity.
Qed.

Lemma has_dash_app (x y : string) :
  has_dash (x +:+ String "-" y) = true.
Proof.
  induction x as [ | c x IH ]; [ reflexivity | ].
  change (Ascii.eqb c "-" || has_dash (x +:+ String "-" y) = true).
  rewrite IH. apply orb_true_r.
Qed.

Lemma dash_suffix_inj (x1 x2 d1 d2 : string) :
  has_dash d1 = false -> has_dash d2 = false ->
  x1 +:+ String "-" d1 = x2 +:+ String "-" d2 -> d1 = d2.
Proof.
  intros H1 H2. revert x2.
  induction x1 as [ | c x1 IH ]; intros [ | c2 x2 ] E; cbn in E.
  - now injection E.
  - injection E as _ E. rewrite E, has_dash_app in H1. discriminate.
  - injection E as _ E. rewrite <- E, has_dash_app in H2. discriminate.
  - injection E as _ E. now apply IH in E.
Qed.

(** Two ids made at different readings of the counter differ, whatever
    the clock said. *)
Lemma generateMessageId_inj (now1 now2 c1 c2 : Z) :
  (0 <= c1)%Z -> (0 <= c2)%Z ->
  fst (Protocol.generateMessageId now1 c1)
  = fst (Protocol.generateMessageId now2 c2) ->
  c1 = c2.
Proof.
  intros H1 H2 E. unfold Protocol.generateMessageId in E. cbn [fst] in E.
  cbn [String.append] in E.
  injection E as E.
  apply dash_suffix_inj in E; try (apply has_dash_string_of_Z; lia).
  apply string_of_Z_inj in E. lia.
Qed.

Lemma issued_apart (key : string) (lo mid hi : Z) :
  (0 <= lo)%Z -> issued key lo mid -> issued key mid hi -> False.
Proof.
  intros Hlo (n1 & c1 & E1 & R1) (n2 & c2 & E2 & R2).
  rewrite E1 in E2. apply generateMessageId_inj in E2; lia.
Qed.

Lemma issued_wider (key : string) (lo lo' hi hi' : Z) :
  (lo' <= lo)%Z -> (hi <= hi')%Z -> issued key lo hi -> issued key lo' hi'.
Proof. intros ? ? (n & c & E & R). exists n, c. split; [ exact E | lia ]. Qed.

End Ids.

Section Relations.
Import BTCPServer.

#[export] Instance drops_preorder : PreOrder drops.
Proof.
  split.
  - intros st. split; [ reflexivity | auto ].
  - intros st1 st2 st3 [E1 H1] [E2 H2]. split; [ congruence | auto ].
Qed.

#[export] Instance drops_Drops : Drops drops.
Proof. split; [ apply _ | auto ]. Qed.

#[export] Instance files_under_preorder (id : string)
  : PreOrder (files_under id).
Proof.
  split.
  - intros st. split; [ reflexivity | auto ].
  - intros st1 st2 st3 [E1 H1] [E2 H2]. split; [ congruence | ].
    intros r key entry H3.
    destruct (H2 _ _ _ H3) as [H2' | ->]; [ auto | now right ].
Qed.

#[export] Instance files_under_Drops (id : string) : Drops (files_under id).
Proof.
  split; [ apply _ | ]. intros st st' [E Hd]. split; [ exact E | auto ].
Qed.

#[export] Instance files_fresh_preorder : PreOrder files_fresh.
Proof.
  split.
  - intros st. split; [ reflexivity | auto ].
  - intros st1 st2 st3 [E1 H1] [E2 H2]. split; [ lia | ].
    intros r key entry H3.
    destruct (H2 _ _ _ H3) as [H2' | Hi].
    + destruct (H1 _ _ _ H2') as [H1' | Hi]; [ now left | right ].
      eapply issued_wider; [ | | exact Hi ]; lia.
    + right. eapply issued_wider; [ | | exact Hi ]; lia.
Qed.

#[export] Instance files_fresh_Drops : Drops files_fresh.
Proof.
  split; [ apply _ | ]. intros st st' [E Hd]. split; [ lia | auto ].
Qed.

Lemma files_under_fresh (now : Z) (st0 st st' : BTCPServer.t) :
  messageCounter st = (messageCounter st0 + 1)%Z ->
  (forall r key, pending_at st r key = pending_at st0 r key) ->
  files_under
    (fst (Protocol.generateMessageId now (messageCounter st0))) st st' ->
  files_fresh st0 st'.
Proof.
  intros Ec Hp [E Hf]. split; [ lia | ].
  intros r key entry H1. destruct (Hf _ _ _ H1) as [H2 | ->].
  - left. now rewrite <- Hp.
  - right. exists now, (messageCounter st0). split; [ reflexivity | lia ].
Qed.

(** Entries that are there stay what they are for as long as they are
    there, once ids are issued as the counter counts. *)
Lemma files_fresh_keeps_entry (st st' : BTCPServer.t) (r : nat)
    (key : string) (entry entry' : PendingResponse.t) :
  ids_issued st -> files_fresh st st' ->
  pending_at st r key = Some entry ->
  pending_at st' r key = Some entry' ->
  entry' = entry.
Proof.
  intros [Hc Hi] [_ Hf] H1 H2. destruct (Hf _ _ _ H2) as [H3 | H3].
  - congruence.
  - destruct (issued_apart _ _ _ _ (Z.le_refl 0) (Hi _ _ _ H1) H3).
Qed.

Lemma files_fresh_ids_issued (st st' : BTCPServer.t) :
  ids_issued st -> files_fresh st st' -> ids_issued st'.
Proof.
  intros [Hc Hi] [Hle Hf]. split; [ lia | ].
  intros r key entry H1. destruct (Hf _ _ _ H1) as [H2 | H2].
  - eapply issued_wider; [ | | exact (Hi _ _ _ H2) ]; lia.
  - eapply issued_wider; [ | | exact H2 ]; lia.
Qed.

End Relations.

Section Relates.
Import BTCPServer.
Context (R : relation BTCPServer.t) `{!PreOrder R}.

Lemma relates_ret {A} (a : A) : relates R (ret a).
Proof. intros st. reflexivity. Qed.

Lemma relates_gets {A} (f : BTCPServer.t -> A) : relates R (gets f).
Proof. intros st. reflexivity. Qed.

Lemma relates_throw {A} (e : JsError) : relates R (@throw A e).
Proof. intros st. reflexivity. Qed.

Lemma relates_lift {A} (c : Completion A) : relates R (lift c).
Proof. intros st. reflexivity. Qed.

Lemma relates_bind {A B} (m : M A) (k : A -> M B) :
  relates R m -> (forall a, relates R (k a)) -> relates R (m ≫= k).
Proof.
  intros Hm Hk st. unfold_M. specialize (Hm st).
  destruct (m st) as [[a | e] st1]; cbn in *.
  - etransitivity; [ exact Hm | apply Hk ].
  - exact Hm.
Qed.

Lemma relates_try_catch {A} (m : M A) (handler : Thrown -> M A) :
  relates R m -> (forall e, relates R (handler e)) ->
  relates R (try_catch m handler).
Proof.
  intros Hm Hh st. unfold try_catch. specialize (Hm st).
  destruct (m st) as [[a | e] st1]; cbn in *.
  - exact Hm.
  - etransitivity; [ exact Hm | apply Hh ].
Qed.

Lemma relates_for_of {A} (l : list A) (body : A -> M unit) :
  (forall a, relates R (body a)) -> relates R (for_of l body).
Proof.
  intros Hb. induction l as [ | a l IH ]; cbn.
  - apply relates_ret.
  - apply relates_bind; [ apply Hb | intros _; exact IH ].
Qed.

Lemma relates_map_M {A B} (f : A -> M B) (l : list A) :
  (forall a, relates R (f a)) -> relates R (map_M f l).
Proof.
  intros Hf. induction l as [ | a l IH ]; cbn.
  - apply relates_ret.
  - apply relates_bind; [ apply Hf | intros b ].
    apply relates_bind; [ exact IH | intros bs ].
    apply relates_ret.
Qed.

End Relates.

Section Leaves.
Context `{JsEngine}.
Import BTCPServer.

Lemma relates_drops (R : relation BTCPServer.t) `{!Drops R} {A} (m : M A) :
  relates drops m -> relates R m.
Proof. intros Hm st. apply Drops_sub, Hm. Qed.

Lemma drops_same (st st' : BTCPServer.t) :
  messageCounter st' = messageCounter st ->
  Session.pendingResponses <$> sessionObjects st'
  = Session.pendingResponses <$> sessionObjects st ->
  drops st st'.
Proof.
  intros Ec Ep. split; [ exact Ec | ]. intros r key entry.
  unfold pending_at.
  assert (E : Session.pendingResponses <$> sessionObjects st' !! r
              = Session.pendingResponses <$> sessionObjects st !! r)
    by now rewrite <- !list_lookup_fmap, Ep.
  destruct (sessionObjects st' !! r), (sessionObjects st !! r);
    cbn in *; congruence.
Qed.

Lemma drops_modify (f : BTCPServer.t -> BTCPServer.t) :
  (forall st, messageCounter (f st) = messageCounter st
              /\ sessionObjects (f st) = sessionObjects st) ->
  relates drops (modify f).
Proof.
  intros Hf st. destruct (Hf st) as [Ec Eo].
  apply drops_same; [ exact Ec | cbn; now rewrite Eo ].
Qed.

Lemma drops_sendToClient (client : SSEClient.t) (message : JsValue) :
  relates drops (sendToClient client message).
Proof.
  intros st. rewrite sendToClient_run. cbn.
  apply drops_same.
  - apply push_frame.
  - now rewrite push_sessionObjects.
Qed.

Lemma drops_update_session (r : nat) (f : Session.t -> Session.t) :
  (forall s, Session.pendingResponses (f s) = Session.pendingResponses s) ->
  relates drops (update_session r f).
Proof.
  intros Hf st. apply drops_same; [ reflexivity | ].
  cbn. apply list_eq. intros i. rewrite !list_lookup_fmap.
  destruct (decide (i = r)) as [-> | Hne].
  - rewrite list_lookup_alter_eq.
    destruct (sessionObjects st !! r) as [s | ]; cbn; [ | reflexivity ].
    now rewrite Hf.
  - now rewrite list_lookup_alter_ne.
Qed.

Lemma pending_at_update (st : BTCPServer.t) (r r' : nat) (key : string)
    (f : Session.t -> Session.t) :
  pending_at (snd (update_session r f st)) r' key
  = if decide (r' = r)
    then sessionObjects st !! r
           ≫= fun s => Session.pendingResponses (f s) !! key
    else pending_at st r' key.
Proof.
  unfold pending_at, update_session, modify. cbn.
  destruct (decide (r' = r)) as [-> | Hne].
  - rewrite list_lookup_alter_eq. now destruct (sessionObjects st !! r).
  - now rewrite list_lookup_alter_ne.
Qed.

Lemma drops_update_session_delete (r : nat) (k : string) :
  relates drops
    (update_session r
       (fun s =>
          Session.with_pendingResponses
            (delete k (Session.pendingResponses s)) s)).
Proof.
  intros st. split; [ reflexivity | ]. intros r' key entry.
  rewrite pending_at_update. destruct (decide (r' = r)) as [-> | ];
    [ | auto ].
  unfold pending_at. destruct (sessionObjects st !! r) as [s | ]; cbn;
    [ | auto ].
  intros H1. apply lookup_delete_Some in H1. exact (proj2 H1).
Qed.

Lemma files_under_update_session_insert (r : nat) (id : string)
    (entry : PendingResponse.t) :
  relates (files_under id)
    (update_session r
       (fun s =>
          Session.with_pendingResponses
            (<[id := entry]> (Session.pendingResponses s)) s)).
Proof.
  intros st. split; [ reflexivity | ]. intros r' key e.
  rewrite pending_at_update. destruct (decide (r' = r)) as [-> | ];
    [ | auto ].
  unfold pending_at. destruct (sessionObjects st !! r) as [s | ]; cbn;
    [ | auto ].
  intros H1. apply lookup_insert_Some in H1.
  destruct H1 as [[-> _] | [_ H1]]; [ now right | now left ].
Qed.

Lemma drops_new_session (s : Session.t) :
  Session.pendingResponses s = ∅ -> relates drops (new_session s).
Proof.
  intros Hs st. split; [ reflexivity | ]. intros r key entry.
  unfold pending_at, new_session. unfold_M. cbn.
  destruct (decide (r < length (sessionObjects st))) as [Hlt | Hge].
  - now rewrite lookup_app_l.
  - rewrite lookup_app_r by lia.
    destruct (r - length (sessionObjects st)) as [ | n ]; cbn;
      [ now rewrite Hs | discriminate ].
Qed.

Lemma drops_Date_now : relates drops Date_now.
Proof. intros st. now apply drops_same. Qed.

Lemma generateMessageId_run (st : BTCPServer.t) :
  generateMessageId st
  = (Normal (fst (Protocol.generateMessageId (clock st (ticks st))
                    (messageCounter st))),
     with_messageCounter (messageCounter st + 1)
       (with_ticks (S (ticks st)) st)).
Proof. reflexivity. Qed.

Lemma files_fresh_generate_then {A} (k : string -> M A) :
  (forall id, relates (files_under id) (k id)) ->
  relates files_fresh (generateMessageId ≫= k).
Proof.
  intros Hk st. unfold_M. rewrite generateMessageId_run.
  eapply files_under_fresh; [ | | apply Hk ]; reflexivity.
Qed.

End Leaves.

(** Takes a handler apart into steps that [R] relates. *)
Ltac relates_step :=
  lazymatch goal with
  | |- relates _ (BTCPServer.ret _) => apply relates_ret; exact _
  | |- relates _ (BTCPServer.gets _) => apply relates_gets; exact _
  | |- relates _ (BTCPServer.throw _) => apply relates_throw; exact _
  | |- relates _ (BTCPServer.lift _) => apply relates_lift; exact _
  | |- relates _ (BTCPServer.deref _) => apply relates_gets; exact _
  | |- relates _ (BTCPServer.writableEnded _) => apply relates_gets; exact _
  | |- relates _ (BTCPServer.sendToClient _ _) =>
      apply relates_drops; [ exact _ | apply drops_sendToClient ]
  | |- relates _ BTCPServer.Date_now =>
      apply relates_drops; [ exact _ | apply drops_Date_now ]
  | |- relates _ (BTCPServer.new_session _) =>
      apply relates_drops;
      [ exact _ | apply drops_new_session; reflexivity ]
  | |- relates _ (BTCPServer.for_of _ _) =>
      apply relates_for_of; [ exact _ | intros ? ]
  | |- relates _ (BTCPServer.map_M _ _) =>
      apply relates_map_M; [ exact _ | intros ? ]
  | |- relates _ (BTCPServer.try_catch _ _) =>
      apply relates_try_catch; [ exact _ | | intros ? ]
  | |- relates files_fresh (mbind _ BTCPServer.generateMessageId) =>
      apply files_fresh_generate_then; intros ?
  | |- relates _ (mbind _ _) =>
      apply relates_bind; [ exact _ | | intros ? ]
  | |- relates (files_under _) (BTCPServer.update_session _ _) =>
      apply files_under_update_session_insert
  | |- relates _ (BTCPServer.update_session _ _) =>
      apply relates_drops;
      [ exact _
      | first [ apply drops_update_session; intros ?; reflexivity
              | apply drops_update_session_delete ] ]
  | |- relates _ (BTCPServer.modify _) =>
      apply relates_drops;
      [ exact _ | apply drops_modify; intros ?; split; reflexivity ]
  | |- relates _ (match ?x with _ => _ end) => destruct x
  end.

Ltac relates_tac := repeat relates_step.

Section Filing.
Context `{JsEngine}.
Import Protocol BTCPServer.

Lemma drops_handleBrowserConnect (client : SSEClient.t) :
  relates drops (handleBrowserConnect client).
Proof. unfold handleBrowserConnect, response_end. relates_tac. Qed.

Lemma drops_handleAgentConnect (client : SSEClient.t) :
  relates drops (handleAgentConnect client).
Proof. unfold handleAgentConnect. relates_tac. Qed.

Lemma drops_keepAlive (res : nat) : relates drops (keepAlive res).
Proof. unfold keepAlive, response_write. relates_tac. Qed.

Lemma drops_findSenderClient (sessionId : string)
    (clientId : option string) :
  relates drops (findSenderClient sessionId clientId).
Proof. unfold findSenderClient. relates_tac. Qed.

Lemma drops_handleToolsRegister (session : option nat) (request : JsValue) :
  relates drops (handleToolsRegister session request).
Proof. unfold handleToolsRegister. relates_tac. Qed.

Lemma drops_handleToolResponse (session : option nat) (response : JsValue) :
  relates drops (handleToolResponse session response).
Proof. unfold handleToolResponse. relates_tac. Qed.

Lemma drops_handleSessionJoin (currentSessionId : string)
    (request : JsValue) (clientId : option string) :
  relates drops (handleSessionJoin currentSessionId request clientId).
Proof. unfold handleSessionJoin. relates_tac. Qed.

Lemma drops_handlePing (session : option nat) (request : JsValue)
    (senderClient : option SSEClient.t) :
  relates drops (handlePing session request senderClient).
Proof. unfold handlePing. relates_tac. Qed.

Lemma drops_handleDisconnect (clientId : string) :
  relates drops (handleDisconnect clientId).
Proof. unfold handleDisconnect. relates_tac. Qed.

Lemma drops_run_timeout (t : Timeout) : relates drops (run_timeout t).
Proof.
  unfold run_timeout, handleToolsList_timeout, handleToolsCall_timeout.
  relates_tac.
Qed.

Lemma files_fresh_handleToolsList (session : option nat)
    (request : JsValue) (senderClient : option SSEClient.t) :
  relates files_fresh (handleToolsList session request senderClient).
Proof. unfold handleToolsList, setTimeout. relates_tac. Qed.

Lemma files_fresh_handleToolsCall (session : option nat)
    (request : JsValue) (senderClient : option SSEClient.t) :
  relates files_fresh (handleToolsCall session request senderClient).
Proof. unfold handleToolsCall, setTimeout. relates_tac. Qed.

Lemma files_fresh_routeMessage (sessionId : string) (message : JsValue)
    (clientId : option string) :
  relates files_fresh (routeMessage sessionId message clientId).
Proof.
  unfold routeMessage.
  apply relates_bind; [ apply _ | apply relates_gets; apply _ | intros session ].
  apply relates_bind;
    [ apply _ | apply relates_drops; [ apply _ | apply drops_findSenderClient ]
    | intros senderClient ].
  repeat lazymatch goal with
         | |- relates _ (if ?b then _ else _) => destruct b
         end;
    first [ apply relates_ret; apply _
          | apply files_fresh_handleToolsList
          | apply files_fresh_handleToolsCall
          | apply relates_drops;
            [ apply _
            | first [ apply drops_handleToolResponse
                    | apply drops_handleToolsRegister
                    | apply drops_handleSessionJoin
                    | apply drops_handlePing ] ] ].
Qed.

Lemma files_fresh_handleMessage (sessionId clientId : option string)
    (body : string) :
  relates files_fresh (handleMessage sessionId clientId body).
Proof.
  unfold handleMessage. destruct (negb _); [ apply relates_ret; apply _ | ].
  apply relates_try_catch; [ apply _ | | intros e; apply relates_ret; apply _ ].
  apply relates_bind; [ apply _ | apply relates_lift; apply _ | intros m ].
  apply relates_bind; [ apply _ | apply files_fresh_routeMessage | intros _ ].
  apply relates_ret; apply _.
Qed.

Lemma files_fresh_handleSSE (sessionId clientType : option string) :
  relates files_fresh (handleSSE sessionId clientType).
Proof.
  unfold handleSSE. apply files_fresh_generate_then. intros clientId.
  destruct (negb _); [ apply relates_ret; apply _ | ].
  unfold new_response. relates_tac;
    apply relates_drops;
    first [ exact _
          | apply drops_handleBrowserConnect
          | apply drops_handleAgentConnect ].
Qed.

Lemma step_files_fresh (ev : Event) (st : BTCPServer.t) :
  files_fresh st (step ev st).
Proof.
  destruct ev as [ sid ty | sid cid body | cid | n | cid ]; cbn.
  - apply files_fresh_handleSSE.
  - apply files_fresh_handleMessage.
  - apply Drops_sub, drops_handleDisconnect.
  - destruct (timeouts st !! n) as [t | ]; [ | reflexivity ].
    etransitivity; [ | apply Drops_sub, drops_run_timeout ].
    apply Drops_sub. now apply drops_same.
  - destruct (JsMap.get cid (keepAliveIntervals st)); [ | reflexivity ].
    apply Drops_sub, drops_keepAlive.
Qed.

Lemma run_files_fresh (evs : list Event) (st : BTCPServer.t) :
  files_fresh st (run evs st).
Proof.
  revert st. induction evs as [ | ev evs IH ]; intros st; cbn.
  - reflexivity.
  - etransitivity; [ apply step_files_fresh | apply IH ].
Qed.

(** In every state that the relay reaches, every entry is filed under an
    id that [generateMessageId] has issued. *)
Lemma reachable_ids_issued (config : Config) (clock : nat -> Z)
    (st : BTCPServer.t) :
  reachable config clock st -> ids_issued st.
Proof.
  induction 1 as [ | st ev _ IH ].
  - split; [ cbn; lia | ]. intros r key entry. unfold pending_at. cbn.
    discriminate.
  - eapply files_fresh_ids_issued; [ exact IH | apply step_files_fresh ].
Qed.

(** X27.  An entry of a reachable state is not overwritten: whatever
    happens next, an entry that is filed under its id later is the same
    entry, with the sender and the original id it was filed with. *)
Lemma reachable_entry_kept (config : Config) (clock : nat -> Z)
    (st : BTCPServer.t) (evs : list Event) (r : nat) (key : string)
    (entry entry' : PendingResponse.t) :
  reachable config clock st ->
  pending_at st r key = Some entry ->
  pending_at (run evs st) r key = Some entry' ->
  entry' = entry.
Proof.
  intros Hr. eapply files_fresh_keeps_entry;
    [ eapply reachable_ids_issued, Hr | apply run_files_fresh ].
Qed.

End Filing.

Lemma reachable_entry_kept_witness :
  reachable (H := MiniEngine.engine) demo_config demo_clock relay_call_pending
  /\ exists entry : PendingResponse.t,
       pending_at relay_call_pending 0 internal_id = Some entry
       /\ pending_at
            (BTCPServer.run (H := MiniEngine.engine)
               [BTCPServer.Close caller_id; caller_posts call_echo]
               relay_call_pending)
            0 internal_id
          = Some entry.
Proof.
  assert (Hreach : reachable (H := MiniEngine.engine) demo_config demo_clock
                     relay_call_pending)
    by (apply reachable_run, reachable_init).
  assert (He : { entry |
                 pending_at relay_call_pending 0 internal_id = Some entry })
    by (vm_compute; eexists; reflexivity).
  assert (He' : { entry |
                  pending_at
                    (BTCPServer.run (H := MiniEngine.engine)
                       [BTCPServer.Close caller_id; caller_posts call_echo]
                       relay_call_pending)
                    0 internal_id = Some entry })
    by (vm_compute; eexists; reflexivity).
  destruct He as [entry He]. destruct He' as [entry' He'].
  split; [ exact Hreach | ]. exists entry. split; [ exact He | ].
  rewrite He'. f_equal.
  exact (reachable_entry_kept (H := MiniEngine.engine) demo_config demo_clock
           relay_call_pending
           [BTCPServer.Close caller_id; caller_posts call_echo]
           0 internal_id entry entry' Hreach He He').
Defined.

(* ================================================================== *)
(** * server.ts: a forwarded request and its response *)
(* ================================================================== *)

Section Relayed.
Context `{JsEngine}.
Import Protocol BTCPServer.



End Relayed.


(* ================================================================== *)
(** * executor.ts: the registry and what [execute] answers *)
(* ================================================================== *)

Section Executor.
Context `{JsEngine}.
Import Protocol ToolExecutor.

Lemma isBTCPContent_text (text : string) :
  isBTCPContent (createTextContent text) = true.
Proof. reflexivity. Qed.

Lemma isBTCPContent_image (data : string) (mimeType : option string) :
  isBTCPContent (createImageContent data mimeType) = true.
Proof. reflexivity. Qed.

Lemma normalizeResult_first (result : JsValue) :
  exists first rest,
    normalizeResult result = first :: rest /\ isBTCPContent first = true.
Proof.
  unfold normalizeResult.
  destruct result as [ | | b | n | s | items | ps ].
  - eexists; eexists; split; reflexivity.
  - eexists; eexists; split; reflexivity.
  - eexists; eexists; split; reflexivity.
  - eexists; eexists; split; reflexivity.
  - cbn. destruct (isBase64Image s); eexists; eexists; split; reflexivity.
  - destruct items as [ | first items ];
      [ eexists; eexists; split; reflexivity | ].
    destruct (isBTCPContent first) eqn:E; eexists; eexists; split;
      try reflexivity; exact E.
  - destruct (isBTCPContent (JObj ps)) eqn:E; eexists; eexists; split;
      try reflexivity; exact E.
Qed.

(** X1.  [normalizeResult] never answers an empty list: what it answers
    starts with a content item (a [text], [image] or [resource] object),
    and it has not more than one item unless the handler's own list was
    passed through.  Normalizing the answer again, as a list, changes
    nothing. *)
Theorem normalizeResult_normal_form (result : JsValue) :
  (exists first rest,
      normalizeResult result = first :: rest
      /\ isBTCPContent first = true
      /\ (rest = [] \/ result = JArr (first :: rest)))
  /\ normalizeResult (JArr (normalizeResult result))
     = normalizeResult result.
Proof.
  split.
  - unfold normalizeResult.
    destruct result as [ | | b | n | s | items | ps ];
      try (eexists; eexists; split; [ reflexivity | ];
           split; [ reflexivity | now left ]).
    + cbn. destruct (isBase64Image s); eexists; eexists;
        (split; [ reflexivity | ]; split; [ reflexivity | now left ]).
    + destruct items as [ | first items ];
        [ eexists; eexists; split; [ reflexivity | ];
          split; [ reflexivity | now left ] | ].
      destruct (isBTCPContent first) eqn:E; eexists; eexists;
        (split; [ reflexivity | ]); (split; [ try reflexivity; exact E | ]);
        [ now right | now left ].
    + destruct (isBTCPContent (JObj ps)) eqn:E; eexists; eexists;
        (split; [ reflexivity | ]);
        (split; [ try reflexivity; exact E | now left ]).
  - destruct (normalizeResult_first result) as (first & rest & E & Hc).
    rewrite E. cbn. now rewrite Hc.
Qed.


(** X3.  The registry of the executor.  A registered name has a handler,
    and [execute] runs the handler registered last; the other names keep
    theirs.  A definition is stored only when one is given: registering
    without one leaves the definition the name had.  [unregisterHandler]
    answers whether the name had a handler and removes handler and
    definition, after which [execute] rejects with the
    [BTCPToolNotFoundError] of code -32004. *)
Theorem executor_registry (ex : ToolExecutor.t) (name : string)
    (handler : ToolHandler) (definition : option JsValue) (args : JsValue) :
  let ex1 := registerHandler name handler definition ex in
  let ex2 := snd (unregisterHandler name ex1) in
  hasHandler name ex1 = true
  /\ (forall result,
         handler match args with JUndefined => JObj [] | _ => args end
         = Normal result ->
         execute ex1 (JStr name) args = Normal (normalizeResult result))
  /\ (forall other, other <> name ->
                    handlers ex1 !! other = handlers ex !! other
                    /\ getToolDefinition other ex1
                       = getToolDefinition other ex)
  /\ getToolDefinition name ex1
     = match definition with
       | Some d => Some d
       | None => getToolDefinition name ex
       end
  /\ fst (unregisterHandler name ex1) = true
  /\ fst (unregisterHandler name ex2) = false
  /\ hasHandler name ex2 = false
  /\ getToolDefinition name ex2 = None
  /\ execute ex2 (JStr name) args
     = Throw (ThrownError
                {| err_class := BTCPToolNotFoundError;
                   err_message := "Tool not found: " +:+ name;
                   err_code := Some (-32004)%Z;
                   err_data := JObj [("toolName", JStr name)] |}).
Proof.
  cbv zeta. unfold hasHandler, unregisterHandler, registerHandler,
    getToolDefinition, execute. cbn.
  rewrite !lookup_insert_eq, !lookup_delete_eq. cbn.
  split; [ reflexivity | ].
  split; [ intros result Hr; now rewrite Hr | ].
  split.
  { intros other Hne. split; [ now apply lookup_insert_ne | ].
    destruct definition as [d | ]; [ | reflexivity ].
    apply JsMap_get_set_ne. congruence. }
  split.
  { destruct definition as [d | ]; [ apply JsMap_get_set_eq | reflexivity ]. }
  split; [ reflexivity | ]. split; [ reflexivity | ].
  split; [ reflexivity | ].
  split; [ apply JsMap_get_delete_eq | reflexivity ].
Qed.

End Executor.


(* ================================================================== *)
(** * protocol.ts: ids and the messages of the creators *)
(* ================================================================== *)

Section ProtocolMessages.
Import Protocol.

(** X4.  [generateMessageId] does not repeat an id while the counter
    counts up from zero, whatever [Date.now()] reads: two ids made at
    different readings of the counter differ, also within one
    millisecond. *)
Theorem generateMessageId_never_repeats (now1 now2 c1 c2 : Z) :
  (0 <= c1 < c2)%Z ->
  snd (generateMessageId now1 c1) = (c1 + 1)%Z
  /\ String.eqb (fst (generateMessageId now1 c1))
       (fst (generateMessageId now2 c2)) = false.
Proof.
  intros Hc. split; [ reflexivity | ].
  apply String.eqb_neq. intros E.
  apply generateMessageId_inj in E; lia.
Qed.

(** X5.  What the creators make is what the guards recognise: every
    message of a creator is a valid JSON-RPC message; those of
    [createRequest] and of the request helpers are requests with the
    method of their name, those of the response creators are responses,
    of which the error creators' are error responses, and a notification
    is neither.  A request made without an id gets the next generated
    id. *)
Theorem creators_and_guards (now counter : Z) (method name sessionId : string)
    (params id args tools filter result data : JsValue)
    (code : Z) (message : string) (content : list JsValue)
    (toolCode : option Z) :
  let generated := JStr (fst (generateMessageId now counter)) in
  let made (request : JsValue * Z) (method : string) : Prop :=
    isValidJsonRpcMessage (fst request) = true
    /\ isRequest (fst request) = true
    /\ isResponse (fst request) = false
    /\ isNotification (fst request) = false
    /\ js_prop (fst request) "method" = JStr method
    /\ js_prop (fst request) "id" = generated
    /\ snd request = (counter + 1)%Z in
  (isValidJsonRpcMessage (createRequest method params id) = true
   /\ isRequest (createRequest method params id) = true
   /\ isResponse (createRequest method params id) = false
   /\ js_prop (createRequest method params id) "id" = id)
  /\ fst (createRequest_at now counter method params id)
     = createRequest method params (if is_nullish id then generated else id)
  /\ made (createToolsListRequest now counter filter) "tools/list"
  /\ made (createToolCallRequest now counter name args) "tools/call"
  /\ made (createToolsRegisterRequest now counter tools) "tools/register"
  /\ made (createSessionJoinRequest now counter sessionId) "session/join"
  /\ made (createPingRequest now counter) "ping"
  /\ (isValidJsonRpcMessage (createNotification method params) = true
      /\ isNotification (createNotification method params) = true
      /\ isRequest (createNotification method params) = false
      /\ isResponse (createNotification method params) = false)
  /\ (isValidJsonRpcMessage (createResponse id result) = true
      /\ isResponse (createResponse id result) = true
      /\ isErrorResponse (createResponse id result) = false)
  /\ (isValidJsonRpcMessage (createErrorResponse id code message data) = true
      /\ isResponse (createErrorResponse id code message data) = true
      /\ isErrorResponse (createErrorResponse id code message data) = true)
  /\ (isResponse (createToolCallResponse id content) = true
      /\ isErrorResponse (createToolCallResponse id content) = false)
  /\ (isResponse (createToolCallErrorResponse id message toolCode) = true
      /\ isErrorResponse (createToolCallErrorResponse id message toolCode)
         = true).
Proof.
  cbv zeta.
  split; [ destruct params; repeat split | ].
  split; [ unfold createRequest_at; now destruct (is_nullish id) | ].
  split; [ unfold createToolsListRequest, createRequest_at; cbn;
           destruct (js_truthy filter); repeat split | ].
  split; [ repeat split | ]. split; [ repeat split | ].
  split; [ repeat split | ]. split; [ repeat split | ].
  split; [ destruct params; repeat split | ].
  split; [ repeat split | ].
  split; [ repeat split | ]. split; repeat split.
Qed.

End ProtocolMessages.

Lemma generateMessageId_never_repeats_witness :
  (0 <= 0 < 1)%Z
  /\ String.eqb (fst (Protocol.generateMessageId 1700000000000 0))
       (fst (Protocol.generateMessageId 1700000000000 1)) = false.
Proof.
  assert (Hc : (0 <= 0 < 1)%Z) by lia.
  split; [ exact Hc | ].
  exact (proj2 (generateMessageId_never_repeats 1700000000000 1700000000000
                  0 1 Hc)).
Defined.


(* ================================================================== *)
(** * client.ts: requests, answers and reconnection *)
(* ================================================================== *)

Section ClientRequests.
Context `{JsEngine}.
Import Protocol BTCPClient.





End ClientRequests.

Section ClientAnswers.
Context `{JsEngine}.
Import Protocol BTCPClient.

Lemma sendMessage_posted (net : FetchOutcome) (message : JsValue)
    (c : BTCPClient.t) :
  snd (sendMessage net message c)
  = with_posted (posted c ++ [serializeMessage message]) c.
Proof.
  unfold sendMessage. destruct net as [ | status | error ];
    try reflexivity.
  now destruct (instanceof error BTCPConnectionError).
Qed.

(** X7.  [sendMessage] hands the serialized message to [fetch] once and
    touches nothing else of the client.  It resolves only when the
    answer is ok; it rejects with nothing but a [BTCPConnectionError]:
    the one [fetch] threw, or a new one of code -32000 that has the
    message of what [fetch] threw or names the HTTP status. *)
Theorem sendMessage_outcomes (net : FetchOutcome) (message : JsValue)
    (c : BTCPClient.t) :
  snd (sendMessage net message c)
  = with_posted (posted c ++ [serializeMessage message]) c
  /\ match net with
     | FetchOk => fst (sendMessage net message c) = Normal tt
     | FetchStatus status =>
         fst (sendMessage net message c)
         = Throw (ThrownError
                    {| err_class := BTCPConnectionError;
                       err_message := "HTTP error: " +:+ string_of_Z status;
                       err_code := Some (-32000)%Z;
                       err_data := JUndefined |})
     | FetchThrows error =>
         exists thrown,
           fst (sendMessage net message c) = Throw thrown
           /\ instanceof thrown BTCPConnectionError = true
           /\ (instanceof error BTCPConnectionError = true ->
               thrown = error)
           /\ (instanceof error BTCPConnectionError = false ->
               thrown_code thrown = Some (-32000)%Z
               /\ error_message_or_String thrown
                  = match error with
                    | ThrownError e => err_message e
                    | ThrownValue _ => "Failed to send message"
                    end)
     end.
Proof.
  split; [ apply sendMessage_posted | ].
  destruct net as [ | status | error ]; try reflexivity.
  unfold sendMessage.
  destruct (instanceof error BTCPConnectionError) eqn:E; cbn.
  - exists error. split; [ reflexivity | ]. split; [ exact E | ].
    split; [ reflexivity | discriminate ].
  - eexists. split; [ reflexivity | ]. split; [ reflexivity | ].
    split; [ discriminate | ]. intros _. split; reflexivity.
Qed.


(** X9.  Reconnection backs off by doubling.  From [attempts] failed
    attempts, [k] more calls of [handleReconnect] that stay within
    [maxReconnectAttempts] schedule [k] reconnections, at
    [reconnectDelay] times 2 to the power [attempts], [attempts + 1],
    ...; they emit nothing.  At [maxReconnectAttempts] the next call
    schedules nothing and emits one [error] event with a
    [BTCPConnectionError]. *)
Theorem handleReconnect_backoff (c : BTCPClient.t) (k : nat) :
  autoReconnect (config c) = true ->
  (0 <= reconnectAttempts c)%Z ->
  (reconnectAttempts c + Z.of_nat k <= maxReconnectAttempts (config c))%Z ->
  let c' := Nat.iter k handleReconnect c in
  reconnectAttempts c' = (reconnectAttempts c + Z.of_nat k)%Z
  /\ reconnectTimers c'
     = reconnectTimers c
       ++ map (fun i =>
                 (reconnectDelay (config c)
                  * 2 ^ (reconnectAttempts c + Z.of_nat i))%Z)
            (seq 0 k)
  /\ emitted c' = emitted c
  /\ config c' = config c
  /\ (reconnectAttempts c' = maxReconnectAttempts (config c) ->
      reconnectTimers (handleReconnect c') = reconnectTimers c'
      /\ emitted (handleReconnect c')
         = emitted c'
           ++ [("error",
                [ArgError
                   {| err_class := BTCPConnectionError;
                      err_message := "Max reconnection attempts reached";
                      err_code := Some (-32000)%Z;
                      err_data := JUndefined |}])]).
Proof.
  intros Hauto Hpos. cbv zeta. induction k as [ | k IH ]; intros Hmax.
  - cbn. rewrite Z.add_0_r, app_nil_r.
    split; [ reflexivity | ]. split; [ reflexivity | ].
    split; [ reflexivity | ]. split; [ reflexivity | ].
    intros E. unfold handleReconnect. rewrite Hauto. cbn.
    rewrite E, Z.leb_refl. split; reflexivity.
  - destruct IH as (Ha & Ht & He & Hc & _); [ lia | ].
    change (Nat.iter (S k) handleReconnect c)
      with (handleReconnect (Nat.iter k handleReconnect c)).
    set (ck := Nat.iter k handleReconnect c) in *.
    assert (Hstep :
      handleReconnect ck
      = with_reconnectTimers
          (reconnectTimers ck
           ++ [(reconnectDelay (config c)
                * 2 ^ (reconnectAttempts c + Z.of_nat k))%Z])
          (with_reconnectAttempts (reconnectAttempts ck + 1) ck)).
    { unfold handleReconnect. rewrite Hc, Hauto. cbn.
      destruct (Z.leb_spec (maxReconnectAttempts (config c))
                  (reconnectAttempts ck)) as [Hle | Hlt]; [ lia | ].
      cbn. rewrite Hc.
      replace (reconnectAttempts ck + 1 - 1)%Z
        with (reconnectAttempts c + Z.of_nat k)%Z by lia.
      reflexivity. }
    rewrite Hstep. unfold with_reconnectTimers, with_reconnectAttempts.
    cbn [reconnectAttempts reconnectTimers emitted config].
    split; [ rewrite Ha; lia | ].
    split.
    { rewrite Ht, seq_S, map_app, app_assoc. reflexivity. }
    split; [ exact He | ]. split; [ exact Hc | ].
    intros E. unfold handleReconnect. cbn. rewrite Hc, Hauto. cbn.
    rewrite E, Z.leb_refl. split; reflexivity.
Qed.

End ClientAnswers.


Lemma handleReconnect_backoff_witness :
  BTCPClient.autoReconnect (BTCPClient.config connected_client) = true
  /\ BTCPClient.reconnectTimers
       (Nat.iter 3 BTCPClient.handleReconnect connected_client)
     = [1000; 2000; 4000]%Z.
Proof.
  assert (Ha : BTCPClient.autoReconnect (BTCPClient.config connected_client)
               = true) by reflexivity.
  assert (H0 : (0 <= BTCPClient.reconnectAttempts connected_client)%Z)
    by (vm_compute; discriminate).
  assert (Hk : (BTCPClient.reconnectAttempts connected_client + Z.of_nat 3
                <= BTCPClient.maxReconnectAttempts
                     (BTCPClient.config connected_client))%Z)
    by (vm_compute; discriminate).
  split; [ exact Ha | ].
  destruct (handleReconnect_backoff connected_client 3 Ha H0 Hk)
    as (_ & Ht & _).
  rewrite Ht. vm_compute. reflexivity.
Defined.


(* ================================================================== *)
(** * server.ts: the response streams *)
(* ================================================================== *)

(** Takes a handler apart into its steps, for a relation [R] between the
    state before and the state after; [leaf] proves the steps that change
    the state. *)
Ltac frame_step leaf :=
  lazymatch goal with
  | |- relates _ (BTCPServer.ret _) => apply relates_ret; exact _
  | |- relates _ (BTCPServer.gets _) => apply relates_gets; exact _
  | |- relates _ (BTCPServer.throw _) => apply relates_throw; exact _
  | |- relates _ (BTCPServer.lift _) => apply relates_lift; exact _
  | |- relates _ (BTCPServer.deref _) => apply relates_gets; exact _
  | |- relates _ (BTCPServer.writableEnded _) => apply relates_gets; exact _
  | |- relates _ (BTCPServer.for_of _ _) =>
      apply relates_for_of; [ exact _ | intros ? ]
  | |- relates _ (BTCPServer.map_M _ _) =>
      apply relates_map_M; [ exact _ | intros ? ]
  | |- relates _ (BTCPServer.try_catch _ _) =>
      apply relates_try_catch; [ exact _ | | intros ? ]
  | |- relates _ (mbind _ _) =>
      apply relates_bind; [ exact _ | | intros ? ]
  | |- relates _ (match ?x with _ => _ end) => destruct x
  | |- relates _ _ => leaf
  end.

Section Streams.
Context `{JsEngine}.
Import Protocol BTCPServer.

#[export] Instance appends_preorder : PreOrder appends.
Proof.
  split.
  - intros st res r Hr. exists r. split; [ exact Hr | ]. split; [ | auto ].
    reflexivity.
  - intros st1 st2 st3 H12 H23 res r Hr.
    destruct (H12 res r Hr) as (r2 & Hr2 & Hp2 & He2).
    destruct (H23 res r2 Hr2) as (r3 & Hr3 & Hp3 & He3).
    exists r3. split; [ exact Hr3 | ]. split.
    + etransitivity; eassumption.
    + intros He. specialize (He2 He). subst r2. auto.
Qed.

Lemma appends_same (st st' : BTCPServer.t) :
  responses st' = responses st -> appends st st'.
Proof.
  intros E res r Hr. exists r. rewrite E.
  split; [ exact Hr | ]. split; [ reflexivity | auto ].
Qed.

Lemma appends_modify (f : BTCPServer.t -> BTCPServer.t) :
  (forall st, responses (f st) = responses st) ->
  relates appends (modify f).
Proof. intros Hf st. apply appends_same, Hf. Qed.

Lemma appends_Date_now : relates appends Date_now.
Proof. intros st. now apply appends_same. Qed.

Lemma appends_write (res : nat) (chunk : string) (st : BTCPServer.t) :
  (forall r, responses st !! res = Some r ->
             ServerResponse.writableEnded r = false) ->
  appends st
    (with_responses (alter (ServerResponse.write chunk) res (responses st))
       st).
Proof.
  intros Hopen res' r Hr. cbn.
  destruct (decide (res' = res)) as [-> | Hne].
  - rewrite list_lookup_alter_eq, Hr. cbn. eexists. split; [ reflexivity | ].
    split; [ now exists [chunk] | ].
    intros He. rewrite (Hopen r Hr) in He. discriminate.
  - rewrite list_lookup_alter_ne by congruence. exists r.
    split; [ exact Hr | ]. split; [ reflexivity | auto ].
Qed.

Lemma appends_push (res : nat) (message : JsValue) (st : BTCPServer.t) :
  appends st (push res message st).
Proof.
  unfold push. destruct (responses st !! res) as [r | ] eqn:Hr;
    [ | reflexivity ].
  destruct (ServerResponse.writableEnded r) eqn:He; [ reflexivity | ].
  apply appends_write. intros r' Hr'. congruence.
Qed.

Lemma appends_sendToClient (client : SSEClient.t) (message : JsValue) :
  relates appends (sendToClient client message).
Proof. intros st. rewrite sendToClient_run. apply appends_push. Qed.

Lemma appends_keepAlive (res : nat) : relates appends (keepAlive res).
Proof.
  intros st. unfold keepAlive, writableEnded, response_write. unfold_M.
  cbn. destruct (responses st !! res) as [r | ] eqn:Hr; cbn;
    [ | reflexivity ].
  destruct (ServerResponse.writableEnded r) eqn:He; cbn; [ reflexivity | ].
  apply appends_write. intros r' Hr'. congruence.
Qed.

Lemma appends_response_end (res : nat) : relates appends (response_end res).
Proof.
  intros st res' r Hr. unfold response_end, modify. cbn.
  destruct (decide (res' = res)) as [-> | Hne].
  - rewrite list_lookup_alter_eq, Hr. cbn. eexists. split; [ reflexivity | ].
    split; [ reflexivity | ].
    intros He. destruct r as [w e]. cbn in *. now subst e.
  - rewrite list_lookup_alter_ne by congruence. exists r.
    split; [ exact Hr | ]. split; [ reflexivity | auto ].
Qed.

Lemma appends_new_response : relates appends new_response.
Proof.
  intros st res r Hr. unfold new_response. unfold_M. cbn.
  exists r. split; [ | split; [ reflexivity | auto ] ].
  apply lookup_app_l_Some, Hr.
Qed.

End Streams.

(** The steps of the handlers that [appends] relates. *)
Ltac appends_leaf :=
  idtac;
  lazymatch goal with
  | |- relates _ (BTCPServer.sendToClient _ _) => apply appends_sendToClient
  | |- relates _ BTCPServer.Date_now => apply appends_Date_now
  | |- relates _ (BTCPServer.response_end _) => apply appends_response_end
  | |- relates _ BTCPServer.new_response => apply appends_new_response
  | |- relates _ (BTCPServer.keepAlive _) => apply appends_keepAlive
  | |- relates _ (BTCPServer.modify _) =>
      apply appends_modify; intros ?; reflexivity
  end.

Ltac appends_tac := repeat frame_step appends_leaf.

Section StreamsOfHandlers.
Context `{JsEngine}.
Import Protocol BTCPServer.

Lemma appends_handleSSE (sessionId clientType : option string) :
  relates appends (handleSSE sessionId clientType).
Proof.
  unfold handleSSE, handleBrowserConnect, handleAgentConnect,
    generateMessageId, new_session, update_session.
  appends_tac.
Qed.

Lemma appends_routeMessage (sessionId : string) (message : JsValue)
    (clientId : option string) :
  relates appends (routeMessage sessionId message clientId).
Proof.
  unfold routeMessage, findSenderClient, handleToolResponse,
    handleToolsRegister, handleToolsList, handleToolsCall,
    handleSessionJoin, handlePing, generateMessageId, update_session,
    setTimeout.
  appends_tac.
Qed.

Lemma appends_handleMessage (sessionId clientId : option string)
    (body : string) :
  relates appends (handleMessage sessionId clientId body).
Proof.
  unfold handleMessage.
  destruct (negb _); [ apply relates_ret; exact _ | ].
  apply relates_try_catch; [ exact _ | | intros e; apply relates_ret; exact _ ].
  apply relates_bind; [ exact _ | apply relates_lift; exact _ | intros m ].
  apply relates_bind;
    [ exact _ | apply appends_routeMessage | intros _ ].
  apply relates_ret; exact _.
Qed.

Lemma appends_handleDisconnect (clientId : string) :
  relates appends (handleDisconnect clientId).
Proof. unfold handleDisconnect, update_session. appends_tac. Qed.

Lemma appends_run_timeout (t : Timeout) : relates appends (run_timeout t).
Proof.
  unfold run_timeout, handleToolsList_timeout, handleToolsCall_timeout,
    update_session.
  appends_tac.
Qed.

Lemma appends_stop : relates appends stop.
Proof. unfold stop. appends_tac. Qed.

Lemma appends_step (ev : Event) (st : BTCPServer.t) :
  appends st (step ev st).
Proof.
  destruct ev as [ sid ty | sid cid body | cid | n | cid ]; cbn.
  - apply appends_handleSSE.
  - apply appends_handleMessage.
  - apply appends_handleDisconnect.
  - destruct (timeouts st !! n) as [t | ]; [ | reflexivity ].
    etransitivity; [ | apply appends_run_timeout ].
    now apply appends_same.
  - destruct (JsMap.get cid (keepAliveIntervals st)); [ | reflexivity ].
    apply appends_keepAlive.
Qed.

Lemma appends_run (evs : list Event) (st : BTCPServer.t) :
  appends st (run evs st).
Proof.
  revert st. induction evs as [ | ev evs IH ]; intros st; cbn.
  - reflexivity.
  - etransitivity; [ apply appends_step | apply IH ].
Qed.

(** X11.  The relay only appends to a response stream, and never writes
    to one after its end: whatever happens (connections, messages,
    closes, timers, keep-alives), a stream keeps the frames written to
    it, in their order, and a stream that has ended stays ended with
    exactly the frames it had. *)
Theorem streams_append_only (evs : list Event) (st : BTCPServer.t)
    (res : nat) (r : ServerResponse.t) :
  responses st !! res = Some r ->
  exists r',
    responses (run evs st) !! res = Some r'
    /\ (exists frames,
           ServerResponse.written r' = ServerResponse.written r ++ frames)
    /\ (ServerResponse.writableEnded r = true -> r' = r).
Proof.
  intros Hr. destruct (appends_run evs st res r Hr) as (r' & Hr' & Hp & He).
  exists r'. split; [ exact Hr' | ]. split; [ exact Hp | exact He ].
Qed.

End StreamsOfHandlers.

Lemma streams_append_only_witness :
  exists r r' : ServerResponse.t,
    BTCPServer.responses relay_joined !! 0 = Some r
    /\ BTCPServer.responses
         (BTCPServer.run (H := MiniEngine.engine)
            [caller_posts call_echo; BTCPServer.Close provider_id]
            relay_joined) !! 0 = Some r'
    /\ exists frames,
         ServerResponse.written r' = ServerResponse.written r ++ frames.
Proof.
  assert (Hr : { r | BTCPServer.responses relay_joined !! 0 = Some r })
    by (vm_compute; eexists; reflexivity).
  destruct Hr as [r Hr].
  destruct (streams_append_only (H := MiniEngine.engine)
              [caller_posts call_echo; BTCPServer.Close provider_id]
              relay_joined 0 r Hr)
    as (r' & Hr' & Hframes & _).
  exists r, r'. split; [ exact Hr | ]. split; [ exact Hr' | exact Hframes ].
Defined.


(* ================================================================== *)
(** * server.ts: what a POST is answered, and requests without a
      provider *)
(* ================================================================== *)

Section Posts.
Context `{JsEngine}.
Import Protocol BTCPServer.

(** X12.  [handleMessage] answers every POST, with 200 or with 400, and
    never throws.  Without a session id, and for a body that
    [parseMessage] rejects, the answer is 400 and the relay is left as
    it was; the answer is 200 exactly when the body was parsed and
    [routeMessage] returned, and 400 with the message of the error when
    a handler threw. *)
Theorem handleMessage_always_replies (sessionId clientId : option string)
    (body : string) (st : BTCPServer.t) :
  exists reply st',
    handleMessage sessionId clientId body st = (Normal reply, st')
    /\ (str_truthy sessionId = false ->
        st' = st
        /\ reply = {| statusCode := 400;
                      body :=
                        JObj [("error", JStr "sessionId is required")] |})
    /\ (str_truthy sessionId = true ->
        match parseMessage body with
        | Throw error =>
            st' = st
            /\ reply
               = {| statusCode := 400;
                    body :=
                      JObj [("error",
                             JStr match error with
                                  | ThrownError e => err_message e
                                  | ThrownValue _ => "Invalid message"
                                  end)] |}
        | Normal message =>
            match routeMessage (default EmptyString sessionId) message
                    clientId st with
            | (Normal _, st1) =>
                st' = st1
                /\ reply = {| statusCode := 200;
                              body :=
                                JObj [("success", JBool true)] |}
            | (Throw error, st1) =>
                st' = st1
                /\ reply
                   = {| statusCode := 400;
                        body :=
                          JObj [("error",
                                 JStr match error with
                                      | ThrownError e => err_message e
                                      | ThrownValue _ => "Invalid message"
                                      end)] |}
            end
        end).
Proof.
  unfold handleMessage.
  destruct (str_truthy sessionId) eqn:Hsid; cbn.
  - unfold try_catch, lift. unfold_M.
    destruct (parseMessage body) as [message | error]; cbn.
    + destruct (routeMessage (default EmptyString sessionId) message
                  clientId st) as [[[] | error] st1]; cbn;
        eexists; eexists; (split; [ reflexivity | ]);
        (split; [ discriminate | ]); intros _; split; reflexivity.
    + eexists; eexists; (split; [ reflexivity | ]);
        (split; [ discriminate | ]); intros _; split; reflexivity.
  - eexists; eexists. split; [ reflexivity | ].
    split; [ intros _; split; reflexivity | discriminate ].
Qed.



Lemma deref_run (r : nat) (st : BTCPServer.t) :
  deref r st = (Normal (session_at r st), st).
Proof. reflexivity. Qed.

(** X14.  A [tools/call] for a session that does not exist or has no
    provider is not forwarded.  The sender (without one, the first caller
    of the session) is pushed an error response with the session code
    -32002 and the id of the request; no entry is filed, no timer is
    armed and no id is used up. *)
Theorem tools_call_without_provider (st : BTCPServer.t)
    (session : option nat) (request : JsValue)
    (senderClient : option SSEClient.t) :
  match session with
  | Some r => Session.browserClient (session_at r st) = None
  | None => True
  end ->
  let st' :=
    push_to (answered_client st session senderClient)
      (JObj [("jsonrpc", JStr "2.0"); ("id", js_prop request "id");
             ("error",
              JObj [("code", JNum (-32002));
                    ("message",
                     JStr "No browser client connected to this session")])])
      st in
  handleToolsCall session request senderClient st = (Normal tt, st')
  /\ sessionObjects st' = sessionObjects st
  /\ timeouts st' = timeouts st
  /\ messageCounter st' = messageCounter st.
Proof.
  intros Hnone. cbv zeta. split.
  - unfold handleToolsCall, answered_client, push_to, session_at in *.
    unfold deref. unfold_M.
    destruct session as [r | ]; cbn.
    + destruct (default Session.none (sessionObjects st !! r))
        as [sid bc agents tools pend created] eqn:Es.
      cbn in Hnone. subst bc. cbn.
      destruct senderClient as [sender | ];
        [ now rewrite sendToClient_run | ].
      destruct agents as [ | [k agent] agents ]; cbn;
        [ reflexivity | now rewrite sendToClient_run ].
    + destruct senderClient as [sender | ];
        [ now rewrite sendToClient_run | reflexivity ].
  - unfold push_to.
    destruct (answered_client st session senderClient) as [client | ];
      [ | now repeat split ].
    match goal with
    | |- context [push ?res ?m st] =>
        pose proof (push_frame res m st) as F
    end.
    split; [ apply F | ]. split; apply F.
Qed.

(** X15.  A [tools/list] is answered by the relay itself when there is
    no provider to ask: for a session that does not exist the sender
    gets an empty tool list, and for a session without a provider the
    sender (without one, the first caller) gets the tool list that was
    registered last.  The response has the id of the request, and
    nothing is filed or scheduled. *)
Theorem tools_list_without_provider (st : BTCPServer.t)
    (session : option nat) (request : JsValue)
    (senderClient : option SSEClient.t) :
  match session with
  | Some r => Session.browserClient (session_at r st) = None
  | None => True
  end ->
  handleToolsList session request senderClient st
  = (Normal tt,
     match session with
     | None =>
         push_to senderClient
           (JObj [("jsonrpc", JStr "2.0"); ("id", js_prop request "id");
                  ("result", JObj [("tools", JArr [])])]) st
     | Some r =>
         push_to (answered_client st session senderClient)
           (JObj [("jsonrpc", JStr "2.0"); ("id", js_prop request "id");
                  ("result",
                   JObj [("tools", Session.tools (session_at r st))])]) st
     end).
Proof.
  intros Hnone.
  unfold handleToolsList, answered_client, push_to, session_at in *.
  unfold deref. unfold_M.
  destruct session as [r | ]; cbn.
  - destruct (default Session.none (sessionObjects st !! r))
      as [sid bc agents tools pend created] eqn:Es.
    cbn in Hnone. subst bc. cbn.
    destruct senderClient as [sender | ];
      [ now rewrite sendToClient_run | ].
    destruct agents as [ | [k agent] agents ]; cbn;
      [ reflexivity | now rewrite sendToClient_run ].
  - destruct senderClient as [sender | ];
      [ now rewrite sendToClient_run | reflexivity ].
Qed.

End Posts.


Lemma tools_call_without_provider_witness :
  Session.browserClient (session_at 0 relay_provider_gone) = None
  /\ fst (BTCPServer.handleToolsCall (H := MiniEngine.engine) (Some 0)
            call_echo None relay_provider_gone)
     = Normal tt
  /\ BTCPServer.timeouts
       (snd (BTCPServer.handleToolsCall (H := MiniEngine.engine) (Some 0)
               call_echo None relay_provider_gone))
     = BTCPServer.timeouts relay_provider_gone.
Proof.
  assert (Hb : Session.browserClient (session_at 0 relay_provider_gone)
               = None) by (vm_compute; reflexivity).
  split; [ exact Hb | ].
  destruct (tools_call_without_provider (H := MiniEngine.engine)
              relay_provider_gone (Some 0) call_echo None Hb)
    as (Hrun & _ & Ht & _).
  rewrite Hrun. split; [ reflexivity | exact Ht ].
Defined.

Lemma tools_list_without_provider_witness :
  Session.browserClient (session_at 0 relay_provider_gone) = None
  /\ fst (BTCPServer.handleToolsList (H := MiniEngine.engine) (Some 0)
            (Protocol.createRequest "tools/list" JUndefined (JStr "list-1"))
            (Some caller) relay_provider_gone)
     = Normal tt.
Proof.
  assert (Hb : Session.browserClient (session_at 0 relay_provider_gone)
               = None) by (vm_compute; reflexivity).
  split; [ exact Hb | ].
  rewrite (tools_list_without_provider (H := MiniEngine.engine)
             relay_provider_gone (Some 0)
             (Protocol.createRequest "tools/list" JUndefined (JStr "list-1"))
             (Some caller) Hb).
  reflexivity.
Defined.


(* ================================================================== *)
(** * server.ts: closes, timers and [stop] *)
(* ================================================================== *)

Section Returns.
Context `{JsEngine}.
Import Protocol BTCPServer.

Lemma returns_ret {A} (a : A) : returns (ret a).
Proof. intros st. now exists a. Qed.

Lemma returns_gets {A} (f : BTCPServer.t -> A) : returns (gets f).
Proof. intros st. now eexists. Qed.

Lemma returns_modify (f : BTCPServer.t -> BTCPServer.t) :
  returns (modify f).
Proof. intros st. now exists tt. Qed.

Lemma returns_bind {A B} (m : M A) (k : A -> M B) :
  returns m -> (forall a, returns (k a)) -> returns (m ≫= k).
Proof.
  intros Hm Hk st. unfold_M. destruct (Hm st) as [a Ha].
  destruct (m st) as [[a' | e] st1]; cbn in *; [ | discriminate ].
  apply Hk.
Qed.

Lemma returns_for_of {A} (l : list A) (body : A -> M unit) :
  (forall a, returns (body a)) -> returns (for_of l body).
Proof.
  intros Hb. induction l as [ | a l IH ]; cbn.
  - apply returns_ret.
  - apply returns_bind; [ apply Hb | intros _; exact IH ].
Qed.

Lemma returns_sendToClient (client : SSEClient.t) (message : JsValue) :
  returns (sendToClient client message).
Proof. intros st. rewrite sendToClient_run. now exists tt. Qed.

Lemma ensures_bind (P : BTCPServer.t -> Prop) {A B} (m : M A)
    (k : A -> M B) :
  returns m -> (forall a, ensures P (k a)) -> ensures P (m ≫= k).
Proof.
  intros Hm Hk st. unfold_M. destruct (Hm st) as [a Ha].
  destruct (m st) as [[a' | e] st1]; cbn in *; [ | discriminate ].
  apply Hk.
Qed.

Lemma ensures_modify (P : BTCPServer.t -> Prop)
    (f : BTCPServer.t -> BTCPServer.t) :
  (forall st, P (f st)) -> ensures P (modify f).
Proof. intros Hf st. apply Hf. Qed.

Lemma returns_tt (m : M unit) (st : BTCPServer.t) :
  returns m -> fst (m st) = Normal tt.
Proof. intros Hm. destruct (Hm st) as [[] Ha]. exact Ha. Qed.

End Returns.

(** Takes a handler apart into steps that return. *)
Ltac returns_step :=
  lazymatch goal with
  | |- returns (BTCPServer.ret _) => apply returns_ret
  | |- returns (BTCPServer.gets _) => apply returns_gets
  | |- returns (BTCPServer.deref _) => apply returns_gets
  | |- returns (BTCPServer.writableEnded _) => apply returns_gets
  | |- returns (BTCPServer.modify _) => apply returns_modify
  | |- returns (BTCPServer.update_session _ _) => apply returns_modify
  | |- returns (BTCPServer.response_end _) => apply returns_modify
  | |- returns (BTCPServer.response_write _ _) => apply returns_modify
  | |- returns (BTCPServer.sendToClient _ _) => apply returns_sendToClient
  | |- returns (BTCPServer.for_of _ _) => apply returns_for_of; intros ?
  | |- returns (mbind _ _) => apply returns_bind; [ | intros ? ]
  | |- returns (match ?x with _ => _ end) => destruct x
  end.

Ltac returns_tac := repeat returns_step.

Section Closes.
Context `{JsEngine}.
Import Protocol BTCPServer.

Lemma returns_handleDisconnect (clientId : string) :
  returns (handleDisconnect clientId).
Proof. unfold handleDisconnect. returns_tac. Qed.

Lemma returns_run_timeout (t : Timeout) : returns (run_timeout t).
Proof.
  unfold run_timeout, handleToolsList_timeout, handleToolsCall_timeout.
  returns_tac.
Qed.

Lemma returns_keepAlive (res : nat) : returns (keepAlive res).
Proof. unfold keepAlive. returns_tac. Qed.

Lemma returns_stop : returns stop.
Proof. unfold stop. returns_tac. Qed.

Lemma returns_handleToolResponse (session : option nat)
    (response : JsValue) :
  returns (handleToolResponse session response).
Proof. unfold handleToolResponse. returns_tac. Qed.

(** X16.  The callbacks that nothing catches do not throw: the close
    handler of an event stream, the timers of the forwarded requests and
    the keep-alive interval return from every state, and so does
    [stop]. *)
Theorem callbacks_never_throw (st : BTCPServer.t) :
  (forall clientId, fst (handleDisconnect clientId st) = Normal tt)
  /\ (forall t, fst (run_timeout t st) = Normal tt)
  /\ (forall res, fst (keepAlive res st) = Normal tt)
  /\ fst (stop st) = Normal tt.
Proof.
  split; [ intros clientId; apply returns_tt, returns_handleDisconnect | ].
  split; [ intros t; apply returns_tt, returns_run_timeout | ].
  split; [ intros res; apply returns_tt, returns_keepAlive | ].
  apply returns_tt, returns_stop.
Qed.

(** X17.  Closing is idempotent.  After the close handler has run for a
    client id, the id names no client, and a second close of that id,
    like the close of an id that names no client, changes nothing. *)
Theorem handleDisconnect_idempotent (clientId : string)
    (st : BTCPServer.t) :
  let st1 := snd (handleDisconnect clientId st) in
  JsMap.get clientId (clients st1) = None
  /\ handleDisconnect clientId st1 = (Normal tt, st1)
  /\ (JsMap.get clientId (clients st) = None -> st1 = st).
Proof.
  cbv zeta.
  assert (Hgone :
    JsMap.get clientId (clients (snd (handleDisconnect clientId st)))
    = None).
  { unfold handleDisconnect. unfold mbind at 1, M_bind, bind.
    unfold gets at 1. cbn [snd fst].
    destruct (JsMap.get clientId (clients st)) as [client | ] eqn:Hc;
      [ | exact Hc ].
    clear Hc.
    lazymatch goal with
    | |- JsMap.get clientId (clients (snd (?m st))) = None =>
        generalize st;
        change (ensures
                  (fun st => JsMap.get clientId (clients st) = None) m)
    end.
    apply ensures_bind; [ returns_tac | intros interval ].
    apply ensures_bind; [ returns_tac | intros _ ].
    apply ensures_bind; [ returns_tac | intros session ].
    apply ensures_bind; [ returns_tac | intros _ ].
    apply ensures_modify. intros st0. apply JsMap_get_delete_eq. }
  split; [ exact Hgone | ]. split.
  - unfold handleDisconnect at 1. unfold_M. cbn. now rewrite Hgone.
  - intros Hc. unfold handleDisconnect. unfold_M. cbn. now rewrite Hc.
Qed.

End Closes.


(* ================================================================== *)
(** * server.ts: leaving, settling and joining *)
(* ================================================================== *)

Section Leaving.
Context `{JsEngine}.
Import Protocol BTCPServer.

Lemma push_all_frame (l : list SSEClient.t) (message : JsValue)
    (st : BTCPServer.t) :
  sessions (push_all l message st) = sessions st
  /\ clients (push_all l message st) = clients st
  /\ sessionObjects (push_all l message st) = sessionObjects st
  /\ timeouts (push_all l message st) = timeouts st
  /\ keepAliveIntervals (push_all l message st) = keepAliveIntervals st.
Proof.
  revert st. induction l as [ | agent l IH ]; intros st; cbn;
    [ now repeat split | ].
  unfold push_all in IH.
  destruct (IH (push (SSEClient.response agent) message st))
    as (-> & -> & -> & -> & ->).
  pose proof (push_frame (SSEClient.response agent) message st) as F.
  split; [ apply F | ]. split; [ apply F | ]. split; [ apply F | ].
  split; apply F.
Qed.

Lemma push_responses (res : nat) (message : JsValue)
    (st1 st2 : BTCPServer.t) :
  responses st1 = responses st2 ->
  responses (push res message st1) = responses (push res message st2).
Proof.
  intros E. unfold push. rewrite E.
  destruct (responses st2 !! res) as [r | ]; [ | exact E ].
  destruct (ServerResponse.writableEnded r); [ exact E | reflexivity ].
Qed.

Lemma push_all_responses (l : list SSEClient.t) (message : JsValue)
    (st1 st2 : BTCPServer.t) :
  responses st1 = responses st2 ->
  responses (push_all l message st1) = responses (push_all l message st2).
Proof.
  revert st1 st2. induction l as [ | agent l IH ]; intros st1 st2 E;
    [ exact E | ].
  cbn. apply IH, push_responses, E.
Qed.

(** X18.  When the event stream of a session's provider closes, the
    session loses its provider and every caller of the session is pushed
    one [browser/disconnected] notification.  The session stays in the
    sessions map while it has callers and is deleted otherwise; the
    client and its keep-alive interval are removed.  The entries of the
    requests in flight stay filed, for their timers to settle. *)
Theorem provider_disconnect (st : BTCPServer.t) (clientId : string)
    (client : SSEClient.t) (r : nat) (s : Session.t)
    (browserClient : SSEClient.t) :
  JsMap.get clientId (clients st) = Some client ->
  JsMap.get (SSEClient.sessionId client) (sessions st) = Some r ->
  sessionObjects st !! r = Some s ->
  Session.browserClient s = Some browserClient ->
  SSEClient.id browserClient = clientId ->
  exists st' : BTCPServer.t,
    handleDisconnect clientId st = (Normal tt, st')
    /\ sessionObjects st'
       = <[r := Session.with_browserClient None s]> (sessionObjects st)
    /\ Session.pendingResponses (session_at r st')
       = Session.pendingResponses s
    /\ responses st'
       = responses
           (push_all (JsMap.values (Session.agentClients s))
              (JObj [("jsonrpc", JStr "2.0");
                     ("method", JStr "browser/disconnected");
                     ("params", JObj [("sessionId", JStr (Session.id s))])])
              st)
    /\ sessions st'
       = (if (JsMap.size (Session.agentClients s) =? 0)%nat
          then JsMap.delete (SSEClient.sessionId client) (sessions st)
          else sessions st)
    /\ clients st' = JsMap.delete clientId (clients st)
    /\ JsMap.get clientId (keepAliveIntervals st') = None
    /\ timeouts st' = timeouts st.
Proof.
  intros Hc Hr Hs Hb Hid.
  assert (Hlt : r < length (sessionObjects st))
    by now apply lookup_lt_Some in Hs.
  assert (Heq : String.eqb (SSEClient.id browserClient) clientId = true)
    by now apply String.eqb_eq.
  unfold handleDisconnect, update_session, deref, JsMap.size. unfold_M. cbn.
  rewrite Hc. cbn.
  destruct (JsMap.get clientId (keepAliveIntervals st)) eqn:Hk; cbn;
    rewrite Hr; cbn; rewrite Hs; cbn; rewrite Hb, Heq; cbn;
    rewrite (alter_lookup_insert _ _ _ _ Hs);
    rewrite (list_lookup_insert_eq _ _ _ Hlt); cbn;
    rewrite for_of_sendToClient_run; cbn;
    rewrite push_all_sessionObjects; cbn;
    rewrite (list_lookup_insert_eq _ _ _ Hlt); cbn;
    destruct (length (Session.agentClients s) =? 0)%nat; cbn;
    (eexists; split; [ reflexivity | ]);
    match goal with
    | |- context [push_all ?l ?m ?st0] =>
        destruct (push_all_frame l m st0) as (Fs & Fc & Fo & Ft & Fk)
    end; cbn in Fs, Fc, Fo, Ft, Fk.
  all: unfold session_at; cbn; rewrite ?Fo, ?Fs, ?Fc, ?Ft, ?Fk; cbn.
  all: rewrite ?(list_lookup_insert_eq _ _ _ Hlt); cbn.
  all: split; [ reflexivity | ].
  all: split; [ reflexivity | ].
  all: split; [ apply push_all_responses; reflexivity | ].
  all: split; [ reflexivity | ].
  all: split; [ reflexivity | ].
  all: split; [ first [ apply JsMap_get_delete_eq | exact Hk ]
              | reflexivity ].
Qed.

End Leaving.

Lemma provider_disconnect_witness :
  JsMap.get provider_id (BTCPServer.clients relay_joined) = Some provider
  /\ Session.browserClient (session_at 0 relay_joined) = Some provider
  /\ exists st' : BTCPServer.t,
       BTCPServer.handleDisconnect (H := MiniEngine.engine) provider_id
         relay_joined
       = (Normal tt, st')
       /\ Session.browserClient (session_at 0 st') = None
       /\ BTCPServer.sessions st' = BTCPServer.sessions relay_joined.
Proof.
  assert (Hc : JsMap.get provider_id (BTCPServer.clients relay_joined)
               = Some provider) by (vm_compute; reflexivity).
  assert (Hr : JsMap.get (SSEClient.sessionId provider)
                 (BTCPServer.sessions relay_joined) = Some 0)
    by (vm_compute; reflexivity).
  assert (Hs : BTCPServer.sessionObjects relay_joined !! 0
               = Some (session_at 0 relay_joined))
    by (vm_compute; reflexivity).
  assert (Hb : Session.browserClient (session_at 0 relay_joined)
               = Some provider) by (vm_compute; reflexivity).
  assert (Hi : SSEClient.id provider = provider_id) by reflexivity.
  split; [ exact Hc | ]. split; [ exact Hb | ].
  destruct (provider_disconnect (H := MiniEngine.engine) relay_joined
              provider_id provider 0 _ provider Hc Hr Hs Hb Hi)
    as (st' & Hrun & Hobj & _ & _ & Hsessions & _).
  exists st'. split; [ exact Hrun | ]. split.
  - unfold session_at at 1. rewrite Hobj.
    rewrite list_lookup_insert_eq
      by (apply lookup_lt_Some in Hs; exact Hs).
    reflexivity.
  - rewrite Hsessions. vm_compute. reflexivity.
Defined.


Section Settling.
Context `{JsEngine}.
Import Protocol BTCPServer.

Lemma settle_forwarded_gone (r : nat) (key : string) (by_ : Settles)
    (st : BTCPServer.t) (s : Session.t) :
  settles_key key by_ = true ->
  sessionObjects st !! r = Some s ->
  Session.pendingResponses s !! key = None ->
  settle_forwarded r key by_ st = (Normal tt, st).
Proof.
  intros Hk Hs Hp.
  destruct by_ as [response | kind]; cbn [settle_forwarded settles_key] in *.
  - apply String.eqb_eq in Hk.
    apply (handleToolResponse_unknown st r s); [ exact Hs | ].
    now rewrite Hk.
  - now apply (timeout_after_response st _ s).
Qed.

(** X19.  A forwarded request is settled once at the relay.  While its
    entry is filed, the first of the provider's response and the timer
    removes the entry and pushes the sender, if it is in the caller map,
    one message with the original id: the response, or the time-out
    answer.  Whatever comes later for that internal id, a second
    response or the timer, finds no entry and changes nothing. *)
Theorem forwarded_request_settles_once (st : BTCPServer.t) (r : nat)
    (s : Session.t) (key : string) (pending : PendingResponse.t)
    (first later : Settles) :
  sessionObjects st !! r = Some s ->
  Session.pendingResponses s !! key = Some pending ->
  settles_key key first = true ->
  settles_key key later = true ->
  let caller :=
    JsMap.get (PendingResponse.agentId pending) (Session.agentClients s) in
  let answer :=
    match first with
    | ByResponse response =>
        js_spread_set response "id" (PendingResponse.originalId pending)
    | ByTimer ToolsCallTimeout =>
        createErrorResponse (PendingResponse.originalId pending) (-32001)
          "Tool execution timeout" JUndefined
    | ByTimer ToolsListTimeout =>
        createResponse (PendingResponse.originalId pending)
          (JObj [("tools", Session.tools s)])
    end in
  exists st1 : BTCPServer.t,
    settle_forwarded r key first st = (Normal tt, st1)
    /\ sessionObjects st1
       = <[r := Session.with_pendingResponses
                  (delete key (Session.pendingResponses s)) s]>
           (sessionObjects st)
    /\ responses st1 = responses (push_to caller answer st)
    /\ settle_forwarded r key later st1 = (Normal tt, st1).
Proof.
  intros Hs Hp Hfirst Hlater. cbv zeta.
  assert (Hlt : r < length (sessionObjects st))
    by now apply lookup_lt_Some in Hs.
  assert (Hrun : exists st1,
    settle_forwarded r key first st = (Normal tt, st1)
    /\ sessionObjects st1
       = <[r := Session.with_pendingResponses
                  (delete key (Session.pendingResponses s)) s]>
           (sessionObjects st)
    /\ responses st1
       = responses
           (push_to
              (JsMap.get (PendingResponse.agentId pending)
                 (Session.agentClients s))
              match first with
              | ByResponse response =>
                  js_spread_set response "id"
                    (PendingResponse.originalId pending)
              | ByTimer ToolsCallTimeout =>
                  createErrorResponse (PendingResponse.originalId pending)
                    (-32001) "Tool execution timeout" JUndefined
              | ByTimer ToolsListTimeout =>
                  createResponse (PendingResponse.originalId pending)
                    (JObj [("tools", Session.tools s)])
              end st)).
  { destruct first as [response | [ | ]];
      cbn [settle_forwarded settles_key] in Hfirst |- *.
    - apply String.eqb_eq in Hfirst. rewrite <- Hfirst in Hp.
      rewrite (handleToolResponse_run st r s response pending Hs Hp).
      rewrite Hfirst. unfold push_to.
      destruct (JsMap.get (PendingResponse.agentId pending)
                  (Session.agentClients s)) as [agent | ];
        eexists; (split; [ reflexivity | ]);
        rewrite ?push_sessionObjects; (split; [ reflexivity | ]);
        [ now apply push_responses | reflexivity ].
    - unfold run_timeout. cbn [timeout_kind timeout_session
                                 timeout_internalId].
      rewrite (handleToolsList_timeout_run st r s key pending Hs Hp).
      unfold push_to.
      destruct (JsMap.get (PendingResponse.agentId pending)
                  (Session.agentClients s)) as [agent | ];
        eexists; (split; [ reflexivity | ]);
        rewrite ?push_sessionObjects; (split; [ reflexivity | ]);
        [ now apply push_responses | reflexivity ].
    - unfold run_timeout. cbn [timeout_kind timeout_session
                                 timeout_internalId].
      rewrite (handleToolsCall_timeout_run st r s key pending Hs Hp).
      unfold push_to.
      destruct (JsMap.get (PendingResponse.agentId pending)
                  (Session.agentClients s)) as [agent | ];
        eexists; (split; [ reflexivity | ]);
        rewrite ?push_sessionObjects; (split; [ reflexivity | ]);
        [ now apply push_responses | reflexivity ]. }
  destruct Hrun as (st1 & Hrun & Hobjs & Hresp).
  exists st1. split; [ exact Hrun | ]. split; [ exact Hobjs | ].
  split; [ exact Hresp | ].
  apply (settle_forwarded_gone r key later st1
           (Session.with_pendingResponses
              (delete key (Session.pendingResponses s)) s));
    [ exact Hlater | | apply lookup_delete_eq ].
  rewrite Hobjs. now apply list_lookup_insert_eq.
Qed.

End Settling.

Lemma forwarded_request_settles_once_witness :
  exists (pending : PendingResponse.t) (st1 : BTCPServer.t),
    Session.pendingResponses (session_at 0 relay_call_pending) !! internal_id
    = Some pending
    /\ settle_forwarded (H := MiniEngine.engine) 0 internal_id
         (ByResponse
            (Protocol.createResponse (JStr internal_id)
               (JObj [("content", JArr [])])))
         relay_call_pending
       = (Normal tt, st1)
    /\ settle_forwarded (H := MiniEngine.engine) 0 internal_id
         (ByTimer BTCPServer.ToolsCallTimeout) st1
       = (Normal tt, st1).
Proof.
  assert (Hs : BTCPServer.sessionObjects relay_call_pending !! 0
               = Some (session_at 0 relay_call_pending))
    by (vm_compute; reflexivity).
  assert (Hp : { pending |
                 Session.pendingResponses (session_at 0 relay_call_pending)
                 !! internal_id = Some pending })
    by (vm_compute; eexists; reflexivity).
  destruct Hp as [pending Hp].
  assert (Hfirst :
    settles_key internal_id
      (ByResponse
         (Protocol.createResponse (JStr internal_id)
            (JObj [("content", JArr [])]))) = true)
    by (vm_compute; reflexivity).
  assert (Hlater :
    settles_key internal_id
      (ByTimer BTCPServer.ToolsCallTimeout) = true)
    by reflexivity.
  destruct (forwarded_request_settles_once (H := MiniEngine.engine)
              relay_call_pending 0 _ internal_id pending _ _
              Hs Hp Hfirst Hlater)
    as (st1 & Hrun & _ & _ & Hafter).
  exists pending, st1.
  split; [ exact Hp | ]. split; [ exact Hrun | exact Hafter ].
Defined.


(* ================================================================== *)
(** * server.ts: connecting agents, and a registration without tools *)
(* ================================================================== *)

Section Agents.
Context `{JsEngine}.
Import Protocol BTCPServer.

(** [map_M] over a function that reads the state and may throw. *)
Lemma map_M_reads {A B} (f : A -> M B) (g : A -> option B) (e : Thrown)
    (l : list A) (st : BTCPServer.t) :
  (forall a, f a st = match g a with
                      | Some b => (Normal b, st)
                      | None => (Throw e, st)
                      end) ->
  map_M f l st
  = match mapM g l with
    | Some bs => (Normal bs, st)
    | None => (Throw e, st)
    end.
Proof.
  intros Hf. induction l as [ | a l IH ]; [ reflexivity | ].
  cbn [map_M mapM]. unfold mbind at 1, M_bind, bind. rewrite Hf.
  destruct (g a) as [b | ]; cbn; [ | reflexivity ].
  unfold mbind at 1, M_bind, bind. rewrite IH.
  now destruct (mapM g l).
Qed.

Lemma handleAgentConnect_run (client : SSEClient.t) (st : BTCPServer.t) :
  handleAgentConnect client st
  = match mapM (agent_listing st)
            (List.filter (has_provider st) (sessions st)) with
    | Some listed =>
        (Normal tt,
         push (SSEClient.response client)
           (createResponse (JStr "sessions")
              (JObj [("sessions", JArr listed)])) st)
    | None =>
        (Throw (ThrownError
                  (new_TypeError "Cannot read properties of undefined")),
         st)
    end.
Proof.
  unfold handleAgentConnect. unfold mbind at 1, M_bind, bind.
  unfold gets at 1. cbn [fst snd].
  replace (List.filter _ (JsMap.entries (sessions st)))
    with (List.filter (has_provider st) (sessions st)).
  2: { apply List.filter_ext. now intros [id r]. }
  unfold mbind at 1, M_bind, bind.
  rewrite (map_M_reads _ (agent_listing st)
             (ThrownError
                (new_TypeError "Cannot read properties of undefined"))).
  2: { intros [id r]. unfold agent_listing, session_at, deref. unfold_M.
       cbn.
       now destruct (js_length
                       (Session.tools
                          (default Session.none (sessionObjects st !! r)))). }
  destruct (mapM (agent_listing st)
              (List.filter (has_provider st) (sessions st)));
    [ apply sendToClient_run | reflexivity ].
Qed.

Lemma listing_same (st1 st2 : BTCPServer.t) :
  sessionObjects st1 = sessionObjects st2 ->
  sessions st1 = sessions st2 ->
  mapM (agent_listing st1) (List.filter (has_provider st1) (sessions st1))
  = mapM (agent_listing st2) (List.filter (has_provider st2) (sessions st2)).
Proof.
  intros Eo Es. rewrite Es.
  rewrite (List.filter_ext (has_provider st1) (has_provider st2)).
  2: { intros entry. unfold has_provider, session_at. now rewrite Eo. }
  apply mapM_ext. intros entry. unfold agent_listing, session_at.
  now rewrite Eo.
Qed.

(** [handleSSE] for a client that is no browser. *)
Lemma handleSSE_agent_run (sessionId clientType : option string)
    (st : BTCPServer.t) :
  str_truthy sessionId = true ->
  String.eqb (default "agent" clientType) "browser" = false ->
  let client :=
    {| SSEClient.id :=
         fst (Protocol.generateMessageId (clock st (ticks st))
                (messageCounter st));
       SSEClient.type := default "agent" clientType;
       SSEClient.response := length (responses st);
       SSEClient.sessionId := default EmptyString sessionId |} in
  let recorded :=
    with_clients (JsMap.set (SSEClient.id client) client (clients st))
      (with_responses (responses st ++ [ServerResponse.fresh])
         (with_messageCounter (messageCounter st + 1)
            (with_ticks (S (ticks st)) st))) in
  handleSSE sessionId clientType st
  = match mapM (agent_listing st)
            (List.filter (has_provider st) (sessions st)) with
    | Some listed =>
        (Normal (SSEOpened client),
         push (length (responses st)) (connected_notice client)
           (with_keepAliveIntervals
              (JsMap.set (SSEClient.id client) (length (responses st))
                 (keepAliveIntervals st))
              (push (length (responses st))
                 (createResponse (JStr "sessions")
                    (JObj [("sessions", JArr listed)])) recorded)))
    | None =>
        (Throw (ThrownError
                  (new_TypeError "Cannot read properties of undefined")),
         recorded)
    end.
Proof.
  intros Hsid Hty. cbv zeta.
  unfold handleSSE. unfold mbind at 1, M_bind, bind.
  rewrite generateMessageId_run. cbn [fst snd]. rewrite Hsid. cbn [negb].
  unfold new_response. unfold_M. cbn.
  rewrite Hty. rewrite handleAgentConnect_run.
  match goal with
  | |- context [mapM (agent_listing ?st1) _] =>
      rewrite (listing_same st1 st) by reflexivity
  end.
  destruct (mapM (agent_listing st)
              (List.filter (has_provider st) (sessions st)))
    as [listed | ]; [ | reflexivity ].
  rewrite sendToClient_run. cbn.
  match goal with
  | |- context [keepAliveIntervals (push ?res ?m ?st0)] =>
      rewrite (proj1 (proj2 (proj2 (proj2 (proj2
                 (push_frame res m st0))))))
  end.
  reflexivity.
Qed.

(** X20.  A client that opens an event stream with a client type other
    than [browser] is an agent: it gets a generated id and is recorded,
    and no session is created or changed for it.  Its stream starts
    with two frames, the list of the sessions that have a provider and
    the [connected] notification.  When reading [tools.length] throws
    for a listed session, [handleSSE] throws: the client stays recorded,
    without a keep-alive interval and with nothing written to it. *)
Theorem agent_connect (sessionId clientType : option string)
    (st : BTCPServer.t) :
  str_truthy sessionId = true ->
  String.eqb (default "agent" clientType) "browser" = false ->
  let client :=
    {| SSEClient.id :=
         fst (Protocol.generateMessageId (clock st (ticks st))
                (messageCounter st));
       SSEClient.type := default "agent" clientType;
       SSEClient.response := length (responses st);
       SSEClient.sessionId := default EmptyString sessionId |} in
  exists st' : BTCPServer.t,
    sessions st' = sessions st
    /\ sessionObjects st' = sessionObjects st
    /\ clients st' = JsMap.set (SSEClient.id client) client (clients st)
    /\ match mapM (agent_listing st)
               (List.filter (has_provider st) (sessions st)) with
       | Some listed =>
           handleSSE sessionId clientType st
           = (Normal (SSEOpened client), st')
           /\ keepAliveIntervals st'
              = JsMap.set (SSEClient.id client) (length (responses st))
                  (keepAliveIntervals st)
           /\ responses st'
              = responses st
                ++ [{| ServerResponse.written :=
                         [sse_frame
                            (createResponse (JStr "sessions")
                               (JObj [("sessions", JArr listed)]));
                          sse_frame (connected_notice client)];
                       ServerResponse.writableEnded := false |}]
       | None =>
           (exists e,
               handleSSE sessionId clientType st
               = (Throw (ThrownError e), st')
               /\ err_class e = TypeError)
           /\ keepAliveIntervals st' = keepAliveIntervals st
           /\ responses st' = responses st ++ [ServerResponse.fresh]
       end.
Proof.
  intros Hsid Hty. cbv zeta.
  rewrite (handleSSE_agent_run sessionId clientType st Hsid Hty).
  cbv zeta.
  destruct (mapM (agent_listing st)
              (List.filter (has_provider st) (sessions st)))
    as [listed | ].
  - eexists.
    split; [ | split; [ | split; [ | split; [ reflexivity | ] ] ] ].
    4: { unfold push. cbn.
         rewrite !lookup_app_r by lia. rewrite Nat.sub_diag. cbn.
         rewrite (alter_app_r_alt _ _ _ (length (responses st))) by lia.
         rewrite Nat.sub_diag. cbn.
         rewrite !lookup_app_r by lia. rewrite Nat.sub_diag. cbn.
         rewrite (alter_app_r_alt _ _ _ (length (responses st))) by lia.
         rewrite Nat.sub_diag. cbn. split; reflexivity. }
    all: repeat (cbn;
                 match goal with
                 | |- context [push ?res ?m ?st0] =>
                     first
                       [ rewrite (proj1 (push_frame res m st0))
                       | rewrite (proj1 (proj2 (push_frame res m st0)))
                       | rewrite (proj1 (proj2 (proj2
                                    (push_frame res m st0)))) ]
                 end); reflexivity.
  - eexists.
    split; [ | split; [ | split; [ | split ] ] ];
      [ | | | eexists; split; reflexivity | split; reflexivity ];
      reflexivity.
Qed.

End Agents.

Lemma agent_connect_witness :
  str_truthy (Some "B") = true
  /\ exists (client : SSEClient.t) (st' : BTCPServer.t),
       BTCPServer.handleSSE (H := MiniEngine.engine) (Some "B") None
         relay_joined
       = (Normal (BTCPServer.SSEOpened client), st')
       /\ SSEClient.type client = "agent"
       /\ BTCPServer.sessions st' = BTCPServer.sessions relay_joined
       /\ BTCPServer.sessionObjects st'
          = BTCPServer.sessionObjects relay_joined.
Proof.
  assert (Hs : str_truthy (Some "B") = true) by reflexivity.
  assert (Ht : String.eqb (default "agent" None) "browser" = false)
    by reflexivity.
  split; [ exact Hs | ].
  destruct (agent_connect (H := MiniEngine.engine) (Some "B") None
              relay_joined Hs Ht)
    as (st' & Hsessions & Hobjects & _ & Hrun).
  assert (Hl : is_Some
                 (mapM (agent_listing (H := MiniEngine.engine) relay_joined)
                    (List.filter (has_provider relay_joined)
                       (BTCPServer.sessions relay_joined))))
    by (vm_compute; eexists; reflexivity).
  destruct Hl as [listed Hl]. rewrite Hl in Hrun.
  destruct Hrun as (Hrun & _).
  eexists _, st'. split; [ exact Hrun | ].
  split; [ reflexivity | ]. split; [ exact Hsessions | exact Hobjects ].
Defined.


Section Registering.
Context `{JsEngine}.
Import Protocol BTCPServer.


End Registering.




Section Joining.
Context `{JsEngine}.
Import Protocol BTCPServer.




End Joining.



Section Stopping.
Context `{JsEngine}.
Import Protocol BTCPServer.

Lemma for_of_response_end_run (l : list SSEClient.t) (st : BTCPServer.t) :
  for_of l (fun client => response_end (SSEClient.response client)) st
  = (Normal tt, end_all l st).
Proof.
  revert st. induction l as [ | client l IH ]; intros st; cbn;
    [ reflexivity | ].
  unfold mbind at 1, M_bind, bind. unfold response_end at 1, modify at 1.
  apply IH.
Qed.

Lemma end_all_frame (l : list SSEClient.t) (st : BTCPServer.t) :
  sessions (end_all l st) = sessions st
  /\ clients (end_all l st) = clients st
  /\ sessionObjects (end_all l st) = sessionObjects st
  /\ timeouts (end_all l st) = timeouts st
  /\ keepAliveIntervals (end_all l st) = keepAliveIntervals st.
Proof.
  revert st. induction l as [ | client l IH ]; intros st; cbn;
    [ now repeat split | ].
  unfold end_all in IH.
  match goal with
  | |- context [fold_left _ l ?st0] =>
      destruct (IH st0) as (-> & -> & -> & -> & ->)
  end.
  now repeat split.
Qed.

Lemma end_all_ended (l : list SSEClient.t) (st : BTCPServer.t)
    (client : SSEClient.t) (r : ServerResponse.t) :
  In client l ->
  responses st !! SSEClient.response client = Some r ->
  responses (end_all l st) !! SSEClient.response client
  = Some (ServerResponse.end_ r).
Proof.
  assert (Hkeep : forall l st res r,
    responses st !! res = Some r ->
    ServerResponse.writableEnded r = true ->
    responses (end_all l st) !! res = Some r).
  { clear. intros l. induction l as [ | c l IH ]; intros st res r Hr He;
      [ exact Hr | ].
    cbn. apply IH; [ | exact He ]. cbn.
    destruct (decide (res = SSEClient.response c)) as [-> | Hne].
    - rewrite list_lookup_alter_eq, Hr. cbn. f_equal.
      destruct r as [w e]. cbn in *. now subst e.
    - now rewrite list_lookup_alter_ne by congruence. }
  revert st. induction l as [ | c l IH ]; intros st Hin Hr; [ easy | ].
  cbn. destruct (decide (SSEClient.response c = SSEClient.response client))
    as [E | Hne].
  - apply Hkeep; [ | reflexivity ]. cbn.
    rewrite E, list_lookup_alter_eq, Hr. reflexivity.
  - destruct Hin as [-> | Hin]; [ congruence | ].
    apply IH; [ exact Hin | ]. cbn.
    now rewrite list_lookup_alter_ne by congruence.
Qed.

(** X23.  [stop] ends the stream of every client and empties the
    sessions map, the client map and the keep-alive intervals; it writes
    nothing, and it leaves the timers of the forwarded requests armed.
    After [stop], whatever happens, nothing more is written to the
    stream of a client that the relay had recorded: a timer that fires
    pushes nothing. *)
Theorem stop_ends_every_stream (st : BTCPServer.t) (client : SSEClient.t)
    (r : ServerResponse.t) (evs : list Event) :
  In client (JsMap.values (clients st)) ->
  responses st !! SSEClient.response client = Some r ->
  exists st' : BTCPServer.t,
    stop st = (Normal tt, st')
    /\ sessions st' = []
    /\ clients st' = []
    /\ keepAliveIntervals st' = []
    /\ sessionObjects st' = sessionObjects st
    /\ timeouts st' = timeouts st
    /\ responses st' !! SSEClient.response client
       = Some {| ServerResponse.written := ServerResponse.written r;
                 ServerResponse.writableEnded := true |}
    /\ responses (run evs st') !! SSEClient.response client
       = Some {| ServerResponse.written := ServerResponse.written r;
                 ServerResponse.writableEnded := true |}.
Proof.
  intros Hin Hr.
  assert (Hrun :
    stop st
    = (Normal tt,
       with_sessions JsMap.empty
         (with_clients JsMap.empty
            (end_all (JsMap.values (clients st))
               (with_keepAliveIntervals JsMap.empty st))))).
  { unfold stop. unfold_M. cbn. now rewrite for_of_response_end_run. }
  rewrite Hrun. eexists. split; [ reflexivity | ].
  destruct (end_all_frame (JsMap.values (clients st))
              (with_keepAliveIntervals JsMap.empty st))
    as (Fs & Fc & Fo & Ft & Fk).
  assert (Hended :
    responses
      (with_sessions JsMap.empty
         (with_clients JsMap.empty
            (end_all (JsMap.values (clients st))
               (with_keepAliveIntervals JsMap.empty st))))
    !! SSEClient.response client
    = Some (ServerResponse.end_ r)).
  { cbn. now apply end_all_ended. }
  split; [ reflexivity | ]. split; [ reflexivity | ].
  split; [ cbn; now rewrite Fk | ].
  split; [ cbn; now rewrite Fo | ].
  split; [ cbn; now rewrite Ft | ].
  split; [ exact Hended | ].
  destruct (appends_run evs _ _ _ Hended) as (r' & Hr' & _ & He).
  rewrite Hr'. f_equal. now apply He.
Qed.

End Stopping.

Lemma stop_ends_every_stream_witness :
  In provider (JsMap.values (BTCPServer.clients relay_call_pending))
  /\ exists (r : ServerResponse.t) (st' : BTCPServer.t),
       BTCPServer.responses relay_call_pending !! 0 = Some r
       /\ BTCPServer.stop relay_call_pending = (Normal tt, st')
       /\ BTCPServer.responses
            (BTCPServer.run (H := MiniEngine.engine)
               [BTCPServer.TimeoutFires 0] st') !! 0
          = Some {| ServerResponse.written := ServerResponse.written r;
                    ServerResponse.writableEnded := true |}.
Proof.
  assert (Hin : In provider
                  (JsMap.values (BTCPServer.clients relay_call_pending)))
    by (vm_compute; left; reflexivity).
  assert (Hr : { r | BTCPServer.responses relay_call_pending
                     !! SSEClient.response provider = Some r })
    by (vm_compute; eexists; reflexivity).
  destruct Hr as [r Hr].
  split; [ exact Hin | ].
  destruct (stop_ends_every_stream (H := MiniEngine.engine)
              relay_call_pending provider r [BTCPServer.TimeoutFires 0]
              Hin Hr)
    as (st' & Hrun & _ & _ & _ & _ & _ & _ & Hlater).
  exists r, st'. split; [ exact Hr | ]. split; [ exact Hrun | exact Hlater ].
Defined.


(* ================================================================== *)
(** * server.ts: what holds in every state the relay reaches *)
(* ================================================================== *)

Section Reached.
Context `{JsEngine}.
Import Protocol BTCPServer.

(** X24.  A forwarded request is never dropped on its way to the
    provider.  In every state that the relay reaches the stream of a
    session's provider is open, so [tools/call] and [tools/list] for a
    session with a provider write exactly one frame to the provider's
    stream, the request under its internal id, write to no other stream,
    and arm one timer. *)
Theorem forward_reaches_provider (config : Config) (clock : nat -> Z)
    (kind : TimeoutKind) (st : BTCPServer.t) (r : nat) (s : Session.t)
    (b : SSEClient.t) (request : JsValue)
    (senderClient : option SSEClient.t) :
  reachable config clock st ->
  sessionObjects st !! r = Some s ->
  Session.browserClient s = Some b ->
  let internalId :=
    fst (Protocol.generateMessageId (BTCPServer.clock st (ticks st))
           (messageCounter st)) in
  exists st1 : BTCPServer.t,
    forwarder kind (Some r) request senderClient st = (Normal tt, st1)
    /\ written_to b st1
       = written_to b st
         ++ [sse_frame (js_spread_set request "id" (JStr internalId))]
    /\ (forall other,
           SSEClient.response other <> SSEClient.response b ->
           written_to other st1 = written_to other st)
    /\ timeouts st1
       = timeouts st
         ++ [{| timeout_kind := kind; timeout_session := r;
                timeout_internalId := internalId |}].
Proof.
  intros Hreach Hs Hb. cbv zeta.
  destruct (reachable_providers config clock st Hreach) as [Hopen _].
  pose proof (Hopen r s b Hs Hb) as Hob.
  pose proof (forwarder_run kind st r s b request senderClient Hs Hb)
    as Hrun. cbv zeta in Hrun.
  eexists. split; [ exact Hrun | ]. split; [ | split ].
  - match goal with
    | |- written_to b (with_timeouts _ (push ?res ?m ?st0)) = _ =>
        change (written_to b (push res m st0)
                = written_to b st0 ++ [sse_frame m])
    end.
    now apply push_written_open.
  - intros other Hne.
    match goal with
    | |- written_to other (with_timeouts _ (push ?res ?m ?st0)) = _ =>
        change (written_to other (push res m st0) = written_to other st0)
    end.
    apply push_written_other. congruence.
  - reflexivity.
Qed.

(** X25.  The sessions map holds no idle session.  In every state that
    the relay reaches, a session id of the sessions map names a session
    object that has a provider or at least one client in its caller map
    (possibly one whose stream has closed), and it is the only id that
    names that object. *)
Theorem sessions_never_idle (config : Config) (clock : nat -> Z)
    (st : BTCPServer.t) (sessionId : string) (r : nat) :
  reachable config clock st ->
  JsMap.get sessionId (sessions st) = Some r ->
  exists s,
    sessionObjects st !! r = Some s
    /\ is_idle s = false
    /\ forall other,
         JsMap.get other (sessions st) = Some r -> other = sessionId.
Proof.
  intros Hreach Hr.
  destruct (reachable_sessions_live config clock st Hreach) as [Hlive Hinj].
  destruct (Hlive sessionId r Hr) as (s & Hs & Hidle).
  exists s. split; [ exact Hs | ]. split.
  - destruct (is_idle s) eqn:E; [ | reflexivity ].
    exfalso. apply Hidle. now apply is_idle_spec.
  - intros other Ho. exact (Hinj other sessionId r Ho Hr).
Qed.

End Reached.

Lemma forward_reaches_provider_witness :
  reachable (H := MiniEngine.engine) demo_config demo_clock relay_joined
  /\ Session.browserClient (session_at 0 relay_joined) = Some provider
  /\ exists st1 : BTCPServer.t,
       forwarder (H := MiniEngine.engine) BTCPServer.ToolsCallTimeout
         (Some 0) call_echo (Some caller) relay_joined
       = (Normal tt, st1)
       /\ written_to provider st1
          = written_to provider relay_joined
            ++ [BTCPServer.sse_frame (H := MiniEngine.engine)
                  (js_spread_set call_echo "id" (JStr internal_id))].
Proof.
  assert (Hreach : reachable (H := MiniEngine.engine) demo_config demo_clock
                     relay_joined)
    by (apply reachable_run; constructor).
  assert (Hs : BTCPServer.sessionObjects relay_joined !! 0
               = Some (session_at 0 relay_joined))
    by (vm_compute; reflexivity).
  assert (Hb : Session.browserClient (session_at 0 relay_joined)
               = Some provider) by (vm_compute; reflexivity).
  assert (Hid : fst (Protocol.generateMessageId
                       (BTCPServer.clock relay_joined
                          (BTCPServer.ticks relay_joined))
                       (BTCPServer.messageCounter relay_joined))
                = internal_id)
    by (vm_compute; reflexivity).
  split; [ exact Hreach | ]. split; [ exact Hb | ].
  destruct (forward_reaches_provider (H := MiniEngine.engine) demo_config
              demo_clock BTCPServer.ToolsCallTimeout relay_joined 0 _
              provider call_echo (Some caller) Hreach Hs Hb)
    as (st1 & Hrun & Hw & _).
  rewrite Hid in Hw.
  exists st1. split; [ exact Hrun | exact Hw ].
Defined.

Lemma sessions_never_idle_witness :
  reachable (H := MiniEngine.engine) demo_config demo_clock relay_caller_gone
  /\ JsMap.get "S" (BTCPServer.sessions relay_caller_gone) = Some 0
  /\ exists s,
       BTCPServer.sessionObjects relay_caller_gone !! 0 = Some s
       /\ is_idle s = false.
Proof.
  assert (Hreach : reachable (H := MiniEngine.engine) demo_config demo_clock
                     relay_caller_gone)
    by (apply reachable_step, reachable_run, reachable_init).
  assert (Hr : JsMap.get "S" (BTCPServer.sessions relay_caller_gone)
               = Some 0) by (vm_compute; reflexivity).
  split; [ exact Hreach | ]. split; [ exact Hr | ].
  destruct (sessions_never_idle (H := MiniEngine.engine) demo_config
              demo_clock relay_caller_gone "S" 0 Hreach Hr)
    as (s & Hs & Hidle & _).
  exists s. split; [ exact Hs | exact Hidle ].
Defined.


(* ================================================================== *)
(** * server.ts: the list of sessions *)
(* ================================================================== *)

Section Listing.
Context `{JsEngine}.
Import Protocol BTCPServer.

Lemma handleSessionsList_run (st : BTCPServer.t) :
  handleSessionsList st
  = match mapM (session_item st) (sessions st) with
    | Some listed =>
        (Normal {| statusCode := 200;
                   body := JObj [("sessions", JArr listed)] |}, st)
    | None =>
        (Throw (ThrownError
                  (new_TypeError "Cannot read properties of undefined")),
         st)
    end.
Proof.
  unfold handleSessionsList. unfold mbind at 1, M_bind, bind.
  unfold gets at 1. cbn [fst snd]. unfold mbind at 1, M_bind, bind.
  unfold JsMap.entries.
  rewrite (map_M_reads _ (session_item st)
             (ThrownError
                (new_TypeError "Cannot read properties of undefined"))).
  2: { intros [id r]. unfold session_item, session_at, deref. unfold_M.
       cbn.
       now destruct (js_length
                       (Session.tools
                          (default Session.none (sessionObjects st !! r)))). }
  now destruct (mapM (session_item st) (sessions st)).
Qed.

Lemma JsMap_get_In {V} (k : string) (v : V) (m : JsMap.t V) :
  JsMap.get k m = Some v -> In (k, v) m.
Proof.
  induction m as [ | [k' v'] m IH ]; cbn; [ discriminate | ].
  destruct (String.eqb k k') eqn:E.
  - apply String.eqb_eq in E. subst k'. intros [= ->]. now left.
  - intros Hg. right. now apply IH.
Qed.

(** X30.  [GET /sessions] changes nothing.  When it answers, it answers
    200 with one item for each entry of the sessions map, in the order
    of the map, and in a state that the relay reaches the item of a
    session says that it has a provider or counts at least one caller.
    It throws a [TypeError] only when the tool list of a session in the
    map is [undefined] or [null]. *)
Theorem sessions_list_shows_live_sessions (config : Config)
    (clock : nat -> Z) (st : BTCPServer.t) :
  reachable config clock st ->
  snd (handleSessionsList st) = st
  /\ match fst (handleSessionsList st) with
     | Normal reply =>
         statusCode reply = 200%Z
         /\ exists items,
              body reply = JObj [("sessions", JArr items)]
              /\ map (fun item => js_prop item "id") items
                 = map JStr (JsMap.keys (sessions st))
              /\ forall sessionId r,
                   JsMap.get sessionId (sessions st) = Some r ->
                   exists item,
                     In item items
                     /\ js_prop item "id" = JStr sessionId
                     /\ (js_prop item "hasBrowser" = JBool true
                         \/ exists n,
                              js_prop item "agentCount" = JNum n
                              /\ (0 < n)%Z)
     | Throw error =>
         instanceof error TypeError = true
         /\ exists sessionId r,
              In (sessionId, r) (sessions st)
              /\ is_nullish (Session.tools (session_at r st)) = true
     end.
Proof.
  intros Hreach. rewrite handleSessionsList_run.
  destruct (mapM (session_item st) (sessions st)) as [listed | ] eqn:E;
    cbn [fst snd]; (split; [ reflexivity | ]).
  - split; [ reflexivity | ]. exists listed. split; [ reflexivity | ].
    apply mapM_Some in E.
    split.
    + induction E as [ | [id r] item entries items Hitem _ IH ];
        [ reflexivity | ].
      cbn [map JsMap.keys]. unfold JsMap.keys in IH. rewrite IH. f_equal.
      unfold session_item in Hitem.
      destruct (js_length _); [ | discriminate ].
      now injection Hitem as <-.
    + intros sessionId r Hget.
      destruct (reachable_sessions_live config clock st Hreach)
        as [Hlive _].
      destruct (Hlive sessionId r Hget) as (s & Hs & Hidle).
      apply JsMap_get_In, list_elem_of_In, list_elem_of_lookup_1 in Hget.
      destruct Hget as [i Hi].
      destruct (Forall2_lookup_l _ _ _ _ _ E Hi) as (item & Hin & Hitem).
      exists item. split.
      { apply list_elem_of_In. eapply list_elem_of_lookup_2, Hin. }
      unfold session_item, session_at in Hitem. cbn [fst snd] in Hitem.
      rewrite Hs in Hitem.
      change (default Session.none (Some s)) with s in Hitem.
      destruct (js_length (Session.tools s)); [ | discriminate ].
      injection Hitem as <-.
      split; [ reflexivity | ].
      destruct (Session.browserClient s) as [b | ] eqn:Eb;
        [ now left | right ].
      eexists. split; [ reflexivity | ].
      destruct (Session.agentClients s) as [ | a l ] eqn:Ea;
        [ | cbn; lia ].
      exfalso. apply Hidle. now split.
  - split; [ reflexivity | ].
    assert (Hex : Exists (fun entry => session_item st entry = None)
                    (sessions st)).
    { clear Hreach. induction (sessions st) as [ | entry entries IH ];
        [ discriminate | ].
      cbn [mapM] in E.
      destruct (session_item st entry) as [item | ] eqn:Ei;
        [ | now left ].
      right. apply IH. cbn in E.
      now destruct (mapM (session_item st) entries). }
    apply Exists_exists in Hex. destruct Hex as ([sessionId r] & Hin & Hnone).
    exists sessionId, r. split; [ now apply list_elem_of_In | ].
    unfold session_item in Hnone. cbn [snd] in Hnone.
    now destruct (Session.tools (session_at r st)).
Qed.

End Listing.

Lemma sessions_list_shows_live_sessions_witness :
  reachable (H := MiniEngine.engine) demo_config demo_clock relay_caller_gone
  /\ snd (BTCPServer.handleSessionsList (H := MiniEngine.engine)
            relay_caller_gone)
     = relay_caller_gone.
Proof.
  assert (Hreach : reachable (H := MiniEngine.engine) demo_config demo_clock
                     relay_caller_gone)
    by (apply reachable_step, reachable_run, reachable_init).
  split; [ exact Hreach | ].
  exact (proj1 (sessions_list_shows_live_sessions (H := MiniEngine.engine)
                  demo_config demo_clock relay_caller_gone Hreach)).
Defined.


(* ================================================================== *)
(** * server.ts: the ids of the clients *)
(* ================================================================== *)

Section ClientIds.
Context `{JsEngine}.
Import Protocol BTCPServer.

#[export] Instance forgets_preorder : PreOrder forgets.
Proof.
  split.
  - intros st. split; [ reflexivity | auto ].
  - intros st1 st2 st3 [E1 H1] [E2 H2]. split; [ congruence | auto ].
Qed.

#[export] Instance forgets_Forgets : Forgets forgets.
Proof. split; [ apply _ | auto ]. Qed.

#[export] Instance records_under_preorder (id0 : string)
  : PreOrder (records_under id0).
Proof.
  split.
  - intros st. split; [ reflexivity | auto ].
  - intros st1 st2 st3 [E1 H1] [E2 H2]. split; [ congruence | ].
    intros id H3. destruct (H2 id H3) as [H2' | ->]; [ auto | now right ].
Qed.

#[export] Instance records_under_Forgets (id0 : string)
  : Forgets (records_under id0).
Proof.
  split; [ apply _ | ]. intros st st' [E Hf]. split; [ exact E | auto ].
Qed.

#[export] Instance records_fresh_preorder : PreOrder records_fresh.
Proof.
  split.
  - intros st. split; [ reflexivity | auto ].
  - intros st1 st2 st3 [E1 H1] [E2 H2]. split; [ lia | ].
    intros id H3. destruct (H2 id H3) as [H2' | Hi].
    + destruct (H1 id H2') as [H1' | Hi]; [ now left | right ].
      eapply issued_wider; [ | | exact Hi ]; lia.
    + right. eapply issued_wider; [ | | exact Hi ]; lia.
Qed.

#[export] Instance records_fresh_Forgets : Forgets records_fresh.
Proof.
  split; [ apply _ | ]. intros st st' [E Hf]. split; [ lia | auto ].
Qed.

Lemma relates_forgets (R : relation BTCPServer.t) `{!Forgets R} {A}
    (m : M A) :
  relates forgets m -> relates R m.
Proof. intros Hm st. apply Forgets_sub, Hm. Qed.

Lemma forgets_same (st st' : BTCPServer.t) :
  messageCounter st' = messageCounter st ->
  clients st' = clients st ->
  forgets st st'.
Proof.
  intros Ec El. split; [ exact Ec | ]. intros id. unfold recorded.
  now rewrite El.
Qed.

Lemma forgets_modify (f : BTCPServer.t -> BTCPServer.t) :
  (forall st, messageCounter (f st) = messageCounter st
              /\ clients (f st) = clients st) ->
  relates forgets (modify f).
Proof. intros Hf st. apply forgets_same; apply Hf. Qed.

Lemma forgets_sendToClient (client : SSEClient.t) (message : JsValue) :
  relates forgets (sendToClient client message).
Proof.
  intros st. rewrite sendToClient_run. apply forgets_same; apply push_frame.
Qed.

Lemma forgets_Date_now : relates forgets Date_now.
Proof. intros st. now apply forgets_same. Qed.

Lemma forgets_delete (clientId : string) :
  relates forgets
    (modify (fun st =>
               with_clients (JsMap.delete clientId (clients st)) st)).
Proof.
  intros st. split; [ reflexivity | ]. intros id [c Hc]. cbn in Hc.
  destruct (String.eqb id clientId) eqn:E.
  - apply String.eqb_eq in E. subst id.
    now rewrite JsMap_get_delete_eq in Hc.
  - apply String.eqb_neq in E.
    rewrite JsMap_get_delete_ne in Hc by congruence. now exists c.
Qed.

Lemma records_under_set (id0 : string) (client : SSEClient.t) :
  relates (records_under id0)
    (modify (fun st =>
               with_clients (JsMap.set id0 client (clients st)) st)).
Proof.
  intros st. split; [ reflexivity | ]. intros id [c Hc]. cbn in Hc.
  destruct (String.eqb id id0) eqn:E.
  - apply String.eqb_eq in E. now right.
  - apply String.eqb_neq in E. left.
    rewrite JsMap_get_set_ne in Hc by congruence. now exists c.
Qed.

Lemma records_fresh_generateMessageId :
  relates records_fresh generateMessageId.
Proof.
  intros st. rewrite generateMessageId_run. split; [ cbn; lia | ].
  intros id Hid. now left.
Qed.

Lemma records_fresh_generate_then {A} (k : string -> M A) :
  (forall id, relates (records_under id) (k id)) ->
  relates records_fresh (generateMessageId ≫= k).
Proof.
  intros Hk st. unfold_M. rewrite generateMessageId_run.
  destruct (Hk (fst (Protocol.generateMessageId (clock st (ticks st))
                       (messageCounter st)))
              (with_messageCounter (messageCounter st + 1)
                 (with_ticks (S (ticks st)) st)))
    as [Ec Hr].
  split; [ rewrite Ec; cbn; lia | ].
  intros id Hid. destruct (Hr id Hid) as [Hold | ->].
  - now left.
  - right. rewrite Ec. cbn. eexists _, (messageCounter st).
    split; [ reflexivity | lia ].
Qed.

End ClientIds.

(** The steps of the handlers that change the state, for the relations
    on the client map. *)
Ltac forgets_leaf :=
  idtac;
  lazymatch goal with
  | |- relates (records_under _)
         (BTCPServer.modify
            (fun st => BTCPServer.with_clients (JsMap.set _ _ _) st)) =>
      apply records_under_set
  | |- relates records_fresh BTCPServer.generateMessageId =>
      apply records_fresh_generateMessageId
  | |- relates _ (BTCPServer.sendToClient _ _) =>
      apply relates_forgets; [ exact _ | apply forgets_sendToClient ]
  | |- relates _ BTCPServer.Date_now =>
      apply relates_forgets; [ exact _ | apply forgets_Date_now ]
  | |- relates _ (BTCPServer.modify _) =>
      apply relates_forgets;
      [ exact _
      | first [ apply forgets_modify; intros ?; split; reflexivity
              | apply forgets_delete ] ]
  end.

Ltac forgets_tac := repeat frame_step forgets_leaf.

Section ClientIdsOfHandlers.
Context `{JsEngine}.
Import Protocol BTCPServer.

Lemma records_fresh_handleSSE (sessionId clientType : option string) :
  relates records_fresh (handleSSE sessionId clientType).
Proof.
  unfold handleSSE. apply records_fresh_generate_then. intros clientId.
  unfold handleBrowserConnect, handleAgentConnect, new_response,
    new_session, update_session, response_end.
  forgets_tac.
Qed.

Lemma records_fresh_handleMessage (sessionId clientId : option string)
    (body : string) :
  relates records_fresh (handleMessage sessionId clientId body).
Proof.
  unfold handleMessage, routeMessage, findSenderClient, handleToolResponse,
    handleToolsRegister, handleToolsList, handleToolsCall,
    handleSessionJoin, handlePing, update_session, setTimeout.
  forgets_tac.
Qed.

Lemma forgets_handleDisconnect (clientId : string) :
  relates forgets (handleDisconnect clientId).
Proof. unfold handleDisconnect, update_session. forgets_tac. Qed.

Lemma forgets_run_timeout (t : Timeout) : relates forgets (run_timeout t).
Proof.
  unfold run_timeout, handleToolsList_timeout, handleToolsCall_timeout,
    update_session.
  forgets_tac.
Qed.

Lemma forgets_keepAlive (res : nat) : relates forgets (keepAlive res).
Proof. unfold keepAlive, response_write. forgets_tac. Qed.

Lemma records_fresh_step (ev : Event) (st : BTCPServer.t) :
  records_fresh st (step ev st).
Proof.
  destruct ev as [ sid ty | sid cid body | cid | n | cid ]; cbn.
  - apply records_fresh_handleSSE.
  - apply records_fresh_handleMessage.
  - apply Forgets_sub, forgets_handleDisconnect.
  - destruct (timeouts st !! n) as [t | ]; [ | reflexivity ].
    etransitivity; [ | apply Forgets_sub, forgets_run_timeout ].
    apply Forgets_sub. now apply forgets_same.
  - destruct (JsMap.get cid (keepAliveIntervals st)); [ | reflexivity ].
    apply Forgets_sub, forgets_keepAlive.
Qed.

Lemma reachable_clients_issued (config : Config) (clock : nat -> Z)
    (st : BTCPServer.t) :
  reachable config clock st -> clients_issued st.
Proof.
  induction 1 as [ | st ev _ [Hc Hi] ].
  - split; [ cbn; lia | ]. intros id [c Hc]. discriminate.
  - destruct (records_fresh_step ev st) as [Hle Hf].
    split; [ lia | ]. intros id Hid. destruct (Hf id Hid) as [Hold | Hnew].
    + eapply issued_wider; [ | | exact (Hi id Hold) ]; lia.
    + eapply issued_wider; [ | | exact Hnew ]; lia.
Qed.

Lemma yields_bind {A B} (P : B -> Prop) (m : M A) (k : A -> M B) :
  (forall a, yields P (k a)) -> yields P (m ≫= k).
Proof.
  intros Hk st b st'. unfold_M.
  destruct (m st) as [[a | e] st1]; [ apply Hk | discriminate ].
Qed.

Lemma yields_ret {A} (P : A -> Prop) (a : A) : P a -> yields P (ret a).
Proof. intros Ha st a' st' [= <- _]. exact Ha. Qed.

#[export] Instance keeps_clients_preorder : PreOrder keeps_clients.
Proof.
  split.
  - intros st. reflexivity.
  - intros st1 st2 st3 E1 E2. unfold keeps_clients in *. congruence.
Qed.

Lemma keeps_clients_sendToClient (client : SSEClient.t)
    (message : JsValue) :
  relates keeps_clients (sendToClient client message).
Proof. intros st. rewrite sendToClient_run. apply push_frame. Qed.

(** What [handleSSE] does after it has recorded the client. *)
Lemma handleSSE_recorded (client : SSEClient.t) (st st' : BTCPServer.t)
    (result : SSEResult) :
  ((if String.eqb (SSEClient.type client) "browser"
    then handleBrowserConnect client
    else handleAgentConnect client);;
   modify (fun st =>
             with_keepAliveIntervals
               (JsMap.set (SSEClient.id client) (SSEClient.response client)
                  (keepAliveIntervals st)) st);;
   sendToClient client (connected_notice client);;
   ret (SSEOpened client)) st
  = (Normal result, st') ->
  result = SSEOpened client /\ clients st' = clients st.
Proof.
  intros Hrun. split.
  - revert Hrun.
    match goal with
    | |- ?m st = _ -> _ =>
        assert (Hy : yields (fun result => result = SSEOpened client) m);
        [ | intros Hrun; exact (Hy _ _ _ Hrun) ]
    end.
    repeat (apply yields_bind; intros ?). now apply yields_ret.
  - match type of Hrun with
    | ?m st = _ =>
        assert (Hk : relates keeps_clients m);
        [ | specialize (Hk st); rewrite Hrun in Hk; exact Hk ]
    end.
    unfold handleBrowserConnect, handleAgentConnect, new_session,
      update_session, response_end.
    repeat frame_step
      ltac:(idtac;
            lazymatch goal with
            | |- relates _ (sendToClient _ _) =>
                apply keeps_clients_sendToClient
            | |- relates _ Date_now => intros ?; reflexivity
            | |- relates _ (modify _) => intros ?; reflexivity
            end).
Qed.

(** X26.  A client id is never given to two clients at a time.  In every
    state that the relay reaches, the id that [handleSSE] generates for
    a new event stream is the id of no client in the client map, so
    recording the new client replaces none. *)
Theorem client_ids_are_fresh (config : Config) (clock : nat -> Z)
    (st st' : BTCPServer.t) (sessionId clientType : option string)
    (client : SSEClient.t) :
  reachable config clock st ->
  handleSSE sessionId clientType st = (Normal (SSEOpened client), st') ->
  SSEClient.id client
  = fst (Protocol.generateMessageId (BTCPServer.clock st (ticks st))
           (messageCounter st))
  /\ JsMap.get (SSEClient.id client) (clients st) = None
  /\ JsMap.get (SSEClient.id client) (clients st') = Some client.
Proof.
  intros Hreach Hrun.
  assert (Hnew :
    SSEClient.id client
    = fst (Protocol.generateMessageId (BTCPServer.clock st (ticks st))
             (messageCounter st))
    /\ JsMap.get (SSEClient.id client) (clients st') = Some client).
  { revert Hrun. unfold handleSSE. unfold mbind at 1, M_bind, bind.
    rewrite generateMessageId_run. cbn [fst snd].
    destruct (negb (str_truthy sessionId)); [ discriminate | ].
    unfold new_response. unfold mbind at 1, M_bind, bind, gets at 1.
    cbn [fst snd].
    unfold mbind at 1, M_bind, bind. unfold mbind at 1, M_bind, bind.
    unfold modify at 1, ret at 1. cbn [fst snd].
    unfold mbind at 1, M_bind, bind. unfold modify at 1. cbn [fst snd].
    intros Hrun. apply handleSSE_recorded in Hrun.
    destruct Hrun as [[= ->] Hc]. cbn [SSEClient.id].
    split; [ reflexivity | ].
    rewrite Hc. cbn. apply JsMap_get_set_eq. }
  destruct Hnew as [Hid Hrec].
  split; [ exact Hid | ]. split; [ | exact Hrec ].
  destruct (reachable_clients_issued config clock st Hreach) as [Hc Hi].
  destruct (JsMap.get (SSEClient.id client) (clients st)) as [c | ] eqn:E;
    [ | reflexivity ].
  exfalso. refine (issued_apart _ 0 (messageCounter st)
                     (messageCounter st + 1) (Z.le_refl 0)
                     (Hi (SSEClient.id client) _) _).
  - unfold recorded. rewrite E. now eexists.
  - rewrite Hid. eexists _, (messageCounter st).
    split; [ reflexivity | lia ].
Qed.

End ClientIdsOfHandlers.

Lemma client_ids_are_fresh_witness :
  reachable (H := MiniEngine.engine) demo_config demo_clock relay_joined
  /\ exists (client : SSEClient.t) (st' : BTCPServer.t),
       BTCPServer.handleSSE (H := MiniEngine.engine) (Some "B")
         (Some "agent") relay_joined
       = (Normal (BTCPServer.SSEOpened client), st')
       /\ JsMap.get (SSEClient.id client) (BTCPServer.clients relay_joined)
          = None
       /\ JsMap.get (SSEClient.id client) (BTCPServer.clients st')
          = Some client.
Proof.
  assert (Hreach : reachable (H := MiniEngine.engine) demo_config demo_clock
                     relay_joined)
    by (apply reachable_run; constructor).
  assert (Hrun :
    { p : SSEClient.t * BTCPServer.t |
      BTCPServer.handleSSE (H := MiniEngine.engine) (Some "B")
        (Some "agent") relay_joined
      = (Normal (BTCPServer.SSEOpened (fst p)), snd p) })
    by (vm_compute; eexists (_, _); reflexivity).
  destruct Hrun as [[client st'] Hrun]. cbn [fst snd] in Hrun.
  split; [ exact Hreach | ].
  destruct (client_ids_are_fresh (H := MiniEngine.engine) demo_config
              demo_clock relay_joined st' (Some "B") (Some "agent") client
              Hreach Hrun)
    as (_ & Hfresh & Hrec).
  exists client, st'.
  split; [ exact Hrun | ]. split; [ exact Hfresh | exact Hrec ].
Defined.


(* ================================================================== *)
(** * A tool call from the caller to the handler and back *)
(* ================================================================== *)

Section RoundTrip.
Context `{JsEngine}.
Import Protocol BTCPServer.



End RoundTrip.



(* ================================================================== *)
(** * A registration from the provider to the relay and back *)
(* ================================================================== *)

Section RegistrationRoundTrip.
Context `{JsEngine}.
Import Protocol BTCPServer.

(** X10.  [registerTools] posts one [tools/register] request, the one
    that [createToolsRegisterRequest] makes, with the tools it is given
    or else the definitions of the executor, and files nothing for it.
    The relay, given that POST for a session with a provider, makes the
    tools the tool list of the session, pushes every caller of the
    session [tools/updated], and then pushes the provider an
    acknowledgement that counts the tools.  The client that gets the
    acknowledgement announces it as a [message] and settles nothing with
    it.  [parseMessage] is taken to read back the two messages from
    their serialized text. *)
Theorem registerTools_round_trip (c : BTCPClient.t) (now now' : Z)
    (net1 net2 : BTCPClient.FetchOutcome) (given : option (list JsValue))
    (st : BTCPServer.t) (sessionId : string) (clientId : option string)
    (r : nat) (s : Session.t) (b : SSEClient.t) :
  let tools :=
    match given with Some items => JArr items | None => JUndefined end in
  let items :=
    default (ToolExecutor.getToolDefinitions (BTCPClient.executor c))
      given in
  let id :=
    fst (Protocol.generateMessageId now (BTCPClient.messageCounter c)) in
  let request :=
    fst (createToolsRegisterRequest now (BTCPClient.messageCounter c)
           (JArr items)) in
  let ack :=
    createResponse (JStr id)
      (JObj [("success", JBool true);
             ("registered", JNum (Z.of_nat (length items)))]) in
  BTCPClient.pendingRequests c !! id = None ->
  str_truthy (Some sessionId) = true ->
  JsMap.get sessionId (sessions st) = Some r ->
  sessionObjects st !! r = Some s ->
  Session.browserClient s = Some b ->
  parseMessage (serializeMessage request) = Normal request ->
  parseMessage (serializeMessage ack) = Normal ack ->
  exists (c1 : BTCPClient.t) (st1 : BTCPServer.t),
    BTCPClient.registerTools now BTCPClient.FetchOk tools c = (Normal tt, c1)
    /\ BTCPClient.posted c1
       = BTCPClient.posted c ++ [serializeMessage request]
    /\ BTCPClient.pendingRequests c1 = BTCPClient.pendingRequests c
    /\ handleMessage (Some sessionId) clientId (serializeMessage request) st
       = (Normal {| statusCode := 200;
                    body := JObj [("success", JBool true)] |}, st1)
    /\ Session.tools (session_at r st1) = JArr items
    /\ responses st1
       = responses
           (push (SSEClient.response b) ack
              (push_all (JsMap.values (Session.agentClients s))
                 (JObj [("jsonrpc", JStr "2.0");
                        ("method", JStr "tools/updated");
                        ("params", JObj [("tools", JArr items)])])
                 st))
    /\ BTCPClient.handleMessage now' net1 net2 (serializeMessage ack) c1
       = BTCPClient.emit "message" [BTCPClient.ArgValue ack] c1.
Proof.
  intros tools items id request ack Hfresh Htruthy Hsid Hs Hb Hp1 Hp2.
  assert (Hlt : r < length (sessionObjects st))
    by now apply lookup_lt_Some in Hs.
  assert (Hreq : request
                 = JObj [("jsonrpc", JStr "2.0"); ("id", JStr id);
                         ("method", JStr "tools/register");
                         ("params", JObj [("tools", JArr items)])])
    by reflexivity.
  eexists. eexists.
  split.
  { unfold BTCPClient.registerTools.
    replace (if is_nullish tools then _ else tools) with (JArr items)
      by (unfold tools, items; now destruct given).
    cbn [generateMessageId]. unfold BTCPClient.sendMessage.
    reflexivity. }
  split; [ reflexivity | ].
  split; [ reflexivity | ].
  assert (Hroute :
    routeMessage sessionId request clientId st
    = (Normal tt,
       push (SSEClient.response b) ack
         (push_all (JsMap.values (Session.agentClients s))
            (JObj [("jsonrpc", JStr "2.0");
                   ("method", JStr "tools/updated");
                   ("params", JObj [("tools", JArr items)])])
            (with_sessionObjects
               (<[r := Session.with_tools (JArr items) s]>
                  (sessionObjects st)) st)))).
  { unfold routeMessage. unfold mbind at 1, M_bind, bind, gets at 1.
    cbn [fst snd]. rewrite Hsid. unfold mbind at 1, M_bind, bind.
    destruct (findSenderClient_run sessionId clientId st) as [sender ->].
    rewrite Hreq.
    change (isResponse (JObj _)) with false.
    change (isRequest (JObj _)) with true.
    cbv iota. cbn [negb].
    change (js_is_string (js_prop (JObj _) "method") "tools/register")
      with true.
    cbv iota.
    unfold handleToolsRegister, update_session, deref. unfold_M. cbn.
    rewrite Hs. cbn. rewrite Hb. cbn.
    rewrite (alter_lookup_insert _ _ _ _ Hs).
    rewrite list_lookup_insert_eq by assumption. cbn.
    rewrite for_of_sendToClient_run.
    rewrite push_all_sessionObjects. cbn.
    rewrite list_lookup_insert_eq by assumption. cbn. rewrite Hb.
    rewrite sendToClient_run. reflexivity. }
  split.
  { unfold handleMessage. rewrite Htruthy. cbn [negb].
    change (default EmptyString (Some sessionId)) with sessionId.
    unfold_M. rewrite Hp1, Hroute. reflexivity. }
  split.
  { unfold session_at.
    rewrite push_sessionObjects, push_all_sessionObjects. cbn.
    now rewrite list_lookup_insert_eq by assumption. }
  split.
  { apply push_responses, push_all_responses. reflexivity. }
  unfold BTCPClient.handleMessage. rewrite Hp2.
  change (isRequest ack) with false. change (isResponse ack) with true.
  cbv iota. unfold BTCPClient.handleResponse.
  change (js_prop ack "id") with (JStr id). cbv beta iota.
  match goal with
  | |- context [BTCPClient.pendingRequests ?c' !! id] =>
      change (BTCPClient.pendingRequests c' !! id)
        with (BTCPClient.pendingRequests c !! id)
  end.
  now rewrite Hfresh.
Qed.

End RegistrationRoundTrip.

Lemma registerTools_round_trip_witness :
  Session.browserClient (session_at 0 relay_joined) = Some provider
  /\ exists (c1 : BTCPClient.t) (st1 : BTCPServer.t) (post : string),
       BTCPClient.registerTools (H := MiniEngine.engine) 1700000000004
         BTCPClient.FetchOk (JArr [JObj [("name", JStr "echo")]])
         connected_client
       = (Normal tt, c1)
       /\ BTCPClient.posted c1 = BTCPClient.posted connected_client ++ [post]
       /\ BTCPServer.handleMessage (H := MiniEngine.engine) (Some "S") None
            post relay_joined
          = (Normal {| statusCode := 200;
                       body := JObj [("success", JBool true)] |}, st1)
       /\ Session.tools (session_at 0 st1)
          = JArr [JObj [("name", JStr "echo")]].
Proof.
  assert (Hf : BTCPClient.pendingRequests connected_client
               !! fst (Protocol.generateMessageId 1700000000004
                         (BTCPClient.messageCounter connected_client))
               = None) by (vm_compute; reflexivity).
  assert (Ht : str_truthy (Some "S") = true) by reflexivity.
  assert (Hsid : JsMap.get "S" (BTCPServer.sessions relay_joined) = Some 0)
    by (vm_compute; reflexivity).
  assert (Hs : BTCPServer.sessionObjects relay_joined !! 0
               = Some (session_at 0 relay_joined))
    by (vm_compute; reflexivity).
  assert (Hb : Session.browserClient (session_at 0 relay_joined)
               = Some provider) by (vm_compute; reflexivity).
  assert (Hp1 :
    Protocol.parseMessage (H := MiniEngine.engine)
      (Protocol.serializeMessage (H := MiniEngine.engine)
         (fst (Protocol.createToolsRegisterRequest 1700000000004
                 (BTCPClient.messageCounter connected_client)
                 (JArr [JObj [("name", JStr "echo")]]))))
    = Normal
        (fst (Protocol.createToolsRegisterRequest 1700000000004
                (BTCPClient.messageCounter connected_client)
                (JArr [JObj [("name", JStr "echo")]]))))
    by (vm_compute; reflexivity).
  assert (Hp2 :
    Protocol.parseMessage (H := MiniEngine.engine)
      (Protocol.serializeMessage (H := MiniEngine.engine)
         (Protocol.createResponse
            (JStr (fst (Protocol.generateMessageId 1700000000004
                          (BTCPClient.messageCounter connected_client))))
            (JObj [("success", JBool true);
                   ("registered",
                    JNum (Z.of_nat
                            (length [JObj [("name", JStr "echo")]])))])))
    = Normal
        (Protocol.createResponse
           (JStr (fst (Protocol.generateMessageId 1700000000004
                         (BTCPClient.messageCounter connected_client))))
           (JObj [("success", JBool true);
                  ("registered",
                   JNum (Z.of_nat
                           (length [JObj [("name", JStr "echo")]])))])))
    by (vm_compute; reflexivity).
  split; [ exact Hb | ].
  destruct (registerTools_round_trip (H := MiniEngine.engine)
              connected_client 1700000000004 1700000000005
              BTCPClient.FetchOk BTCPClient.FetchOk
              (Some [JObj [("name", JStr "echo")]])
              relay_joined "S" None 0 _ provider
              Hf Ht Hsid Hs Hb Hp1 Hp2)
    as (c1 & st1 & Hreg & Hposted & _ & Hpost & Htools & _).
  exists c1, st1. eexists.
  split; [ exact Hreg | ]. split; [ exact Hposted | ].
  split; [ exact Hpost | exact Htools ].
Defined.

